(** * rbac-srvc: services, roles, role expansion and paging

    A shallow embedding of the route handlers of the RBAC service
    ([routes/serviceApi.ts], [routes/rolesApi.ts], [routes/rolexpandApi.ts],
    [models/roles.ts], [models/service.ts], [startup/utils/sendAudit.ts])
    and the properties of the specification that are checked against it.

    The two MongoDB collections are lists of documents in natural order.
    Handlers are computations in a state-and-exception monad over a [World]
    that holds the collections, the audit configuration and a trace of every
    store access and audit post. *)

From Stdlib Require Import ZArith Lia Ascii String.
From stdpp Require Import base list strings pretty.

Open Scope string_scope.
Open Scope list_scope.
Open Scope Z_scope.

(** ** Data model *)

(** An identifier as a request or a document carries it: in a document a
    string that spells its ObjectId, in a request any string at all. *)
Definition Identifier := string.

(** ** ObjectIds

    The store keeps an [_id] as an ObjectId, twelve bytes that print as 24
    hexadecimal digits in lower case.  A string of a request becomes an
    ObjectId through the cast of the store, which takes 24 hexadecimal
    digits in either case and fails on anything else (a string of 12
    characters, which earlier versions of the driver read as 12 bytes, is
    refused with the rest); a string is compared with an ObjectId after
    it is put in lower case.  Every comparison of identifiers below is this
    one, so that the spelling under which a document holds its [_id] makes
    no difference. *)

Definition isHexDigit (c : ascii) : bool :=
  let n := nat_of_ascii c in
  ((48 <=? n) && (n <=? 57) || (97 <=? n) && (n <=? 102) || (65 <=? n) && (n <=? 70))%nat.

Definition toLowerAscii (c : ascii) : ascii :=
  let n := nat_of_ascii c in
  if ((65 <=? n) && (n <=? 90))%nat then ascii_of_nat (n + 32) else c.

(** [s.toLowerCase()] on the letters A to Z. *)
Fixpoint toLowerCase (s : string) : string :=
  match s with
  | EmptyString => EmptyString
  | String c rest => String (toLowerAscii c) (toLowerCase rest)
  end.

(** The strings that the cast to ObjectId accepts. *)
Definition isObjectId (id : Identifier) : bool :=
  (String.length id =? 24)%nat && forallb isHexDigit (list_ascii_of_string id).

(** [objectId.equals(other)]: the other string in lower case against the
    hexadecimal digits of the ObjectId. *)
Definition sameObjectId (a b : Identifier) : bool :=
  String.eqb (toLowerCase a) (toLowerCase b).

(** [serviceOperationSchema]: [{ _id, name }]. *)
Record Operation := mkOperation {
  op_id : Identifier;
  op_name : string;
}.

(** [serviceSchema]: [{ _id, name, operations: [serviceOperationSchema] }]. *)
Record Service := mkService {
  srvc_id : Identifier;
  srvc_name : string;
  srvc_operations : list Operation;
}.

(** [roleSchema]: [{ _id, name, serviceOpIds: [String] }]. *)
Record Role := mkRole {
  role_id : Identifier;
  role_name : string;
  role_serviceOpIds : list string;
}.

(** [IServiceOperation]: [_id] is optional in a request body. *)
Record IServiceOperation := mkIServiceOperation {
  dto_op_id : option Identifier;
  dto_op_name : string;
}.

(** [IServiceDto], the body of a service request. *)
Record IServiceDto := mkIServiceDto {
  dto_srvc_name : string;
  dto_srvc_operations : list IServiceOperation;
}.

(** [IRoleDto], the body of a role request. *)
Record IRoleDto := mkIRoleDto {
  dto_role_name : string;
  dto_role_serviceOpIds : list string;
}.

(** [HttpMethod] of [sendAudit.ts]. *)
Inductive HttpMethod := Post | Put | Delete | Patch | Get.

(** ** Exceptions, events and the world *)

(** What a handler's [try] block can throw. *)
Inductive Exn :=
| RouteHandlingError (httpStatus : Z) (message : string)
    (* [throw new RouteHandlingError(status, message)] *)
| JsError (message : string)
    (* [throw new Error(message)] *)
| TypeError (message : string)
    (* a property read on [null] *)
| StoreValidationError (message : string)
    (* [save()] rejected by a schema validator *)
| StoreError (message : string)
    (* the store refused the query *)
| CastError (message : string).
    (* the filter of a query holds an [_id] that is no ObjectId *)

(** [CastError: Cast to ObjectId failed for value "..." (type string) at
    path "_id" for model "..."], thrown before the query reaches the store. *)
Definition castFailed (value model : string) : Exn :=
  let q := String "034"%char EmptyString in
  CastError ("Cast to ObjectId failed for value " +:+ q +:+ value +:+ q
             +:+ " (type string) at path " +:+ q +:+ "_id" +:+ q
             +:+ " for model " +:+ q +:+ model +:+ q).

(** Every access to the store and every audit post, oldest first. *)
Inductive Event :=
| ServiceFind
| ServiceFindPage (skip limit : Z)
| ServiceFindById (id : Identifier)
| ServiceSave (id : Identifier)
| ServiceDeleteOne (id : Identifier)
| RoleFindPage (skip limit : Z)
| RoleFindById (id : Identifier)
| RoleSave (id : Identifier)
| RoleFindOneAndUpdate (id : Identifier)
| RoleDeleteOne (id : Identifier)
| AuditPost (method : HttpMethod) (data : string).

Record World := mkWorld {
  services : list Service;        (* collection 'services' *)
  roles : list Role;              (* collection 'roles' *)
  auditEnabled : bool;            (* parseBool(AppEnv.Get(Env.AUDIT_ENABLED)) *)
  auditReachable : bool;          (* whether axios.post to AUDIT_URL succeeds *)
  trace : list Event;
}.

Definition log (e : Event) (w : World) : World :=
  mkWorld (services w) (roles w) (auditEnabled w) (auditReachable w) (trace w ++ [e]).

Definition setServices (ss : list Service) (w : World) : World :=
  mkWorld ss (roles w) (auditEnabled w) (auditReachable w) (trace w).

Definition setRoles (rs : list Role) (w : World) : World :=
  mkWorld (services w) rs (auditEnabled w) (auditReachable w) (trace w).

(** ** The monad of handlers: state and exceptions *)

Inductive Result (A : Type) :=
| Ok (a : A)
| Throw (e : Exn).
Arguments Ok {A} a.
Arguments Throw {A} e.

Definition M (A : Type) : Type := World -> Result A * World.

Definition ret {A} (a : A) : M A := fun w => (Ok a, w).

Definition throw {A} (e : Exn) : M A := fun w => (Throw e, w).

Definition bind {A B} (m : M A) (k : A -> M B) : M B :=
  fun w =>
    match m w with
    | (Ok a, w') => k a w'
    | (Throw e, w') => (Throw e, w')
    end.

(** [try { m } catch (ex) { h ex }] *)
Definition tryCatch {A} (m : M A) (h : Exn -> M A) : M A :=
  fun w =>
    match m w with
    | (Ok a, w') => (Ok a, w')
    | (Throw e, w') => h e w'
    end.

#[global] Instance M_ret : MRet M := @ret.
#[global] Instance M_bind : MBind M := fun A B k m => bind m k.

(** ** The store *)

(** [Model.find({}).skip(skip).limit(limit).sort('{name: 1}')] over the
    documents [docs] of a collection.  The sort argument is the string
    ['{name: 1}'], which names no field of the documents, so the order is
    the collection's.  The store refuses a negative skip; a limit of 0 is
    no limit and a negative limit counts as its absolute value. *)
Definition skipLimit {A} (docs : list A) (skip limit : Z) : Result (list A) :=
  if skip <? 0 then Throw (StoreError "skip value must be non-negative")
  else
    let rest := drop (Z.to_nat skip) docs in
    Ok (if limit =? 0 then rest else take (Z.abs_nat limit) rest).

Module ServiceModel.

(** [ServiceModel.find({})] *)
Definition find : M (list Service) :=
  fun w => (Ok (services w), log ServiceFind w).

(** [ServiceModel.find({}).skip(skip).limit(limit).sort('{name: 1}')] *)
Definition findPage (skip limit : Z) : M (list Service) :=
  fun w => (skipLimit (services w) skip limit, log (ServiceFindPage skip limit) w).

(** The first document whose [_id] is the ObjectId that [id] spells. *)
Definition byId (id : Identifier) (ss : list Service) : option Service :=
  List.find (fun s => sameObjectId (srvc_id s) id) ss.

(** The document that a filter on [_id] selects: none when the cast of
    [id] fails. *)
Definition lookup (id : Identifier) (ss : list Service) : option Service :=
  if isObjectId id then byId id ss else None.

(** [ServiceModel.findById(id)], [None] for [null]; the cast of [id] throws
    when [id] is no ObjectId. *)
Definition findById (id : Identifier) : M (option Service) :=
  fun w =>
    if isObjectId id
    then (Ok (lookup id (services w)), log (ServiceFindById id) w)
    else (Throw (castFailed id "services"), w).

Fixpoint removeFirst (id : Identifier) (ss : list Service) : list Service :=
  match ss with
  | [] => []
  | s :: ss' => if sameObjectId (srvc_id s) id then ss' else s :: removeFirst id ss'
  end.

(** The collection once the first document that the filter on [_id]
    selects is removed. *)
Definition remove (id : Identifier) (ss : list Service) : list Service :=
  if isObjectId id then removeFirst id ss else ss.

(** [ServiceModel.deleteOne({ _id: id })] *)
Definition deleteOne (id : Identifier) : M unit :=
  fun w =>
    if isObjectId id
    then (Ok tt, log (ServiceDeleteOne id) (setServices (remove id (services w)) w))
    else (Throw (castFailed id "services"), w).

(** Replaces the first document that carries the [_id] of [s]. *)
Fixpoint replace (s : Service) (ss : list Service) : list Service :=
  match ss with
  | [] => []
  | s0 :: ss' =>
      if sameObjectId (srvc_id s0) (srvc_id s) then s :: ss' else s0 :: replace s ss'
  end.

(** The schema marks [name] of a service and of each operation
    [required: true]; on a String path that validator rejects the empty
    string. *)
Definition validateSync (s : Service) : bool :=
  negb (String.eqb (srvc_name s) "")
  && forallb (fun o => negb (String.eqb (op_name o) "")) (srvc_operations s).

(** [srvc.save()] on a document that was read with [findById]. *)
Definition save (s : Service) : M Service :=
  fun w =>
    if validateSync s
    then (Ok s, log (ServiceSave (srvc_id s)) (setServices (replace s (services w)) w))
    else (Throw (StoreValidationError "services validation failed"), w).

End ServiceModel.

Module Role.

(** The first document whose [_id] is the ObjectId that [id] spells. *)
Definition byId (id : Identifier) (rs : list Role) : option Role :=
  List.find (fun r => sameObjectId (role_id r) id) rs.

(** The document that a filter on [_id] selects: none when the cast of
    [id] fails. *)
Definition lookup (id : Identifier) (rs : list Role) : option Role :=
  if isObjectId id then byId id rs else None.

(** [Role.find({}).skip(skip).limit(limit).sort('{name: 1}')] *)
Definition findPage (skip limit : Z) : M (list Role) :=
  fun w => (skipLimit (roles w) skip limit, log (RoleFindPage skip limit) w).

(** [Role.findById(id)], [None] for [null]; the cast of [id] throws when
    [id] is no ObjectId. *)
Definition findById (id : Identifier) : M (option Role) :=
  fun w =>
    if isObjectId id
    then (Ok (lookup id (roles w)), log (RoleFindById id) w)
    else (Throw (castFailed id "roles"), w).

Fixpoint removeFirst (id : Identifier) (rs : list Role) : list Role :=
  match rs with
  | [] => []
  | r :: rs' => if sameObjectId (role_id r) id then rs' else r :: removeFirst id rs'
  end.

(** The collection once the first document that the filter on [_id]
    selects is removed. *)
Definition remove (id : Identifier) (rs : list Role) : list Role :=
  if isObjectId id then removeFirst id rs else rs.

(** [Role.deleteOne({ _id: id })] *)
Definition deleteOne (id : Identifier) : M unit :=
  fun w =>
    if isObjectId id
    then (Ok tt, log (RoleDeleteOne id) (setRoles (remove id (roles w)) w))
    else (Throw (castFailed id "roles"), w).

(** The update document of [findOneAndUpdate(filter, newRole)]: the fields
    of the body are set on the stored document. *)
Definition applyUpdate (newRole : IRoleDto) (r : Role) : Role :=
  mkRole (role_id r) (dto_role_name newRole) (dto_role_serviceOpIds newRole).

Fixpoint updateFirst (id : Identifier) (newRole : IRoleDto) (rs : list Role) : list Role :=
  match rs with
  | [] => []
  | r :: rs' =>
      if sameObjectId (role_id r) id
      then applyUpdate newRole r :: rs'
      else r :: updateFirst id newRole rs'
  end.

(** The collection once the update is applied to the first document that
    the filter on [_id] selects. *)
Definition update (id : Identifier) (newRole : IRoleDto) (rs : list Role) : list Role :=
  if isObjectId id then updateFirst id newRole rs else rs.

(** [Role.findOneAndUpdate({ _id: id }, newRole, { new: true })]: the
    updated document, or [null] when the filter matches nothing; the cast
    of [id] throws when [id] is no ObjectId.  Update validators are off
    unless asked for, and the call does not ask. *)
Definition findOneAndUpdate (id : Identifier) (newRole : IRoleDto) : M (option Role) :=
  fun w =>
    if isObjectId id
    then (Ok (applyUpdate newRole <$> lookup id (roles w)),
          log (RoleFindOneAndUpdate id) (setRoles (update id newRole (roles w)) w))
    else (Throw (castFailed id "roles"), w).

(** [roleSchema] marks [name] and every element of [serviceOpIds]
    [required: true]. *)
Definition validateSync (r : Role) : bool :=
  negb (String.eqb (role_name r) "")
  && forallb (fun i => negb (String.eqb i "")) (role_serviceOpIds r).

(** [role.save()] on a document made with [new Role(...)]. *)
Definition save (r : Role) : M Role :=
  fun w =>
    if validateSync r then
      match byId (role_id r) (roles w) with
      | Some _ => (Throw (StoreError "E11000 duplicate key error"), log (RoleSave (role_id r)) w)
      | None => (Ok r, log (RoleSave (role_id r)) (setRoles (roles w ++ [r]) w))
      end
    else (Throw (StoreValidationError "roles validation failed"), w).

End Role.

(** ** [sendAudit] of sendAudit.ts *)

Definition auditRefused : string :=
  "Auditing enabled but connection refused. Ensure the audit service is running an the API key is correct.".

Definition sendAudit (method : HttpMethod) (data : string) : M unit :=
  tryCatch
    (fun w =>
       if auditEnabled w then
         if auditReachable w
         then (Ok tt, log (AuditPost method data) w)
         else (Throw (JsError "connect ECONNREFUSED"), w)
       else (Ok tt, w))
    (fun _ => throw (RouteHandlingError 424 auditRefused)).

(** ** The Reference Validator: [validateServiceOps] of serviceApi.ts *)

(** [operation.equals(id)]: a document equals an identifier when its [_id]
    does, and an ObjectId equals a string as [sameObjectId] says.  The
    method answers [false] at once for an empty [id]; no ObjectId is spelled
    by the empty string, so the comparison says the same. *)
Definition equals (op : Operation) (id : Identifier) : bool :=
  sameObjectId (op_id op) id.

(** [for (srvOps = 0; srvOps < operations.length && foundOpsId === false; srvOps++)
       foundOpsId = operations[srvOps].equals(id)] *)
Fixpoint opsLoop (operations : list Operation) (id : Identifier) (foundOpsId : bool) : bool :=
  match operations with
  | [] => foundOpsId
  | op :: rest => if foundOpsId then foundOpsId else opsLoop rest id (equals op id)
  end.

(** [for (srvIdx = 0; srvIdx < services.length && foundOpsId === false; srvIdx++)] *)
Fixpoint srvLoop (srvs : list Service) (id : Identifier) (foundOpsId : bool) : bool :=
  match srvs with
  | [] => foundOpsId
  | s :: rest =>
      if foundOpsId then foundOpsId
      else srvLoop rest id (opsLoop (srvc_operations s) id foundOpsId)
  end.

(** [for (i = 0; i < serviceOpIds.length && isValid === true; i++)
       { let foundOpsId = false; ...; isValid = foundOpsId; }] *)
Fixpoint idsLoop (serviceOpIds : list Identifier) (srvs : list Service) (isValid : bool) : bool :=
  match serviceOpIds with
  | [] => isValid
  | id :: rest => if isValid then idsLoop rest srvs (srvLoop srvs id false) else isValid
  end.

Definition validateServiceOps (serviceOpIds : list Identifier) : M bool :=
  srvs ← ServiceModel.find;
  mret (idsLoop serviceOpIds srvs true).

(** ** Responses *)

(** [IPagedDataReturn<T>] of dtos/IPagedDataReturn.ts. *)
Record IPagedDataReturn (T : Type) := mkPaged {
  links_base : string;
  links_next : option string;
  links_prev : option string;
  pageSize : Z;
  pageNumber : Z;
  results : list T;
}.
Arguments mkPaged {T}.
Arguments links_base {T}.
Arguments links_next {T}.
Arguments links_prev {T}.
Arguments pageSize {T}.
Arguments pageNumber {T}.
Arguments results {T}.

Inductive Body :=
| Text (s : string)                          (* [res.send(text)] *)
| JsonRole (r : option Role)                 (* [res.json(role)], [null] for [None] *)
| JsonService (s : Service)
| JsonIds (ids : list string)
| JsonRoles (p : IPagedDataReturn Role)
| JsonServices (p : IPagedDataReturn Service).

Record Response := mkResponse {
  status : Z;
  body : Body;
}.

(** ** The pager: [buildResponse] of serviceApi.ts *)

Fixpoint lastIndexOf_from (s : string) (c : ascii) (i last : Z) : Z :=
  match s with
  | EmptyString => last
  | String a s' => lastIndexOf_from s' c (i + 1) (if Ascii.eqb a c then i else last)
  end.

(** [s.lastIndexOf(c)]: the index of the last [c] in [s], or -1. *)
Definition lastIndexOf (s : string) (c : ascii) : Z := lastIndexOf_from s c 0 (-1).

(** [s.substring(0, idx)] *)
Definition substring0 (idx : Z) (s : string) : string :=
  String.substring 0 (Z.to_nat idx) s.

(** *** Numbers

    A number of the program is an IEEE 754 double.  The pager meets whole
    numbers only, so a number is modelled by the integer it denotes; the
    result of an addition or a subtraction is rounded to the nearest double,
    ties to the even significand, and a number is printed with the fewest
    digits that read back as the same double. *)

Definition maxSafe : Z := 2 ^ 53.

(** The double nearest to the integer [z]; overflow to infinity, which
    needs more than 1000 binary digits, is left out. *)
Definition toDouble (z : Z) : Z :=
  let a := Z.abs z in
  if a <=? maxSafe then z
  else
    let ulp := 2 ^ (Z.log2 a - 52) in
    let q := a / ulp in
    let r := a mod ulp in
    let q' := if 2 * r <? ulp then q
              else if ulp <? 2 * r then q + 1
              else if Z.even q then q else q + 1 in
    Z.sgn z * (q' * ulp).

(** [a + b] and [a - b] on numbers. *)
Definition jsAdd (a b : Z) : Z := toDouble (a + b).
Definition jsSub (a b : Z) : Z := toDouble (a - b).

Definition roundTrips (a c : Z) : bool := toDouble c =? a.

(** The integer with the fewest significant digits that reads back as the
    double [a], the nearest to [a] among those; [n] is the number of
    digits of [a] and [k] the number of significant digits tried. *)
Fixpoint shortestFrom (a : Z) (n : nat) (k : nat) (fuel : nat) : Z :=
  match fuel with
  | O => a
  | S fuel' =>
      let p := 10 ^ Z.of_nat (n - k) in
      let lo := (a / p) * p in
      let hi := lo + p in
      let okLo := roundTrips a lo in
      let okHi := roundTrips a hi in
      if okLo && okHi then
        (if a - lo <? hi - a then lo
         else if hi - a <? a - lo then hi
         else if Z.even (a / p) then lo else hi)
      else if okLo then lo
      else if okHi then hi
      else shortestFrom a n (S k) fuel'
  end.

Fixpoint dropZeros (l : list ascii) : list ascii :=
  match l with
  | c :: rest => if Ascii.eqb c "0" then dropZeros rest else l
  | [] => []
  end.

Definition stripTrailingZeros (s : string) : string :=
  string_of_list_ascii (rev (dropZeros (rev (list_ascii_of_string s)))).

(** The form [d.ddde+n] that a number from 1e21 on is printed in. *)
Definition exponentForm (c : Z) : string :=
  let digits := pretty c in
  let mantissa := stripTrailingZeros digits in
  match mantissa with
  | EmptyString => digits
  | String d EmptyString =>
      String d EmptyString +:+ "e+" +:+ pretty (String.length digits - 1)%nat
  | String d rest =>
      String d ("." +:+ rest) +:+ "e+" +:+ pretty (String.length digits - 1)%nat
  end.

(** [String(z)], as a template string prints the number [z]. *)
Definition numberToString (z : Z) : string :=
  if Z.abs z <=? maxSafe then pretty z
  else
    let a := Z.abs z in
    let c := shortestFrom a (String.length (pretty a)) 1 17 in
    (if z <? 0 then "-" else "")
    +:+ (if c <? 10 ^ 21 then pretty c else exponentForm c).

(** [`?pageSize=${pageSize}&pageNumber=${pageNumber}`] *)
Definition pageQuery (pageSize pageNumber : Z) : string :=
  "?pageSize=" +:+ numberToString pageSize
  +:+ "&pageNumber=" +:+ numberToString pageNumber.

Definition buildResponse {T} (fullUrl : string) (pageNumber pageSize : Z)
    (products : list T) : IPagedDataReturn T :=
  let idx := lastIndexOf fullUrl "?" in
  let fullUrl := if negb (idx =? -1) then substring0 idx fullUrl else fullUrl in
  {| pageSize := pageSize;
     pageNumber := pageNumber;
     links_base := fullUrl;
     links_prev :=
       if pageNumber >? 1
       then Some (fullUrl +:+ pageQuery pageSize (jsSub pageNumber 1))
       else None;
     links_next :=
       if Z.of_nat (length products) =? pageSize
       then Some (fullUrl +:+ pageQuery pageSize (jsAdd pageNumber 1))
       else None;
     results := products |}.

(** ** Paged listing: [getRoles] of rolesApi.ts, [getServices] of serviceApi.ts *)

(** The parts of a request that the listing handlers read.  A query
    parameter is [None] when it is absent or empty and otherwise the number
    that unary [+] makes of it; the model covers integer values.  The
    offset [(pageNumber - 1) * pageSize] is kept exact: the double that the
    program computes differs from it only above 2^53, past the end of any
    collection that the store can hold. *)
Record Request := mkRequest {
  query_pageSize : option Z;
  query_pageNumber : option Z;
  protocol : string;
  host : string;
  originalUrl : string;
}.

Definition maxPageSize : Z := 100.

Definition payloadTooLarge : Exn :=
  RouteHandlingError 413
    ("Payload too large. Max page size allowed is " +:+ pretty maxPageSize).

Definition getRoles (req : Request) : M (IPagedDataReturn Role) :=
  let pageSize := match query_pageSize req with Some n => n | None => 10 end in
  if pageSize >? maxPageSize then throw payloadTooLarge
  else
    let pageNumber := match query_pageNumber req with Some n => n | None => 1 end in
    rs ← Role.findPage ((pageNumber - 1) * pageSize) pageSize;
    let fullUrl := protocol req +:+ "://" +:+ host req +:+ originalUrl req in
    mret (buildResponse fullUrl pageNumber pageSize rs).

Definition getServices (req : Request) : M (IPagedDataReturn Service) :=
  let pageSize := match query_pageSize req with Some n => n | None => 10 end in
  if pageSize >? maxPageSize then throw payloadTooLarge
  else
    let pageNumber := match query_pageNumber req with Some n => n | None => 1 end in
    products ← ServiceModel.findPage ((pageNumber - 1) * pageSize) pageSize;
    let fullUrl := protocol req +:+ "://" +:+ host req +:+ originalUrl req in
    mret (buildResponse fullUrl pageNumber pageSize products).

(** ** [validateRole] of models/roles.ts *)

Module Limits.
Definition ROLENAME_MIN_LENGTH : nat := 4.
Definition ROLENAME_MAX_LENGTH : nat := 40.
End Limits.

Definition dq : string := String "034"%char EmptyString.

(** [Joi.string().min(MIN).max(MAX).required()] on [name]; the result is
    [error.details[0].message], [None] when the schema accepts the body.
    [Joi.string()] refuses the empty string before it looks at the bounds.
    A name is a string of one-byte characters, so [String.length] is the
    length that Joi measures. *)
Definition validateRole (role : IRoleDto) : option string :=
  let n := String.length (dto_role_name role) in
  if (n =? 0)%nat then
    Some (dq +:+ "name" +:+ dq +:+ " is not allowed to be empty")
  else if (n <? Limits.ROLENAME_MIN_LENGTH)%nat then
    Some (dq +:+ "name" +:+ dq +:+ " length must be at least "
          +:+ pretty Limits.ROLENAME_MIN_LENGTH +:+ " characters long")
  else if (Limits.ROLENAME_MAX_LENGTH <? n)%nat then
    Some (dq +:+ "name" +:+ dq +:+ " length must be less than or equal to "
          +:+ pretty Limits.ROLENAME_MAX_LENGTH +:+ " characters long")
  else None.

(** ** Role expansion: [router.post('/')] of rolexpandApi.ts *)

Definition nullRead (prop : string) : Exn :=
  TypeError ("Cannot read properties of null (reading '" +:+ prop +:+ "')").

(** [for (i = 0; i < roleIds.length; i++) {
       const role = await Role.findById(roleIds[i]);
       srvcOpIds = srvcOpIds.concat(role.serviceOpIds); }] *)
Fixpoint rolexpand_loop (roleIds : list Identifier) (srvcOpIds : list string)
    : M (list string) :=
  match roleIds with
  | [] => mret srvcOpIds
  | id :: rest =>
      role ← Role.findById id;
      match role with
      | None => throw (nullRead "serviceOpIds")
      | Some r => rolexpand_loop rest (srvcOpIds ++ role_serviceOpIds r)
      end
  end.

(** The [try] block of the handler. *)
Definition rolexpand_post_try (roleIds : list Identifier) : M Response :=
  srvcOpIds ← rolexpand_loop roleIds [];
  mret (mkResponse 201 (JsonIds srvcOpIds)).

(** ** Role handlers: rolesApi.ts *)

(** [router.post('/')]; [newId] is the [_id] that [new Role(...)] draws. *)
Definition roles_post_try (newId : Identifier) (newRole : IRoleDto) : M Response :=
  match validateRole newRole with
  | Some message => throw (JsError message)
  | None =>
      valid ← validateServiceOps (dto_role_serviceOpIds newRole);
      if (valid : bool) then
        role ← Role.save
                 (mkRole newId (dto_role_name newRole) (dto_role_serviceOpIds newRole));
        let msg := "Role " +:+ role_id role +:+ ", " +:+ role_name role +:+ " created." in
        sendAudit Post msg;;
        mret (mkResponse 201 (JsonRole (Some role)))
      else throw (JsError "Service Operation ID validation failed")
  end.

(** [router.put('/:id')] *)
Definition roles_put_try (roleId : Identifier) (newRole : IRoleDto) : M Response :=
  valid ← validateServiceOps (dto_role_serviceOpIds newRole);
  if (valid : bool) then
    role ← Role.findOneAndUpdate roleId newRole;
    sendAudit Put ("Role ID: " +:+ roleId +:+ " was updated.");;
    mret (mkResponse 200 (JsonRole role))
  else throw (RouteHandlingError 400 "Service Operation ID validation failed").

(** [router.get('/:id')] *)
Definition roles_get_try (roleId : Identifier) : M Response :=
  role ← Role.findById roleId;
  match role with
  | None =>
      throw (RouteHandlingError 400
               ("Role with ID " +:+ roleId +:+ " could not be found."))
  | Some r => mret (mkResponse 200 (JsonRole (Some r)))
  end.

(** [router.get('/')] *)
Definition roles_list_try (req : Request) : M Response :=
  result ← getRoles req;
  mret (mkResponse 200 (JsonRoles result)).

(** [router.delete('/:id')] *)
Definition roles_delete_try (roleId : Identifier) : M Response :=
  Role.deleteOne roleId;;
  sendAudit Delete ("Deleting service with ID: " +:+ roleId);;
  mret (mkResponse 201 (Text "Success")).

(** ** Service handlers: serviceApi.ts *)

(** [existing._id.equals(incoming._id)]; an absent [_id] equals nothing. *)
Definition idEquals (existing : Identifier) (incoming : option Identifier) : bool :=
  match incoming with
  | Some id => sameObjectId existing id
  | None => false
  end.

(** [for (j = 0; j < srvc.operations.length; j++)
       if (srvc.operations[j]._id.equals(incoming._id)) {
         srvc.operations[j].name = incoming.name; break; }] *)
Fixpoint renameLoop (operations : list Operation) (incoming : IServiceOperation)
    : list Operation :=
  match operations with
  | [] => []
  | op :: rest =>
      if idEquals (op_id op) (dto_op_id incoming)
      then mkOperation (op_id op) (dto_op_name incoming) :: rest
      else op :: renameLoop rest incoming
  end.

(** [for (i = 0; i < srvcData.operations.length; i++) ...] *)
Definition updateOperations (operations : list Operation)
    (incoming : list IServiceOperation) : list Operation :=
  fold_left renameLoop incoming operations.

(** [router.put('/:id')] *)
Definition services_put_try (serviceId : Identifier) (srvcData : IServiceDto) : M Response :=
  srvc ← ServiceModel.findById serviceId;
  match srvc with
  | None =>
      throw (RouteHandlingError 404 ("Service with id " +:+ serviceId +:+ " not found"))
  | Some srvc =>
      let srvc :=
        mkService (srvc_id srvc) (dto_srvc_name srvcData)
          (updateOperations (srvc_operations srvc) (dto_srvc_operations srvcData)) in
      srvc ← ServiceModel.save srvc;
      sendAudit Put ("Updated service ID: " +:+ serviceId);;
      mret (mkResponse 201 (JsonService srvc))
  end.

(** [router.delete('/:id')] *)
Definition services_delete_try (serviceId : Identifier) : M Response :=
  ServiceModel.deleteOne serviceId;;
  sendAudit Delete ("Delete service ID: " +:+ serviceId);;
  mret (mkResponse 200 (Text "Success")).

(** [router.get('/:id')] *)
Definition services_get_try (serviceId : Identifier) : M Response :=
  srvc ← ServiceModel.findById serviceId;
  match srvc with
  | None =>
      throw (RouteHandlingError 404 ("Service with id " +:+ serviceId +:+ " not found"))
  | Some s => mret (mkResponse 200 (JsonService s))
  end.

(** [router.get('/')] *)
Definition services_list_try (req : Request) : M Response :=
  result ← getServices req;
  mret (mkResponse 200 (JsonServices result)).

(** ** The [catch] block of every handler *)

(** What [RouteErrorFormatter] returns: the status and text of the reply. *)
Record RouteError := mkRouteError {
  err_httpStatus : Z;
  err_message : string;
}.

(** Every handler is registered behind [isValidApiKey]; what follows is the
    handler proper, for a request that the middleware let through. *)

Section Routes.

(** [RouteErrorFormatter(ex, __filename, msg)] of
    startup/utils/RouteHandlingError.ts, a file the handlers import. *)
Variable RouteErrorFormatter : Exn -> string -> string -> RouteError.

(** [const error = RouteErrorFormatter(ex, __filename, msg);
     return res.status(error.httpStatus).send(error.message);] *)
Definition reply (ex : Exn) (filename msg : string) : Response :=
  let error := RouteErrorFormatter ex filename msg in
  mkResponse (err_httpStatus error) (Text (err_message error)).

(** [try { ... } catch (ex) { ... }] around the body of a handler. *)
Definition route (filename msg : string) (try : M Response) : World -> Response * World :=
  fun w =>
    match try w with
    | (Ok r, w') => (r, w')
    | (Throw ex, w') => (reply ex filename msg, w')
    end.

Definition rolexpand_post (roleIds : list Identifier) :=
  route "rolexpandApi.ts" "Fatal error Role Expand POST" (rolexpand_post_try roleIds).

Definition roles_post (newId : Identifier) (newRole : IRoleDto) :=
  route "rolesApi.ts" "Fatal error Role POST" (roles_post_try newId newRole).

Definition roles_put (roleId : Identifier) (newRole : IRoleDto) :=
  route "rolesApi.ts" "Fatal error Role PUT" (roles_put_try roleId newRole).

Definition roles_get (roleId : Identifier) :=
  route "rolesApi.ts" "Fatal error Role GET" (roles_get_try roleId).

Definition roles_list (req : Request) :=
  route "rolesApi.ts" "Fatal error Role GET" (roles_list_try req).

Definition roles_delete (roleId : Identifier) :=
  route "rolesApi.ts" "Fatal error Role DELETE" (roles_delete_try roleId).

Definition services_put (serviceId : Identifier) (srvcData : IServiceDto) :=
  route "serviceApi.ts" "Fatal error Service PUT" (services_put_try serviceId srvcData).

Definition services_delete (serviceId : Identifier) :=
  route "serviceApi.ts" "Fatal error Service DELETE" (services_delete_try serviceId).

Definition services_get (serviceId : Identifier) :=
  route "serviceApi.ts" "Fatal error Service GET" (services_get_try serviceId).

Definition services_list (req : Request) :=
  route "serviceApi.ts" "Fatal error Service GET" (services_list_try req).

End Routes.

(** ** Vocabulary of the specification *)

(** [id] spells the ObjectId of some operation of some service in [srvs]. *)
Definition registered (srvs : list Service) (id : Identifier) : Prop :=
  exists s op, In s srvs /\ In op (srvc_operations s) /\ sameObjectId (op_id op) id = true.

(** Each identifier of [roleIds] resolves to the stored role at the same
    position of [rs]. *)
Definition resolve (w : World) (roleIds : list Identifier) (rs : list Role) : Prop :=
  Forall2 (fun id r => Role.lookup id (roles w) = Some r) roleIds rs.

(** A URL with its query string stripped: what precedes its first ['?']. *)
Fixpoint stripQuery (url : string) : string :=
  match url with
  | EmptyString => EmptyString
  | String a rest => if Ascii.eqb a "?" then EmptyString else String a (stripQuery rest)
  end.

(** The index of the last [c] of [s], counted from the front. *)
Fixpoint lastIdx (s : string) (c : ascii) : option nat :=
  match s with
  | EmptyString => None
  | String a rest =>
      match lastIdx rest c with
      | Some k => Some (S k)
      | None => if Ascii.eqb a c then Some O else None
      end
  end.

(** How many ['?'] a URL holds. *)
Fixpoint countQ (url : string) : nat :=
  match url with
  | EmptyString => O
  | String a rest => ((if Ascii.eqb a "?" then 1 else 0) + countQ rest)%nat
  end.

(** Every operation has a name, as the schema requires. *)
Definition namedOps (ops : list Operation) : bool :=
  forallb (fun o => negb (String.eqb (op_name o) "")) ops.

(** The audit post cannot fail: auditing is off, or the sink answers. *)
Definition auditWorks (w : World) : Prop :=
  auditEnabled w = false \/ auditReachable w = true.

(** The world once the events [es] are added to its trace, in order. *)
Definition logAll (es : list Event) (w : World) : World :=
  fold_left (fun w e => log e w) es w.

(** The worlds after a run differ from [w] in the trace at most. *)
Definition sameCollections (w w' : World) : Prop :=
  services w' = services w /\ roles w' = roles w.

(** ** A small deployment, for examples

    Service A (identifier [idA]) offers operation "op1" (identifier [idX]);
    role Editors (identifier [idR1]) refers to [idX]; auditing is off. *)

Definition idA : Identifier := "64a1f0c2e4b0a1b2c3d4e5f0".
Definition idB : Identifier := "64a1f0c2e4b0a1b2c3d4e5f1".
Definition idX : Identifier := "64a1f0c2e4b0a1b2c3d4e5a0".
Definition idY : Identifier := "64a1f0c2e4b0a1b2c3d4e5a1".
Definition idZ : Identifier := "64a1f0c2e4b0a1b2c3d4e5a2".
Definition idR1 : Identifier := "64a1f0c2e4b0a1b2c3d4e5c1".
Definition idR2 : Identifier := "64a1f0c2e4b0a1b2c3d4e5c2".
Definition idR3 : Identifier := "64a1f0c2e4b0a1b2c3d4e5c3".
Definition idR9 : Identifier := "64a1f0c2e4b0a1b2c3d4e5c9".

Definition opX : Operation := mkOperation idX "op1".
Definition srvA : Service := mkService idA "Service A" [opX].
Definition editors : Role := mkRole idR1 "Editors" [idX].
Definition w0 : World := mkWorld [srvA] [editors] false false [].

(** A formatter for examples: a [RouteHandlingError] keeps its status and
    text, anything else is reported as 500. *)
Definition exampleFormatter (ex : Exn) (filename msg : string) : RouteError :=
  match ex with
  | RouteHandlingError st m => mkRouteError st m
  | JsError m | TypeError m | StoreValidationError m | StoreError m | CastError m =>
      mkRouteError 500 (msg +:+ ": " +:+ m)
  end.

(** ** Creating a service: [validateService] of models/service.ts and
       [router.post('/')] of serviceApi.ts *)

(** [Limits] of models/service.ts. *)
Module ServiceLimits.
Definition SERVICENAME_MIN_LENGTH : nat := 4.
Definition SERVICENAME_MAX_LENGTH : nat := 30.
End ServiceLimits.

(** [schema.validate(srvc)] for [name:
    Joi.string().min(MIN).max(MAX).required()] and [operations:
    Joi.array().items()]: [error.details[0].message], or [None].  The
    operations of the body are any array; their names are not looked at. *)
Definition validateServiceSchema (srvc : IServiceDto) : option string :=
  let n := String.length (dto_srvc_name srvc) in
  if (n =? 0)%nat then
    Some (dq +:+ "name" +:+ dq +:+ " is not allowed to be empty")
  else if (n <? ServiceLimits.SERVICENAME_MIN_LENGTH)%nat then
    Some (dq +:+ "name" +:+ dq +:+ " length must be at least "
          +:+ pretty ServiceLimits.SERVICENAME_MIN_LENGTH +:+ " characters long")
  else if (ServiceLimits.SERVICENAME_MAX_LENGTH <? n)%nat then
    Some (dq +:+ "name" +:+ dq +:+ " length must be less than or equal to "
          +:+ pretty ServiceLimits.SERVICENAME_MAX_LENGTH +:+ " characters long")
  else None.

(** [if (error) throw new RouteHandlingError(400, error.details[0].message)] *)
Definition validateService (srvc : IServiceDto) : M unit :=
  match validateServiceSchema srvc with
  | Some message => throw (RouteHandlingError 400 message)
  | None => mret tt
  end.

(** The operations of a request body as subdocuments: an operation keeps
    the [_id] of the body when it has one, and otherwise takes the identifier
    that the store draws for it; [freshOp i] is the one drawn for the
    operation at index [i]. *)
Definition castOperations (freshOp : nat -> Identifier)
    (ops : list IServiceOperation) : list Operation :=
  imap (fun i o => mkOperation (default (freshOp i) (dto_op_id o)) (dto_op_name o)) ops.

(** [newServiceObj.save()] on a document made with [new ServiceModel(...)]:
    the schema validators run, and the collection takes no second document
    with the same [_id]. *)
Definition ServiceModel_insert (s : Service) : M Service :=
  fun w =>
    if ServiceModel.validateSync s then
      match ServiceModel.byId (srvc_id s) (services w) with
      | Some _ =>
          (Throw (StoreError "E11000 duplicate key error"), log (ServiceSave (srvc_id s)) w)
      | None =>
          (Ok s, log (ServiceSave (srvc_id s)) (setServices (services w ++ [s]) w))
      end
    else (Throw (StoreValidationError "services validation failed"), w).

(** [router.post('/')] of serviceApi.ts; [newId] is the [_id] that
    [new ServiceModel(...)] draws for the service. *)
Definition services_post_try (newId : Identifier) (freshOp : nat -> Identifier)
    (newService : IServiceDto) : M Response :=
  validateService newService;;
  newServiceObj ← ServiceModel_insert
                    (mkService newId (dto_srvc_name newService)
                       (castOperations freshOp (dto_srvc_operations newService)));
  let msg := "Service " +:+ srvc_id newServiceObj +:+ " created." in
  sendAudit Post msg;;
  mret (mkResponse 201 (JsonService newServiceObj)).

(** ** Adding operations: [router.post('/operation')] of serviceApi.ts *)

(** [IServiceOperationAddBodyDto]: the [_id] of the service and the
    operations to add. *)
Record IServiceOperationAddBodyDto := mkAddBody {
  add_id : Identifier;
  add_operations : list IServiceOperation;
}.

(** [for (i = 0; i < srvcOpAdd.operations.length; i++)
       srvc.operations.push(srvcOpAdd.operations[i]);] *)
Definition services_operation_try (freshOp : nat -> Identifier)
    (srvcOpAdd : IServiceOperationAddBodyDto) : M Response :=
  srvc ← ServiceModel.findById (add_id srvcOpAdd);
  match srvc with
  | None =>
      throw (RouteHandlingError 404
               ("Service with id " +:+ add_id srvcOpAdd +:+ " not found"))
  | Some srvc =>
      let srvc :=
        mkService (srvc_id srvc) (srvc_name srvc)
          (srvc_operations srvc ++ castOperations freshOp (add_operations srvcOpAdd)) in
      srvc ← ServiceModel.save srvc;
      let msg := "Service " +:+ srvc_id srvc +:+ " updated." in
      sendAudit Post msg;;
      mret (mkResponse 201 (JsonService srvc))
  end.

Definition services_post (fmt : Exn -> string -> string -> RouteError)
    (newId : Identifier) (freshOp : nat -> Identifier) (newService : IServiceDto) :=
  route fmt "serviceApi.ts" "Fatal error Service POST" (services_post_try newId freshOp newService).

Definition services_operation (fmt : Exn -> string -> string -> RouteError)
    (freshOp : nat -> Identifier) (srvcOpAdd : IServiceOperationAddBodyDto) :=
  route fmt "serviceApi.ts" "Fatal error Service POST" (services_operation_try freshOp srvcOpAdd).

(** ** The API key: [isValidApiKey] of middleware/apiKeyValidate.ts *)

(** [!token]: [undefined] and the empty string are falsy. *)
Definition falsy (token : option string) : bool :=
  match token with
  | None => true
  | Some t => String.eqb t ""
  end.

(** [token !== key] on values that are a string or [undefined]. *)
Definition strictNotEqual (a b : option string) : bool :=
  match a, b with
  | Some x, Some y => negb (String.eqb x y)
  | None, None => false
  | _, _ => true
  end.

Definition accessDenied : Response :=
  mkResponse 401 (Text "Access denied. RBAC API key is invalid.").

(** [header] is [req.header], [None] when the request or its [header]
    function is undefined; [RBAC_API_KEY] is [AppEnv.Get(Env.RBAC_API_KEY)],
    [None] for [undefined].  The result is the reply sent instead of calling
    [next()], or [None] when [next()] is called. *)
Definition isValidApiKey (RBAC_API_KEY : option string)
    (header : option (string -> option string)) : option Response :=
  match header with
  | Some h =>
      let token := h "x-api-key" in
      if falsy token || strictNotEqual token RBAC_API_KEY
      then Some accessDenied
      else None
  | None => None
  end.

(** [router.METHOD(path, isValidApiKey, handler)] *)
Definition behindApiKey (RBAC_API_KEY : option string)
    (header : option (string -> option string))
    (handler : World -> Response * World) : World -> Response * World :=
  fun w =>
    match isValidApiKey RBAC_API_KEY header with
    | Some refusal => (refusal, w)
    | None => handler w
    end.

(** ** Vocabulary of the further properties *)

(** Every stored service passes the validators of its schema. *)
Definition validServices (w : World) : Prop :=
  Forall (fun s => ServiceModel.validateSync s = true) (services w).

(** No two stored services, and no two stored roles, share an [_id]: their
    identifiers spell different ObjectIds. *)
Definition uniqueIds (w : World) : Prop :=
  NoDup (map toLowerCase (map srvc_id (services w)))
  /\ NoDup (map toLowerCase (map role_id (roles w))).

(** The body that reads back an operation, and a service, as stored. *)
Definition dtoOfOperation (op : Operation) : IServiceOperation :=
  mkIServiceOperation (Some (op_id op)) (op_name op).

Definition dtoOfService (s : Service) : IServiceDto :=
  mkIServiceDto (srvc_name s) (map dtoOfOperation (srvc_operations s)).

(** The documents of page [pageNumber] when pages hold [pageSize] documents. *)
Definition pageOf {A} (docs : list A) (pageNumber pageSize : Z) : list A :=
  take (Z.to_nat pageSize) (drop (Z.to_nat ((pageNumber - 1) * pageSize)) docs).

(** A listing request with the given query parameters. *)
Definition listing (pageSize pageNumber : option Z) (url : string) : Request :=
  mkRequest pageSize pageNumber "http" "localhost:3000" url.

(** The documents that a listing request gets, none when it fails. *)
Definition listedRoles (req : Request) (w : World) : list Role :=
  match fst (getRoles req w) with
  | Ok r => results r
  | Throw _ => []
  end.

Definition listedServices (req : Request) (w : World) : list Service :=
  match fst (getServices req w) with
  | Ok r => results r
  | Throw _ => []
  end.

(** A request to one of the routes that [InitRoutes] of startup/routes.ts
    mounts, with what the store draws while it is served. *)
Inductive Call :=
| CallServicesPost (newId : Identifier) (freshOp : nat -> Identifier) (newService : IServiceDto)
| CallServicesOperation (freshOp : nat -> Identifier) (srvcOpAdd : IServiceOperationAddBodyDto)
| CallServicesPut (serviceId : Identifier) (srvcData : IServiceDto)
| CallServicesDelete (serviceId : Identifier)
| CallServicesGet (serviceId : Identifier)
| CallServicesList (req : Request)
| CallRolesPost (newId : Identifier) (newRole : IRoleDto)
| CallRolesPut (roleId : Identifier) (newRole : IRoleDto)
| CallRolesDelete (roleId : Identifier)
| CallRolesGet (roleId : Identifier)
| CallRolesList (req : Request)
| CallRolexpand (roleIds : list Identifier).

Definition dispatch (fmt : Exn -> string -> string -> RouteError) (c : Call)
    : World -> Response * World :=
  match c with
  | CallServicesPost newId freshOp newService => services_post fmt newId freshOp newService
  | CallServicesOperation freshOp srvcOpAdd => services_operation fmt freshOp srvcOpAdd
  | CallServicesPut serviceId srvcData => services_put fmt serviceId srvcData
  | CallServicesDelete serviceId => services_delete fmt serviceId
  | CallServicesGet serviceId => services_get fmt serviceId
  | CallServicesList req => services_list fmt req
  | CallRolesPost newId newRole => roles_post fmt newId newRole
  | CallRolesPut roleId newRole => roles_put fmt roleId newRole
  | CallRolesDelete roleId => roles_delete fmt roleId
  | CallRolesGet roleId => roles_get fmt roleId
  | CallRolesList req => roles_list fmt req
  | CallRolexpand roleIds => rolexpand_post fmt roleIds
  end.

(** The method under which the handler of a request calls [sendAudit];
    [Get] stands for the handlers that read and never call it. *)
Definition auditMethod (c : Call) : HttpMethod :=
  match c with
  | CallServicesPost _ _ _ | CallServicesOperation _ _ | CallRolesPost _ _ => Post
  | CallServicesPut _ _ | CallRolesPut _ _ => Put
  | CallServicesDelete _ | CallRolesDelete _ => Delete
  | CallServicesGet _ | CallServicesList _ | CallRolesGet _ | CallRolesList _
  | CallRolexpand _ => Get
  end.

(** The world after the requests [cs] were served one after the other. *)
Definition serve (fmt : Exn -> string -> string -> RouteError) (cs : list Call)
    (w : World) : World :=
  fold_left (fun w c => snd (dispatch fmt c w)) cs w.

(** A second deployment: auditing is on and the audit service is down. *)
Definition w1 : World := mkWorld [srvA] [editors] true false [].

(** ** ObjectIds: two strings spell the same ObjectId when they agree in
       lower case *)

Lemma sameObjectId_spec a b :
  sameObjectId a b = true <-> toLowerCase a = toLowerCase b.
Proof. unfold sameObjectId. apply String.eqb_eq. Qed.

Lemma sameObjectId_false a b :
  sameObjectId a b = false <-> toLowerCase a <> toLowerCase b.
Proof. unfold sameObjectId. apply String.eqb_neq. Qed.

Lemma sameObjectId_refl a : sameObjectId a a = true.
Proof. apply sameObjectId_spec. reflexivity. Qed.

Lemma sameObjectId_sym a b : sameObjectId a b = sameObjectId b a.
Proof. unfold sameObjectId. apply String.eqb_sym. Qed.

Lemma sameObjectId_congr a b c :
  sameObjectId a b = true -> sameObjectId a c = sameObjectId b c.
Proof.
  intros H. apply sameObjectId_spec in H. unfold sameObjectId. rewrite H. reflexivity.
Qed.

Lemma sameObjectId_congr_r a b c :
  sameObjectId a b = true -> sameObjectId c a = sameObjectId c b.
Proof.
  intros H. apply sameObjectId_spec in H. unfold sameObjectId. rewrite H. reflexivity.
Qed.

Lemma sameObjectId_eq a b : a = b -> sameObjectId a b = true.
Proof. intros ->. apply sameObjectId_refl. Qed.

(** ** Properties of the Reference Validator *)

Lemma opsLoop_true ops id : opsLoop ops id true = true.
Proof. destruct ops; reflexivity. Qed.

Lemma opsLoop_false ops id :
  opsLoop ops id false = true <->
  exists op, In op ops /\ sameObjectId (op_id op) id = true.
Proof.
  induction ops as [|op ops IH]; simpl.
  - split; [discriminate | intros (? & [] & _)].
  - unfold equals. destruct (sameObjectId (op_id op) id) eqn:E.
    + rewrite opsLoop_true. split; [eauto | reflexivity].
    + rewrite IH. split.
      * intros (o & Ho & Hid). eauto.
      * intros (o & [->|Ho] & Hid); [congruence | eauto].
Qed.

Lemma srvLoop_true srvs id : srvLoop srvs id true = true.
Proof. destruct srvs; reflexivity. Qed.

Lemma srvLoop_false srvs id :
  srvLoop srvs id false = true <-> registered srvs id.
Proof.
  unfold registered. induction srvs as [|s srvs IH]; simpl.
  - split; [discriminate | intros (? & ? & [] & _)].
  - destruct (opsLoop (srvc_operations s) id false) eqn:E.
    + rewrite srvLoop_true. apply opsLoop_false in E as (op & Hop & Hid).
      split; [|reflexivity]. intros _. exists s, op. auto.
    + rewrite IH. split.
      * intros (s' & op & Hs & Hop & Hid). exists s', op. auto.
      * intros (s' & op & [->|Hs] & Hop & Hid).
        -- assert (opsLoop (srvc_operations s') id false = true) as E'
             by (apply opsLoop_false; eauto).
           congruence.
        -- eauto.
Qed.

Lemma idsLoop_false ids srvs : idsLoop ids srvs false = false.
Proof. destruct ids; reflexivity. Qed.

Lemma idsLoop_true ids srvs :
  idsLoop ids srvs true = true <-> Forall (registered srvs) ids.
Proof.
  induction ids as [|id ids IH]; simpl.
  - split; [constructor | reflexivity].
  - destruct (srvLoop srvs id false) eqn:E.
    + rewrite IH. apply srvLoop_false in E.
      split; [constructor; assumption | inversion 1; assumption].
    + rewrite idsLoop_false. split; [discriminate|].
      inversion 1 as [|? ? Hreg _]; subst. apply srvLoop_false in Hreg. congruence.
Qed.

(** C1. [validateServiceOps] reads the services collection and returns a
    boolean that is [true] exactly when every identifier of the input equals,
    as [ObjectId.equals] compares a string with an ObjectId, the identifier
    of an operation of a registered service; the empty input is valid
    whatever the collection holds, and an input with an unregistered
    identifier at any position is invalid. *)
Theorem validateServiceOps_iff_registered :
  forall (S : list Identifier) (w : World),
    exists b : bool,
      validateServiceOps S w = (Ok b, log ServiceFind w)
      /\ (b = true <-> Forall (registered (services w)) S)
      /\ (S = [] -> b = true)
      /\ (forall pre id post,
            S = pre ++ id :: post -> ~ registered (services w) id -> b = false).
Proof.
  intros S w. exists (idsLoop S (services w) true).
  split; [reflexivity|]. split; [apply idsLoop_true|]. split.
  - intros ->. reflexivity.
  - intros pre id post -> Hun.
    destruct (idsLoop (pre ++ id :: post) (services w) true) eqn:E; [|reflexivity].
    apply idsLoop_true in E. rewrite Forall_app in E. destruct E as [_ E].
    inversion E; subst. contradiction.
Qed.

Lemma validateServiceOps_iff_registered_witness :
  fst (validateServiceOps [idX; "64A1F0C2E4B0A1B2C3D4E5A0"] w0) = Ok true
  /\ fst (validateServiceOps [idX; idY; idX] w0) = Ok false
  /\ fst (validateServiceOps [] (mkWorld [] [] false false [])) = Ok true.
Proof.
  split; [|split].
  - destruct (validateServiceOps_iff_registered [idX; "64A1F0C2E4B0A1B2C3D4E5A0"] w0)
      as (b & E & Hiff & _).
    rewrite E. simpl. f_equal. apply Hiff.
    repeat constructor; exists srvA, opX; simpl; auto.
  - destruct (validateServiceOps_iff_registered [idX; idY; idX] w0)
      as (b & E & _ & _ & Hun).
    rewrite E. simpl. f_equal. apply (Hun [idX] idY [idX]); [reflexivity|].
    intros (s & op & Hs & Hop & Hid). simpl in Hs.
    destruct Hs as [<-|[]]. simpl in Hop. destruct Hop as [<-|[]]. discriminate.
  - destruct (validateServiceOps_iff_registered [] (mkWorld [] [] false false []))
      as (b & E & _ & Hnil & _).
    rewrite E. simpl. f_equal. apply Hnil. reflexivity.
Defined.

Lemma validateServiceOps_run S w :
  validateServiceOps S w = (Ok (idsLoop S (services w) true), log ServiceFind w).
Proof. reflexivity. Qed.

(** ** Frame lemmas: what the store operations and [sendAudit] leave alone *)

Lemma sendAudit_run method data w :
  sendAudit method data w =
    if auditEnabled w then
      if auditReachable w
      then (Ok tt, log (AuditPost method data) w)
      else (Throw (RouteHandlingError 424 auditRefused), w)
    else (Ok tt, w).
Proof.
  unfold sendAudit, tryCatch, throw.
  destruct (auditEnabled w), (auditReachable w); reflexivity.
Qed.

Lemma sendAudit_same method data w :
  sameCollections w (snd (sendAudit method data w)).
Proof.
  rewrite sendAudit_run.
  destruct (auditEnabled w), (auditReachable w); split; reflexivity.
Qed.

Lemma sendAudit_works method data w :
  auditWorks w -> fst (sendAudit method data w) = Ok tt.
Proof.
  rewrite sendAudit_run. intros [H|H]; rewrite H.
  - reflexivity.
  - destruct (auditEnabled w); reflexivity.
Qed.

Lemma sendAudit_result method data w :
  fst (sendAudit method data w) = Ok tt
  \/ fst (sendAudit method data w) = Throw (RouteHandlingError 424 auditRefused).
Proof.
  rewrite sendAudit_run.
  destruct (auditEnabled w), (auditReachable w); auto.
Qed.

(** The reply of a handler whose [try] block returns, and of one whose
    [try] block throws. *)
Lemma route_ok fmt filename msg (try : M Response) w r :
  fst (try w) = Ok r -> fst (route fmt filename msg try w) = r.
Proof. unfold route. destruct (try w) as [[r'|e] w']; simpl; congruence. Qed.

Lemma route_throw fmt filename msg (try : M Response) w ex :
  fst (try w) = Throw ex ->
  fst (route fmt filename msg try w) = reply fmt ex filename msg.
Proof. unfold route. destruct (try w) as [[r'|e] w']; simpl; congruence. Qed.

Lemma route_run fmt filename msg (try : M Response) w :
  route fmt filename msg try w =
    match try w with
    | (Ok r, w') => (r, w')
    | (Throw ex, w') => (reply fmt ex filename msg, w')
    end.
Proof. reflexivity. Qed.

Lemma route_world fmt filename msg (try : M Response) w :
  snd (route fmt filename msg try w) = snd (try w).
Proof. unfold route. destruct (try w) as [[r'|e] w']; reflexivity. Qed.

(** ** Reads by identifier *)

Lemma Role_lookup_cast id rs r : Role.lookup id rs = Some r -> isObjectId id = true.
Proof. unfold Role.lookup. destruct (isObjectId id); [reflexivity | discriminate]. Qed.

Lemma Service_lookup_cast id ss s :
  ServiceModel.lookup id ss = Some s -> isObjectId id = true.
Proof. unfold ServiceModel.lookup. destruct (isObjectId id); [reflexivity | discriminate]. Qed.

Lemma Role_lookup_byId id rs :
  isObjectId id = true -> Role.lookup id rs = Role.byId id rs.
Proof. unfold Role.lookup. intros ->. reflexivity. Qed.


Lemma Role_findById_found id r w :
  Role.lookup id (roles w) = Some r ->
  Role.findById id w = (Ok (Some r), log (RoleFindById id) w).
Proof.
  intros H. unfold Role.findById. rewrite (Role_lookup_cast _ _ _ H), H. reflexivity.
Qed.

Lemma Role_findById_run id w :
  isObjectId id = true ->
  Role.findById id w = (Ok (Role.lookup id (roles w)), log (RoleFindById id) w).
Proof. intros H. unfold Role.findById. rewrite H. reflexivity. Qed.

Lemma Role_findById_cast id w :
  isObjectId id = false -> Role.findById id w = (Throw (castFailed id "roles"), w).
Proof. intros H. unfold Role.findById. rewrite H. reflexivity. Qed.

Lemma Service_findById_found id s w :
  ServiceModel.lookup id (services w) = Some s ->
  ServiceModel.findById id w = (Ok (Some s), log (ServiceFindById id) w).
Proof.
  intros H. unfold ServiceModel.findById. rewrite (Service_lookup_cast _ _ _ H), H.
  reflexivity.
Qed.

Lemma Service_findById_run id w :
  isObjectId id = true ->
  ServiceModel.findById id w =
    (Ok (ServiceModel.lookup id (services w)), log (ServiceFindById id) w).
Proof. intros H. unfold ServiceModel.findById. rewrite H. reflexivity. Qed.

Lemma Service_findById_cast id w :
  isObjectId id = false ->
  ServiceModel.findById id w = (Throw (castFailed id "services"), w).
Proof. intros H. unfold ServiceModel.findById. rewrite H. reflexivity. Qed.

(** A collection holds no document for [id] exactly when [id] spells none
    of its ObjectIds. *)
Lemma find_sameObjectId_None {A} (f : A -> Identifier) id (l : list A) :
  List.find (fun x => sameObjectId (f x) id) l = None <->
  ~ In (toLowerCase id) (map toLowerCase (map f l)).
Proof.
  induction l as [|x l IH]; simpl; [tauto|].
  destruct (sameObjectId (f x) id) eqn:E.
  - apply sameObjectId_spec in E. split; [discriminate | intros H; exfalso; auto].
  - apply sameObjectId_false in E. rewrite IH. split.
    + intros H [H'|H']; [congruence | contradiction].
    + intros H H'. auto.
Qed.

Lemma find_sameObjectId_congr {A} (f : A -> Identifier) a b (l : list A) :
  sameObjectId a b = true ->
  List.find (fun x => sameObjectId (f x) a) l = List.find (fun x => sameObjectId (f x) b) l.
Proof.
  intros H. induction l as [|x l IH]; simpl; [reflexivity|].
  rewrite (sameObjectId_congr_r _ _ (f x) H), IH. reflexivity.
Qed.

(** The first document that [id] selects is the one that the removal takes
    out, where it stands. *)
Lemma Role_removeFirst_split id rs r :
  Role.byId id rs = Some r ->
  exists pre post,
    rs = pre ++ r :: post /\ Role.removeFirst id rs = pre ++ post
    /\ Role.byId id pre = None.
Proof.
  unfold Role.byId. induction rs as [|r0 rs IH]; simpl; [discriminate|].
  destruct (sameObjectId (role_id r0) id) eqn:E.
  - intros [= ->]. exists [], rs. auto.
  - intros H. destruct (IH H) as (pre & post & -> & Hrm & Hpre).
    exists (r0 :: pre), post. simpl. rewrite E, Hrm. auto.
Qed.

Lemma Service_removeFirst_split id ss s :
  ServiceModel.byId id ss = Some s ->
  exists pre post,
    ss = pre ++ s :: post /\ ServiceModel.removeFirst id ss = pre ++ post
    /\ ServiceModel.byId id pre = None.
Proof.
  unfold ServiceModel.byId. induction ss as [|s0 ss IH]; simpl; [discriminate|].
  destruct (sameObjectId (srvc_id s0) id) eqn:E.
  - intros [= ->]. exists [], ss. auto.
  - intros H. destruct (IH H) as (pre & post & -> & Hrm & Hpre).
    exists (s0 :: pre), post. simpl. rewrite E, Hrm. auto.
Qed.

(** In a collection without two documents of one ObjectId, the document
    that [id] selects is the only one that [id] spells. *)
Lemma unique_rest_None {A} (f : A -> Identifier) id (pre post : list A) x :
  NoDup (map toLowerCase (map f (pre ++ x :: post))) ->
  sameObjectId (f x) id = true ->
  List.find (fun y => sameObjectId (f y) id) (pre ++ post) = None.
Proof.
  intros Hnd Hid. apply sameObjectId_spec in Hid.
  apply find_sameObjectId_None. rewrite <- Hid.
  rewrite !map_app in *. simpl in Hnd.
  apply NoDup_app in Hnd as (_ & Hdis & Hnd').
  apply NoDup_cons in Hnd' as [Hx _].
  intros Hin. apply in_app_or in Hin as [Hin|Hin].
  - apply (Hdis _ (proj2 (list_elem_of_In _ _) Hin)). left.
  - apply Hx, list_elem_of_In, Hin.
Qed.

Lemma Role_remove_found id rs r :
  Role.lookup id rs = Some r ->
  exists pre post, rs = pre ++ r :: post /\ Role.remove id rs = pre ++ post.
Proof.
  unfold Role.lookup, Role.remove. destruct (isObjectId id); [|discriminate].
  intros H. destruct (Role_removeFirst_split _ _ _ H) as (pre & post & H1 & H2 & _).
  eauto.
Qed.

Lemma Service_remove_found id ss s :
  ServiceModel.lookup id ss = Some s ->
  exists pre post, ss = pre ++ s :: post /\ ServiceModel.remove id ss = pre ++ post.
Proof.
  unfold ServiceModel.lookup, ServiceModel.remove. destruct (isObjectId id); [|discriminate].
  intros H. destruct (Service_removeFirst_split _ _ _ H) as (pre & post & H1 & H2 & _).
  eauto.
Qed.

Lemma Role_remove_gone id rs r :
  Role.lookup id rs = Some r ->
  NoDup (map toLowerCase (map role_id rs)) ->
  Role.lookup id (Role.remove id rs) = None.
Proof.
  unfold Role.lookup, Role.remove. destruct (isObjectId id); [|discriminate].
  intros H Hnd. pose proof (find_some _ _ H) as [_ Hid].
  destruct (Role_removeFirst_split _ _ _ H) as (pre & post & -> & -> & _).
  apply (unique_rest_None role_id id pre post r Hnd Hid).
Qed.

Lemma Service_remove_gone id ss s :
  ServiceModel.lookup id ss = Some s ->
  NoDup (map toLowerCase (map srvc_id ss)) ->
  ServiceModel.lookup id (ServiceModel.remove id ss) = None.
Proof.
  unfold ServiceModel.lookup, ServiceModel.remove. destruct (isObjectId id); [|discriminate].
  intros H Hnd. pose proof (find_some _ _ H) as [_ Hid].
  destruct (Service_removeFirst_split _ _ _ H) as (pre & post & -> & -> & _).
  apply (unique_rest_None srvc_id id pre post s Hnd Hid).
Qed.

(** ** Role expansion *)

Lemma logAll_same es w : sameCollections w (logAll es w).
Proof.
  revert w. induction es as [|e es IH]; intros w; simpl.
  - split; reflexivity.
  - destruct (IH (log e w)) as [Hs Hr]. split; [rewrite Hs | rewrite Hr]; reflexivity.
Qed.

Lemma rolexpand_loop_resolved roleIds : forall rs acc w,
  resolve w roleIds rs ->
  rolexpand_loop roleIds acc w =
    (Ok (acc ++ concat (map role_serviceOpIds rs)), logAll (map RoleFindById roleIds) w).
Proof.
  unfold resolve.
  induction roleIds as [|id roleIds IH]; intros rs acc w H; inversion H; subst; simpl.
  - rewrite app_nil_r. reflexivity.
  - unfold mbind, M_bind, bind.
    match goal with
    | Hl : Role.lookup id _ = Some _ |- _ => rewrite (Role_findById_found _ _ _ Hl)
    end.
    rewrite IH with (rs := l'); [rewrite <- app_assoc; reflexivity | assumption].
Qed.

(** The result of the expansion depends on the roles collection only. *)
Lemma rolexpand_loop_roles roleIds : forall acc w1 w2,
  roles w1 = roles w2 ->
  fst (rolexpand_loop roleIds acc w1) = fst (rolexpand_loop roleIds acc w2).
Proof.
  induction roleIds as [|id roleIds IH]; intros acc w1 w2 H; simpl; [reflexivity|].
  unfold mbind, M_bind, bind, Role.findById. rewrite H.
  destruct (isObjectId id); [|reflexivity].
  destruct (Role.lookup id (roles w2)) as [r|]; [|reflexivity].
  apply IH. simpl. assumption.
Qed.

Lemma rolexpand_post_try_run roleIds w :
  rolexpand_post_try roleIds w =
    match rolexpand_loop roleIds [] w with
    | (Ok ids, w') => (Ok (mkResponse 201 (JsonIds ids)), w')
    | (Throw e, w') => (Throw e, w')
    end.
Proof. reflexivity. Qed.

Lemma rolexpand_post_resolved fmt w roleIds rs :
  resolve w roleIds rs ->
  rolexpand_post fmt roleIds w =
    (mkResponse 201 (JsonIds (concat (map role_serviceOpIds rs))),
     logAll (map RoleFindById roleIds) w).
Proof.
  intros H. unfold rolexpand_post, route.
  rewrite rolexpand_post_try_run, (rolexpand_loop_resolved roleIds rs [] w H).
  reflexivity.
Qed.

(** C2. When every identifier of the input resolves to a stored role, the
    handler answers 201 with the concatenation of the roles' operation
    lists, in input order, each list as stored and nothing removed; the
    empty input gives the empty list.  Only role reads are added to the
    trace. *)
Theorem rolexpand_returns_concatenation :
  forall fmt (w : World) (roleIds : list Identifier) (rs : list Role),
    resolve w roleIds rs ->
    rolexpand_post fmt roleIds w =
      (mkResponse 201 (JsonIds (concat (map role_serviceOpIds rs))),
       logAll (map RoleFindById roleIds) w).
Proof. intros fmt w roleIds rs H. apply rolexpand_post_resolved, H. Qed.

Lemma rolexpand_returns_concatenation_witness :
  resolve w0 [idR1; idR1] [editors; editors]
  /\ rolexpand_post exampleFormatter [idR1; idR1] w0 =
       (mkResponse 201 (JsonIds [idX; idX]),
        logAll [RoleFindById idR1; RoleFindById idR1] w0)
  /\ fst (rolexpand_post exampleFormatter [] w0) = mkResponse 201 (JsonIds []).
Proof.
  assert (H : resolve w0 [idR1; idR1] [editors; editors])
    by (repeat constructor).
  split; [exact H|]. split.
  - exact (rolexpand_returns_concatenation exampleFormatter w0 _ _ H).
  - rewrite (rolexpand_returns_concatenation exampleFormatter w0 [] []); [reflexivity|].
    constructor.
Defined.

(** The first identifier that resolves to no role stops the loop: the read
    of [serviceOpIds] on [null] throws, and what was gathered so far is
    dropped. *)
Lemma rolexpand_loop_unresolved pre : forall rs id post acc w,
  resolve w pre rs ->
  isObjectId id = true ->
  Role.lookup id (roles w) = None ->
  rolexpand_loop (pre ++ id :: post) acc w =
    (Throw (nullRead "serviceOpIds"), logAll (map RoleFindById (pre ++ [id])) w).
Proof.
  unfold resolve.
  induction pre as [|p pre IH]; intros rs id post acc w H Hc Hid; inversion H; subst; simpl.
  - unfold mbind, M_bind, bind. rewrite (Role_findById_run _ _ Hc), Hid. reflexivity.
  - unfold mbind, M_bind, bind.
    match goal with
    | Hl : Role.lookup p _ = Some _ |- _ => rewrite (Role_findById_found _ _ _ Hl)
    end.
    apply IH with (rs := l'); assumption.
Qed.

(** An identifier that is no ObjectId stops the loop too, with the error
    of the failed cast. *)
Lemma rolexpand_loop_cast pre : forall rs id post acc w,
  resolve w pre rs ->
  isObjectId id = false ->
  rolexpand_loop (pre ++ id :: post) acc w =
    (Throw (castFailed id "roles"), logAll (map RoleFindById pre) w).
Proof.
  unfold resolve.
  induction pre as [|p pre IH]; intros rs id post acc w H Hc; inversion H; subst; simpl.
  - unfold mbind, M_bind, bind. rewrite (Role_findById_cast _ _ Hc). reflexivity.
  - unfold mbind, M_bind, bind.
    match goal with
    | Hl : Role.lookup p _ = Some _ |- _ => rewrite (Role_findById_found _ _ _ Hl)
    end.
    apply IH with (rs := l'); assumption.
Qed.

Lemma rolexpand_unresolved_aborts fmt pre rs id post w :
  resolve w pre rs ->
  isObjectId id = true ->
  Role.lookup id (roles w) = None ->
  fst (rolexpand_post_try (pre ++ id :: post) w) = Throw (nullRead "serviceOpIds")
  /\ fst (rolexpand_post fmt (pre ++ id :: post) w) =
       reply fmt (nullRead "serviceOpIds") "rolexpandApi.ts" "Fatal error Role Expand POST".
Proof.
  intros H Hc Hid.
  assert (E : fst (rolexpand_post_try (pre ++ id :: post) w) = Throw (nullRead "serviceOpIds")).
  { rewrite rolexpand_post_try_run, (rolexpand_loop_unresolved pre rs id post [] w H Hc Hid).
    reflexivity. }
  split; [exact E|]. unfold rolexpand_post. apply route_throw. exact E.
Qed.

(** C3. With role [idR1] stored and [idR2], a well-formed ObjectId, unknown,
    expanding [idR1; idR2] ends in the [TypeError] of a property read on
    [null], not in a not-found error, while the sibling handler that reads
    one role checks for [null] and throws the [RouteHandlingError] of a role
    that could not be found. *)
Theorem rolexpand_unknown_role_is_TypeError :
  isObjectId idR2 = true
  /\ rolexpand_post_try [idR1; idR2] w0 =
    (Throw (TypeError "Cannot read properties of null (reading 'serviceOpIds')"),
     logAll [RoleFindById idR1; RoleFindById idR2] w0)
  /\ roles_get_try idR2 w0 =
    (Throw (RouteHandlingError 400
              "Role with ID 64a1f0c2e4b0a1b2c3d4e5c2 could not be found."),
     log (RoleFindById idR2) w0).
Proof. repeat split; reflexivity. Qed.

(** ** Deleting a service *)

Lemma services_delete_try_world serviceId w :
  sameCollections
    (setServices (ServiceModel.remove serviceId (services w)) w)
    (snd (services_delete_try serviceId w)).
Proof.
  unfold services_delete_try, mbind, M_bind, bind, ServiceModel.deleteOne.
  destruct (isObjectId serviceId) eqn:Hc.
  - pose proof (sendAudit_same Delete ("Delete service ID: " +:+ serviceId)
                  (log (ServiceDeleteOne serviceId)
                     (setServices (ServiceModel.remove serviceId (services w)) w))) as Hs.
    destruct (sendAudit _ _ _) as [[[]|e] w']; exact Hs.
  - unfold ServiceModel.remove. rewrite Hc. split; reflexivity.
Qed.

Lemma remove_keeps_others serviceId (ss : list Service) s :
  In s ss -> sameObjectId (srvc_id s) serviceId = false ->
  In s (ServiceModel.remove serviceId ss).
Proof.
  unfold ServiceModel.remove. destruct (isObjectId serviceId); [|tauto].
  induction ss as [|s0 ss IH]; simpl; [tauto|].
  intros [->|Hin] Hne.
  - rewrite Hne. left; reflexivity.
  - destruct (sameObjectId (srvc_id s0) serviceId); [assumption | right; auto].
Qed.

(** C4. Deleting a service takes that service, with its operations, out of
    the services collection and touches nothing else: every other service,
    one whose identifier is another ObjectId, stays, the roles collection is
    the same, and an expansion over roles that resolve still answers 201 with
    their stored operation identifiers, those of the deleted service
    included. *)
Theorem services_delete_keeps_roles :
  forall fmt (serviceId : Identifier) (w : World),
    services (snd (services_delete fmt serviceId w)) =
      ServiceModel.remove serviceId (services w)
    /\ (forall s, In s (services w) -> sameObjectId (srvc_id s) serviceId = false ->
                  In s (services (snd (services_delete fmt serviceId w))))
    /\ roles (snd (services_delete fmt serviceId w)) = roles w
    /\ (forall roleIds rs,
          resolve w roleIds rs ->
          fst (rolexpand_post fmt roleIds (snd (services_delete fmt serviceId w))) =
            mkResponse 201 (JsonIds (concat (map role_serviceOpIds rs)))).
Proof.
  intros fmt serviceId w. unfold services_delete. rewrite route_world.
  destruct (services_delete_try_world serviceId w) as [Hs Hr]. simpl in Hs, Hr.
  split; [exact Hs|]. split; [|split; [exact Hr|]].
  - intros s Hin Hne. rewrite Hs. apply remove_keeps_others; assumption.
  - intros roleIds rs H.
    rewrite (rolexpand_post_resolved fmt _ roleIds rs); [reflexivity|].
    unfold resolve in *. rewrite Hr. exact H.
Qed.

Lemma services_delete_keeps_roles_witness :
  services (snd (services_delete exampleFormatter idA w0)) = []
  /\ roles (snd (services_delete exampleFormatter idA w0)) = [editors]
  /\ fst (rolexpand_post exampleFormatter [idR1]
            (snd (services_delete exampleFormatter idA w0))) =
       mkResponse 201 (JsonIds [idX]).
Proof.
  destruct (services_delete_keeps_roles exampleFormatter idA w0) as (Hs & _ & Hr & Hx).
  split; [exact Hs|]. split; [exact Hr|].
  apply (Hx [idR1] [editors]). repeat constructor.
Defined.

(** ** Creating a role *)

Lemma validateRole_out_of_bounds newRole :
  (String.length (dto_role_name newRole) < Limits.ROLENAME_MIN_LENGTH
   \/ Limits.ROLENAME_MAX_LENGTH < String.length (dto_role_name newRole))%nat ->
  exists message, validateRole newRole = Some message.
Proof.
  intros H. unfold validateRole.
  destruct (Nat.eqb_spec (String.length (dto_role_name newRole)) 0); [eauto|].
  destruct (Nat.ltb_spec (String.length (dto_role_name newRole)) Limits.ROLENAME_MIN_LENGTH);
    [eauto|].
  destruct (Nat.ltb_spec Limits.ROLENAME_MAX_LENGTH (String.length (dto_role_name newRole)));
    [eauto|].
  lia.
Qed.

Lemma validateRole_in_bounds newRole :
  (Limits.ROLENAME_MIN_LENGTH <= String.length (dto_role_name newRole)
   <= Limits.ROLENAME_MAX_LENGTH)%nat ->
  validateRole newRole = None.
Proof.
  intros H. unfold validateRole, Limits.ROLENAME_MIN_LENGTH, Limits.ROLENAME_MAX_LENGTH in *.
  destruct (Nat.eqb_spec (String.length (dto_role_name newRole)) 0); [lia|].
  destruct (Nat.ltb_spec (String.length (dto_role_name newRole)) 4); [lia|].
  destruct (Nat.ltb_spec 40 (String.length (dto_role_name newRole))); [lia|].
  reflexivity.
Qed.

(** A creation request whose name is shorter than 4 or longer than 40
    characters is refused with the message of [validateRole], whatever its
    operation identifiers and whatever the store holds.  The world after the
    request is the world before it: the services collection was not read, so
    the Reference Validator was not consulted, and no role was stored. *)
Lemma roles_post_try_out_of_bounds fmt newId newRole w :
  (String.length (dto_role_name newRole) < 4
   \/ 40 < String.length (dto_role_name newRole))%nat ->
  exists message,
    validateRole newRole = Some message
    /\ roles_post_try newId newRole w = (Throw (JsError message), w)
    /\ roles_post fmt newId newRole w =
         (reply fmt (JsError message) "rolesApi.ts" "Fatal error Role POST", w).
Proof.
  intros H.
  destruct (validateRole_out_of_bounds newRole H) as [message E].
  exists message. split; [exact E|].
  assert (R : roles_post_try newId newRole w = (Throw (JsError message), w))
    by (unfold roles_post_try; rewrite E; reflexivity).
  split; [exact R|]. unfold roles_post. rewrite route_run, R. reflexivity.
Qed.

(** C5. A creation request for a role named "abc", with a registered
    operation identifier, is refused before the store is touched, but not
    with a validation error: the handler throws a plain [Error] that carries
    the message of [validateRole], and no [RouteHandlingError].  The creation
    of a service refuses the same name with [RouteHandlingError] 400, and the
    update of a role refuses an unregistered identifier with
    [RouteHandlingError] 400. *)
Theorem roles_post_invalid_name_is_plain_Error :
  Forall (registered (services w0)) [idX]
  /\ roles_post_try idR9 (mkIRoleDto "abc" [idX]) w0 =
       (Throw (JsError (dq +:+ "name" +:+ dq +:+ " length must be at least 4 characters long")),
        w0)
  /\ (forall st message,
        fst (roles_post_try idR9 (mkIRoleDto "abc" [idX]) w0)
        <> Throw (RouteHandlingError st message))
  /\ services_post_try idB (fun _ => idY) (mkIServiceDto "abc" []) w0 =
       (Throw (RouteHandlingError 400
                 (dq +:+ "name" +:+ dq +:+ " length must be at least 4 characters long")),
        w0)
  /\ roles_put_try idR1 (mkIRoleDto "Editors" [idY]) w0 =
       (Throw (RouteHandlingError 400 "Service Operation ID validation failed"),
        log ServiceFind w0).
Proof.
  split; [|split; [|split; [|split]]].
  - repeat constructor. exists srvA, opX. simpl. auto.
  - reflexivity.
  - intros st message. discriminate.
  - reflexivity.
  - reflexivity.
Qed.

(** ** Paged listing *)

(** C7. A listing request for roles or for services whose page size is
    above 100 throws the 413 error before the store is touched: the world,
    trace included, is unchanged, and the reply is what the [catch] block
    makes of that error.  A page size of exactly 100 passes the check: the
    page query reaches the store, and no [RouteHandlingError] comes back. *)
Theorem listing_rejects_page_size_above_100 :
  forall fmt (req : Request) (w : World) (n : Z),
    query_pageSize req = Some n ->
    (100 < n ->
       getRoles req w =
         (Throw (RouteHandlingError 413 "Payload too large. Max page size allowed is 100"), w)
       /\ getServices req w =
         (Throw (RouteHandlingError 413 "Payload too large. Max page size allowed is 100"), w)
       /\ roles_list fmt req w =
         (reply fmt (RouteHandlingError 413 "Payload too large. Max page size allowed is 100")
            "rolesApi.ts" "Fatal error Role GET", w)
       /\ services_list fmt req w =
         (reply fmt (RouteHandlingError 413 "Payload too large. Max page size allowed is 100")
            "serviceApi.ts" "Fatal error Service GET", w))
    /\ (n = 100 ->
          (exists skip, snd (getRoles req w) = log (RoleFindPage skip 100) w)
          /\ (exists skip, snd (getServices req w) = log (ServiceFindPage skip 100) w)
          /\ (forall st msg, fst (getRoles req w) <> Throw (RouteHandlingError st msg))
          /\ (forall st msg, fst (getServices req w) <> Throw (RouteHandlingError st msg))).
Proof.
  intros fmt req w n Hq. split.
  - intros Hn.
    assert (Hr : getRoles req w = (Throw payloadTooLarge, w)).
    { unfold getRoles. rewrite Hq.
      assert ((n >? maxPageSize) = true) as -> by (unfold maxPageSize; lia).
      reflexivity. }
    assert (Hs : getServices req w = (Throw payloadTooLarge, w)).
    { unfold getServices. rewrite Hq.
      assert ((n >? maxPageSize) = true) as -> by (unfold maxPageSize; lia).
      reflexivity. }
    split; [exact Hr|]. split; [exact Hs|]. split.
    + unfold roles_list. rewrite route_run. unfold roles_list_try, mbind, M_bind, bind.
      rewrite Hr. reflexivity.
    + unfold services_list. rewrite route_run. unfold services_list_try, mbind, M_bind, bind.
      rewrite Hs. reflexivity.
  - intros ->. unfold getRoles, getServices. rewrite Hq.
    change (100 >? maxPageSize) with false. cbv iota.
    unfold mbind, M_bind, bind, Role.findPage, ServiceModel.findPage, skipLimit.
    set (pn := match query_pageNumber req with Some k => k | None => 1 end).
    destruct ((pn - 1) * 100 <? 0); simpl;
      (split; [eexists; reflexivity|]); (split; [eexists; reflexivity|]);
      split; intros st msg; discriminate.
Qed.

Lemma listing_rejects_page_size_above_100_witness :
  getRoles (mkRequest (Some 101) None "http" "localhost:3000" "/api/v1/roles?pageSize=101") w0
    = (Throw (RouteHandlingError 413 "Payload too large. Max page size allowed is 100"), w0)
  /\ roles_list exampleFormatter
       (mkRequest (Some 101) None "http" "localhost:3000" "/api/v1/roles?pageSize=101") w0
     = (mkResponse 413 (Text "Payload too large. Max page size allowed is 100"), w0)
  /\ snd (getServices (mkRequest (Some 100) None "http" "localhost:3000"
                         "/api/v1/services?pageSize=100") w0)
     = log (ServiceFindPage 0 100) w0.
Proof.
  destruct (listing_rejects_page_size_above_100 exampleFormatter
              (mkRequest (Some 101) None "http" "localhost:3000" "/api/v1/roles?pageSize=101")
              w0 101 eq_refl) as [H _].
  destruct H as (Hr & _ & Hl & _); [lia|].
  split; [exact Hr|]. split; [exact Hl|].
  destruct (listing_rejects_page_size_above_100 exampleFormatter
              (mkRequest (Some 100) None "http" "localhost:3000"
                 "/api/v1/services?pageSize=100") w0 100 eq_refl) as [_ H].
  reflexivity.
Defined.

(** ** The pager *)

Lemma lastIndexOf_from_lastIdx s c : forall i last,
  lastIndexOf_from s c i last =
    match lastIdx s c with
    | Some k => i + Z.of_nat k
    | None => last
    end.
Proof.
  induction s as [|a s IH]; intros i last; simpl; [reflexivity|].
  rewrite IH. destruct (lastIdx s c) as [k|]; [lia|].
  destruct (Ascii.eqb a c); [lia | reflexivity].
Qed.

Lemma lastIdx_none_countQ s : countQ s = O -> lastIdx s "?" = None.
Proof.
  induction s as [|a s IH]; simpl; [reflexivity|].
  destruct (Ascii.eqb a "?"); simpl; [discriminate|].
  intros H. rewrite (IH H). reflexivity.
Qed.

(** With at most one ['?'] the last one is the first one. *)
Lemma stripQuery_lastIdx s :
  (countQ s <= 1)%nat ->
  stripQuery s =
    match lastIdx s "?" with
    | Some k => String.substring 0 k s
    | None => s
    end.
Proof.
  induction s as [|a s IH]; simpl; [reflexivity|].
  destruct (Ascii.eqb a "?"); simpl; intros H.
  - rewrite lastIdx_none_countQ by lia. reflexivity.
  - rewrite (IH H). destruct (lastIdx s "?"); reflexivity.
Qed.

Lemma buildResponse_base {T} fullUrl pageNumber pageSize (products : list T) :
  links_base (buildResponse fullUrl pageNumber pageSize products) =
    match lastIdx fullUrl "?" with
    | Some k => String.substring 0 k fullUrl
    | None => fullUrl
    end.
Proof.
  unfold buildResponse, lastIndexOf, substring0. simpl.
  rewrite lastIndexOf_from_lastIdx.
  destruct (lastIdx fullUrl "?") as [k|]; [|reflexivity].
  destruct (Z.eqb_spec (0 + Z.of_nat k) (-1)); [lia|]. simpl.
  replace (Z.to_nat (0 + Z.of_nat k)) with k by lia. reflexivity.
Qed.

Lemma buildResponse_prev {T} fullUrl pageNumber pageSize (products : list T) :
  links_prev (buildResponse fullUrl pageNumber pageSize products) =
    if pageNumber >? 1
    then Some (links_base (buildResponse fullUrl pageNumber pageSize products)
               +:+ pageQuery pageSize (jsSub pageNumber 1))
    else None.
Proof. reflexivity. Qed.

Lemma buildResponse_next {T} fullUrl pageNumber pageSize (products : list T) :
  links_next (buildResponse fullUrl pageNumber pageSize products) =
    if Z.of_nat (length products) =? pageSize
    then Some (links_base (buildResponse fullUrl pageNumber pageSize products)
               +:+ pageQuery pageSize (jsAdd pageNumber 1))
    else None.
Proof. reflexivity. Qed.

(** Up to 2^53 every whole number is a double, and is printed digit by
    digit. *)
Lemma toDouble_safe z : Z.abs z <= 2 ^ 53 -> toDouble z = z.
Proof.
  intros H. unfold toDouble, maxSafe.
  destruct (Z.leb_spec (Z.abs z) (2 ^ 53)); [reflexivity | lia].
Qed.

Lemma numberToString_safe z : Z.abs z <= 2 ^ 53 -> numberToString z = pretty z.
Proof.
  intros H. unfold numberToString, maxSafe.
  destruct (Z.leb_spec (Z.abs z) (2 ^ 53)); [reflexivity | lia].
Qed.

Lemma pageQuery_safe pageSize pageNumber :
  Z.abs pageSize <= 2 ^ 53 -> Z.abs pageNumber <= 2 ^ 53 ->
  pageQuery pageSize pageNumber =
    "?pageSize=" +:+ pretty pageSize +:+ "&pageNumber=" +:+ pretty pageNumber.
Proof.
  intros Hs Hn. unfold pageQuery. rewrite !numberToString_safe by assumption. reflexivity.
Qed.

(** C6, as stated, fails on a URL with a second ['?']: the pager cuts at the
    last one, so part of the query string stays in the base link.  It fails
    on page number 2^53 too: the number after it is no double, the sum is
    rounded back, and the next link names the same page again. *)
Lemma buildResponse_cuts_at_last_question_mark :
  links_base (buildResponse "http://localhost:3000/api/v1/roles?tag=a?b" 2 10
                (repeat editors 10))
    = "http://localhost:3000/api/v1/roles?tag=a"
  /\ stripQuery "http://localhost:3000/api/v1/roles?tag=a?b"
    = "http://localhost:3000/api/v1/roles"
  /\ links_base (buildResponse "http://localhost:3000/api/v1/roles?tag=a?b" 2 10
                   (repeat editors 10))
     <> stripQuery "http://localhost:3000/api/v1/roles?tag=a?b"
  /\ links_next (buildResponse "http://localhost:3000/api/v1/roles" 9007199254740992 10
                   (repeat editors 10))
     = Some "http://localhost:3000/api/v1/roles?pageSize=10&pageNumber=9007199254740992"
  /\ pretty (9007199254740992 + 1) = "9007199254740993".
Proof.
  split; [reflexivity|]. split; [reflexivity|]. split; [discriminate|].
  split; vm_compute; reflexivity.
Qed.

(** C6, amended. For a whole page number from 1 to below 2^53, a page size
    from 1 to 100 and a URL with at most one ['?']: the base link is the URL
    with its query string stripped; the previous link is there exactly when
    the page number is above 1, and is the base link followed by the page
    size and the page number less one; the next link is there exactly when
    the slice has as many items as the page size, and is the base link
    followed by the page size and the page number plus one. *)
Theorem buildResponse_links :
  forall (T : Type) (fullUrl : string) (pageNumber pageSize : Z) (products : list T),
    1 <= pageNumber < 2 ^ 53 ->
    1 <= pageSize <= 100 ->
    (countQ fullUrl <= 1)%nat ->
    links_base (buildResponse fullUrl pageNumber pageSize products) = stripQuery fullUrl
    /\ (links_prev (buildResponse fullUrl pageNumber pageSize products) <> None
        <-> 1 < pageNumber)
    /\ (forall link,
          links_prev (buildResponse fullUrl pageNumber pageSize products) = Some link ->
          link = stripQuery fullUrl +:+ "?pageSize=" +:+ pretty pageSize
                 +:+ "&pageNumber=" +:+ pretty (pageNumber - 1))
    /\ (links_next (buildResponse fullUrl pageNumber pageSize products) <> None
        <-> Z.of_nat (length products) = pageSize)
    /\ (forall link,
          links_next (buildResponse fullUrl pageNumber pageSize products) = Some link ->
          link = stripQuery fullUrl +:+ "?pageSize=" +:+ pretty pageSize
                 +:+ "&pageNumber=" +:+ pretty (pageNumber + 1))
    /\ results (buildResponse fullUrl pageNumber pageSize products) = products.
Proof.
  intros T fullUrl pageNumber pageSize products Hn Hs Hq.
  assert (Hb : links_base (buildResponse fullUrl pageNumber pageSize products)
               = stripQuery fullUrl)
    by (rewrite buildResponse_base, stripQuery_lastIdx by assumption; reflexivity).
  assert (Hp : pageQuery pageSize (jsSub pageNumber 1) =
               "?pageSize=" +:+ pretty pageSize +:+ "&pageNumber=" +:+ pretty (pageNumber - 1)).
  { unfold jsSub. rewrite toDouble_safe by lia. apply pageQuery_safe; lia. }
  assert (Hx : pageQuery pageSize (jsAdd pageNumber 1) =
               "?pageSize=" +:+ pretty pageSize +:+ "&pageNumber=" +:+ pretty (pageNumber + 1)).
  { unfold jsAdd. rewrite toDouble_safe by lia. apply pageQuery_safe; lia. }
  rewrite buildResponse_prev, buildResponse_next, Hb, Hp, Hx.
  split; [reflexivity|]. repeat split.
  - destruct (Z.gtb_spec pageNumber 1); [lia | congruence].
  - intros H. destruct (Z.gtb_spec pageNumber 1); [discriminate | lia].
  - destruct (pageNumber >? 1); [|discriminate]. intros link [= <-]. reflexivity.
  - destruct (Z.eqb_spec (Z.of_nat (length products)) pageSize); congruence.
  - intros H. destruct (Z.eqb_spec (Z.of_nat (length products)) pageSize);
      [discriminate | contradiction].
  - destruct (Z.of_nat (length products) =? pageSize); [|discriminate].
    intros link [= <-]. reflexivity.
Qed.

Lemma buildResponse_links_witness :
  links_base (buildResponse "http://localhost:3000/api/v1/roles?pageSize=10&pageNumber=3" 3 10
                (repeat editors 5))
    = "http://localhost:3000/api/v1/roles"
  /\ links_prev (buildResponse "http://localhost:3000/api/v1/roles?pageSize=10&pageNumber=3" 3 10
                   (repeat editors 5))
     = Some "http://localhost:3000/api/v1/roles?pageSize=10&pageNumber=2"
  /\ ~ links_next (buildResponse "http://localhost:3000/api/v1/roles?pageSize=10&pageNumber=3" 3 10
                     (repeat editors 5)) <> None.
Proof.
  destruct (buildResponse_links Role
              "http://localhost:3000/api/v1/roles?pageSize=10&pageNumber=3" 3 10
              (repeat editors 5)) as (Hb & Hp & Hl & Hx & _);
    [change (2 ^ 53) with 9007199254740992; lia | lia | simpl; lia |].
  split; [exact Hb|]. split.
  - destruct (links_prev _) as [link|] eqn:E.
    + rewrite (Hl link eq_refl). reflexivity.
    + exfalso. apply Hp; [lia | reflexivity].
  - intros H. apply Hx in H. simpl in H. lia.
Defined.

(** ** Updating and deleting a role *)

Lemma Role_update_missing id newRole rs :
  Role.lookup id rs = None -> Role.update id newRole rs = rs.
Proof.
  unfold Role.lookup, Role.update, Role.byId. destruct (isObjectId id); [|reflexivity].
  induction rs as [|r rs IH]; simpl; [reflexivity|].
  destruct (sameObjectId (role_id r) id); [discriminate|].
  intros H. rewrite (IH H). reflexivity.
Qed.

Lemma Role_remove_missing id rs :
  Role.lookup id rs = None -> Role.remove id rs = rs.
Proof.
  unfold Role.lookup, Role.remove, Role.byId. destruct (isObjectId id); [|reflexivity].
  induction rs as [|r rs IH]; simpl; [reflexivity|].
  destruct (sameObjectId (role_id r) id); [discriminate|].
  intros H. rewrite (IH H). reflexivity.
Qed.

Lemma Role_update_found id newRole rs r :
  Role.lookup id rs = Some r ->
  Role.lookup id (Role.update id newRole rs) = Some (Role.applyUpdate newRole r).
Proof.
  unfold Role.lookup, Role.update, Role.byId. destruct (isObjectId id); [|discriminate].
  induction rs as [|r0 rs IH]; simpl; [discriminate|].
  destruct (sameObjectId (role_id r0) id) eqn:E; simpl.
  - intros [= ->]. rewrite E. reflexivity.
  - rewrite E. exact IH.
Qed.

(** The [try] block of the update handler, step by step. *)
Lemma roles_put_try_run roleId newRole w :
  roles_put_try roleId newRole w =
    if idsLoop (dto_role_serviceOpIds newRole) (services w) true then
      if isObjectId roleId then
        let w1 :=
          log (RoleFindOneAndUpdate roleId)
            (setRoles (Role.update roleId newRole (roles w)) (log ServiceFind w)) in
        match sendAudit Put ("Role ID: " +:+ roleId +:+ " was updated.") w1 with
        | (Ok _, w2) =>
            (Ok (mkResponse 200
                   (JsonRole (Role.applyUpdate newRole <$> Role.lookup roleId (roles w)))),
             w2)
        | (Throw e, w2) => (Throw e, w2)
        end
      else (Throw (castFailed roleId "roles"), log ServiceFind w)
    else
      (Throw (RouteHandlingError 400 "Service Operation ID validation failed"),
       log ServiceFind w).
Proof.
  unfold roles_put_try, mbind, M_bind, bind. rewrite validateServiceOps_run.
  unfold Role.findOneAndUpdate.
  destruct (idsLoop _ _ _); [|reflexivity].
  destruct (isObjectId roleId); reflexivity.
Qed.

Lemma roles_put_try_collections roleId newRole w :
  sameCollections w (snd (roles_put_try roleId newRole w))
  \/ (idsLoop (dto_role_serviceOpIds newRole) (services w) true = true
      /\ isObjectId roleId = true
      /\ services (snd (roles_put_try roleId newRole w)) = services w
      /\ roles (snd (roles_put_try roleId newRole w)) =
           Role.update roleId newRole (roles w)).
Proof.
  rewrite roles_put_try_run.
  destruct (idsLoop _ _ _); [|left; split; reflexivity].
  destruct (isObjectId roleId); [right | left; split; reflexivity].
  split; [reflexivity|]. split; [reflexivity|]. cbv zeta.
  match goal with |- context [sendAudit ?m ?d ?w1] =>
    pose proof (sendAudit_same m d w1) as [Hs Hr];
    destruct (sendAudit m d w1) as [[[]|e] w2] end;
    simpl in *; rewrite Hs, Hr; split; reflexivity.
Qed.

Lemma roles_delete_try_run roleId w :
  roles_delete_try roleId w =
    if isObjectId roleId then
      match sendAudit Delete ("Deleting service with ID: " +:+ roleId)
              (log (RoleDeleteOne roleId) (setRoles (Role.remove roleId (roles w)) w)) with
      | (Ok _, w2) => (Ok (mkResponse 201 (Text "Success")), w2)
      | (Throw e, w2) => (Throw e, w2)
      end
    else (Throw (castFailed roleId "roles"), w).
Proof.
  unfold roles_delete_try, mbind, M_bind, bind, Role.deleteOne.
  destruct (isObjectId roleId); reflexivity.
Qed.

(** C9, as stated, fails: with [idR2], a well-formed ObjectId, unknown, the
    delete handler answers 201 'Success' and the update handler answers 200
    with [null]; neither reports that the role was not found. *)
Lemma roles_put_delete_unknown_role_succeed :
  isObjectId idR2 = true
  /\ Role.lookup idR2 (roles w0) = None
  /\ roles_delete_try idR2 w0 =
    (Ok (mkResponse 201 (Text "Success")), log (RoleDeleteOne idR2) w0)
  /\ roles_put_try idR2 (mkIRoleDto "Reviewers" [idX]) w0 =
    (Ok (mkResponse 200 (JsonRole None)),
     log (RoleFindOneAndUpdate idR2) (log ServiceFind w0)).
Proof. repeat split; reflexivity. Qed.

(** C9, amended. When the role identifier resolves to no stored role, an
    update request and a delete request leave the services and the roles as
    they were.  When the identifier is a well-formed ObjectId the delete
    request is not refused: it is answered 201 'Success' whenever the audit
    post does not fail.  When the identifier is no ObjectId the delete
    request and, after its operation identifiers passed the Reference
    Validator, the update request end in the error of the failed cast. *)
Theorem roles_put_delete_unknown_role_change_nothing :
  forall fmt (roleId : Identifier) (newRole : IRoleDto) (w : World),
    Role.lookup roleId (roles w) = None ->
    sameCollections w (snd (roles_put fmt roleId newRole w))
    /\ sameCollections w (snd (roles_delete fmt roleId w))
    /\ (isObjectId roleId = true -> auditWorks w ->
        fst (roles_delete fmt roleId w) = mkResponse 201 (Text "Success"))
    /\ (isObjectId roleId = false ->
        roles_delete_try roleId w = (Throw (castFailed roleId "roles"), w)
        /\ (Forall (registered (services w)) (dto_role_serviceOpIds newRole) ->
            fst (roles_put_try roleId newRole w) = Throw (castFailed roleId "roles"))).
Proof.
  intros fmt roleId newRole w H. unfold roles_put, roles_delete.
  rewrite !route_world. split; [|split; [|split]].
  - destruct (roles_put_try_collections roleId newRole w) as [Hs|(_ & _ & Hs & Hr)];
      [exact Hs|].
    split; [exact Hs|]. rewrite Hr. apply Role_update_missing, H.
  - rewrite roles_delete_try_run, (Role_remove_missing _ _ H).
    destruct (isObjectId roleId); [|split; reflexivity].
    match goal with |- context [sendAudit ?m ?d ?w1] =>
      pose proof (sendAudit_same m d w1) as Hs;
      destruct (sendAudit m d w1) as [[[]|e] w2] end; exact Hs.
  - intros Hc Ha. apply route_ok. rewrite roles_delete_try_run, Hc.
    match goal with |- context [sendAudit ?m ?d ?w1] =>
      pose proof (sendAudit_works m d w1 Ha) as Hs;
      destruct (sendAudit m d w1) as [[[]|e] w2] end; [reflexivity | discriminate].
  - intros Hc. split.
    + rewrite roles_delete_try_run, Hc. reflexivity.
    + intros Hreg. apply idsLoop_true in Hreg.
      rewrite roles_put_try_run, Hreg, Hc. reflexivity.
Qed.

Lemma roles_put_delete_unknown_role_change_nothing_witness :
  Role.lookup idR2 (roles w0) = None
  /\ isObjectId idR2 = true
  /\ auditWorks w0
  /\ sameCollections w0
       (snd (roles_put exampleFormatter idR2 (mkIRoleDto "Reviewers" [idX]) w0))
  /\ sameCollections w0 (snd (roles_delete exampleFormatter idR2 w0))
  /\ fst (roles_delete exampleFormatter idR2 w0) = mkResponse 201 (Text "Success")
  /\ Role.lookup "R2" (roles w0) = None
  /\ isObjectId "R2" = false
  /\ roles_delete_try "R2" w0 = (Throw (castFailed "R2" "roles"), w0).
Proof.
  assert (H : Role.lookup idR2 (roles w0) = None) by reflexivity.
  assert (Hc : isObjectId idR2 = true) by reflexivity.
  assert (Ha : auditWorks w0) by (left; reflexivity).
  destruct (roles_put_delete_unknown_role_change_nothing exampleFormatter idR2
              (mkIRoleDto "Reviewers" [idX]) w0 H) as (Hp & Hd & Hr & _).
  assert (H' : Role.lookup "R2" (roles w0) = None) by reflexivity.
  assert (Hc' : isObjectId "R2" = false) by reflexivity.
  destruct (roles_put_delete_unknown_role_change_nothing exampleFormatter "R2"
              (mkIRoleDto "Reviewers" [idX]) w0 H') as (_ & _ & _ & Hx).
  split; [exact H|]. split; [exact Hc|]. split; [exact Ha|]. split; [exact Hp|].
  split; [exact Hd|]. split; [exact (Hr Hc Ha)|]. split; [exact H'|].
  split; [exact Hc'|]. exact (proj1 (Hx Hc')).
Defined.

(** C10. An update request over a stored role whose operation identifiers
    are all registered is applied whatever the length of the requested
    name: the stored role then carries the requested name and identifiers,
    the reply is 200 with the updated role whenever the audit post does not
    fail, and the only error the [try] block can end in is the 424 of a
    failed audit post. *)
Theorem roles_put_ignores_name_bounds :
  forall fmt (roleId : Identifier) (newRole : IRoleDto) (w : World) (r : Role),
    Role.lookup roleId (roles w) = Some r ->
    Forall (registered (services w)) (dto_role_serviceOpIds newRole) ->
    Role.lookup roleId (roles (snd (roles_put fmt roleId newRole w))) =
      Some (mkRole (role_id r) (dto_role_name newRole) (dto_role_serviceOpIds newRole))
    /\ (auditWorks w ->
        fst (roles_put fmt roleId newRole w) =
          mkResponse 200
            (JsonRole (Some (mkRole (role_id r) (dto_role_name newRole)
                               (dto_role_serviceOpIds newRole)))))
    /\ (fst (roles_put_try roleId newRole w) =
          Ok (mkResponse 200
                (JsonRole (Some (mkRole (role_id r) (dto_role_name newRole)
                                   (dto_role_serviceOpIds newRole)))))
        \/ fst (roles_put_try roleId newRole w) =
             Throw (RouteHandlingError 424 auditRefused)).
Proof.
  intros fmt roleId newRole w r Hr Hreg.
  apply idsLoop_true in Hreg.
  assert (Hrun := roles_put_try_run roleId newRole w).
  rewrite Hreg, (Role_lookup_cast _ _ _ Hr), Hr in Hrun.
  cbv zeta in Hrun. simpl fmap in Hrun.
  unfold roles_put. rewrite route_world.
  match type of Hrun with context [sendAudit ?m ?d ?w1] =>
    pose proof (sendAudit_same m d w1) as [_ Hsr];
    pose proof (sendAudit_works m d w1) as Hw;
    pose proof (sendAudit_result m d w1) as Hres;
    destruct (sendAudit m d w1) as [[[]|e] w2] end;
    rewrite Hrun; simpl in *.
  - split; [|split].
    + rewrite Hsr. apply Role_update_found, Hr.
    + intros _. apply route_ok. rewrite Hrun. reflexivity.
    + left. reflexivity.
  - split; [|split].
    + rewrite Hsr. apply Role_update_found, Hr.
    + intros Ha. specialize (Hw Ha). discriminate.
    + right. destruct Hres as [Hres|Hres]; [discriminate | congruence].
Qed.

Lemma roles_put_ignores_name_bounds_witness :
  validateRole (mkIRoleDto "x" [idX; idX]) <> None
  /\ Role.lookup idR1 (roles w0) = Some editors
  /\ Forall (registered (services w0)) [idX; idX]
  /\ Role.lookup idR1
       (roles (snd (roles_put exampleFormatter idR1 (mkIRoleDto "x" [idX; idX]) w0)))
     = Some (mkRole idR1 "x" [idX; idX])
  /\ fst (roles_put exampleFormatter idR1 (mkIRoleDto "x" [idX; idX]) w0)
     = mkResponse 200 (JsonRole (Some (mkRole idR1 "x" [idX; idX]))).
Proof.
  assert (Hr : Role.lookup idR1 (roles w0) = Some editors) by reflexivity.
  assert (Hreg : Forall (registered (services w0)) [idX; idX]).
  { repeat constructor; exists srvA, opX; simpl; auto. }
  destruct (roles_put_ignores_name_bounds exampleFormatter idR1
              (mkIRoleDto "x" [idX; idX]) w0 editors Hr Hreg) as (Hs & Hok & _).
  split; [discriminate|]. split; [exact Hr|]. split; [exact Hreg|].
  split; [exact Hs|]. apply Hok. left. reflexivity.
Defined.

(** ** Updating a service *)

Lemma idEquals_spec id incoming :
  idEquals id incoming = true <->
  exists i, incoming = Some i /\ sameObjectId id i = true.
Proof.
  destruct incoming as [i|]; simpl.
  - split; [eauto | intros (? & [= <-] & H); exact H].
  - split; [discriminate | intros (? & ? & _); discriminate].
Qed.

(** An identifier of a request body that is the stored identifier, letter
    by letter, matches it. *)
Lemma idEquals_same id : idEquals id (Some id) = true.
Proof. apply sameObjectId_refl. Qed.

(** One incoming operation neither adds nor drops an operation, and keeps
    every identifier where it was. *)
Lemma renameLoop_ids ops incoming :
  map op_id (renameLoop ops incoming) = map op_id ops.
Proof.
  induction ops as [|op ops IH]; simpl; [reflexivity|].
  destruct (idEquals (op_id op) (dto_op_id incoming)); simpl; congruence.
Qed.

Lemma updateOperations_ids incoming : forall ops,
  map op_id (updateOperations ops incoming) = map op_id ops.
Proof.
  unfold updateOperations.
  induction incoming as [|inc incoming IH]; intros ops; simpl; [reflexivity|].
  rewrite IH. apply renameLoop_ids.
Qed.

(** An incoming operation whose identifier matches no stored operation
    changes nothing. *)
Lemma renameLoop_no_match ops incoming :
  (forall op, In op ops -> idEquals (op_id op) (dto_op_id incoming) = false) ->
  renameLoop ops incoming = ops.
Proof.
  induction ops as [|op ops IH]; simpl; intros H; [reflexivity|].
  rewrite (H op) by auto.
  rewrite IH; [reflexivity|]. intros o Ho. apply H. auto.
Qed.

(** An incoming operation whose identifier matches renames the first
    stored operation that carries it, in place. *)
Lemma renameLoop_match ops incoming : forall (j : nat) op,
  ops !! j = Some op ->
  idEquals (op_id op) (dto_op_id incoming) = true ->
  (forall (i : nat) o, (i < j)%nat -> ops !! i = Some o ->
                       idEquals (op_id o) (dto_op_id incoming) = false) ->
  renameLoop ops incoming = <[j := mkOperation (op_id op) (dto_op_name incoming)]> ops.
Proof.
  induction ops as [|op0 ops IH]; intros j op Hj Hid Hfirst; [discriminate|].
  simpl. destruct j as [|j]; simpl in *.
  - injection Hj as ->. rewrite Hid. reflexivity.
  - rewrite (Hfirst O op0) by (lia || reflexivity).
    f_equal. apply IH; [assumption | assumption |].
    intros i o Hi Ho. apply (Hfirst (S i) o); [lia | exact Ho].
Qed.

(** A stored operation keeps its name or takes the name of an incoming
    operation with its identifier. *)
Lemma renameLoop_lookup ops incoming : forall (j : nat) op',
  renameLoop ops incoming !! j = Some op' ->
  exists op,
    ops !! j = Some op /\ op_id op' = op_id op
    /\ (op_name op' = op_name op
        \/ (idEquals (op_id op) (dto_op_id incoming) = true
            /\ op_name op' = dto_op_name incoming)).
Proof.
  induction ops as [|op0 ops IH]; intros j op' H; [discriminate|].
  simpl in H. destruct (idEquals (op_id op0) (dto_op_id incoming)) eqn:E.
  - destruct j as [|j]; simpl in *.
    + injection H as <-. exists op0. simpl. auto.
    + exists op'. auto.
  - destruct j as [|j]; simpl in *.
    + injection H as <-. exists op0. auto.
    + apply IH, H.
Qed.

Lemma updateOperations_lookup incoming : forall ops (j : nat) op',
  updateOperations ops incoming !! j = Some op' ->
  exists op,
    ops !! j = Some op /\ op_id op' = op_id op
    /\ (op_name op' = op_name op
        \/ exists inc, In inc incoming /\ idEquals (op_id op) (dto_op_id inc) = true
                       /\ op_name op' = dto_op_name inc).
Proof.
  unfold updateOperations.
  induction incoming as [|inc incoming IH]; intros ops j op' H; simpl in H.
  - exists op'. auto.
  - destruct (IH _ _ _ H) as (op1 & H1 & Hid1 & Hn1).
    destruct (renameLoop_lookup _ _ _ _ H1) as (op & H0 & Hid0 & Hn0).
    exists op. split; [exact H0|]. split; [congruence|].
    destruct Hn1 as [Hn1|(i & Hi & Hd & Hn)].
    + destruct Hn0 as [Hn0|[Hd Hn0]].
      * left. congruence.
      * right. exists inc. simpl. split; [auto|]. split; [exact Hd | congruence].
    + right. exists i. simpl. split; [auto|]. split; [congruence | exact Hn].
Qed.

Lemma renameLoop_named ops incoming :
  dto_op_name incoming <> "" -> namedOps ops = true ->
  namedOps (renameLoop ops incoming) = true.
Proof.
  intros Hn. unfold namedOps. induction ops as [|op ops IH]; simpl; [reflexivity|].
  intros H. apply andb_prop in H as [H1 H2].
  destruct (idEquals (op_id op) (dto_op_id incoming)); simpl.
  - rewrite H2. destruct (String.eqb_spec (dto_op_name incoming) ""); [contradiction | reflexivity].
  - rewrite H1. simpl. auto.
Qed.

Lemma updateOperations_named incoming : forall ops,
  Forall (fun inc => dto_op_name inc <> "") incoming ->
  namedOps ops = true ->
  namedOps (updateOperations ops incoming) = true.
Proof.
  unfold updateOperations.
  induction incoming as [|inc incoming IH]; intros ops HF H; simpl; [exact H|].
  inversion HF; subst. apply IH; [assumption|]. apply renameLoop_named; assumption.
Qed.

Lemma ServiceModel_lookup_id id ss s :
  ServiceModel.lookup id ss = Some s -> sameObjectId (srvc_id s) id = true.
Proof.
  unfold ServiceModel.lookup, ServiceModel.byId.
  destruct (isObjectId id); [|discriminate].
  intros H. apply find_some in H as [_ H]. exact H.
Qed.

Lemma ServiceModel_lookup_In id ss s :
  ServiceModel.lookup id ss = Some s -> In s ss.
Proof.
  unfold ServiceModel.lookup, ServiceModel.byId.
  destruct (isObjectId id); [|discriminate].
  intros H. apply find_some in H as [H _]. exact H.
Qed.

Lemma ServiceModel_replace_found id ss s s' :
  ServiceModel.lookup id ss = Some s -> sameObjectId (srvc_id s') id = true ->
  ServiceModel.lookup id (ServiceModel.replace s' ss) = Some s'.
Proof.
  unfold ServiceModel.lookup, ServiceModel.byId.
  destruct (isObjectId id); [|discriminate]. intros H Hid.
  induction ss as [|s0 ss IH]; simpl in *; [discriminate|].
  rewrite <- (sameObjectId_congr_r _ _ (srvc_id s0) Hid) in H.
  destruct (sameObjectId (srvc_id s0) (srvc_id s')) eqn:E; simpl.
  - rewrite Hid. reflexivity.
  - rewrite <- (sameObjectId_congr_r _ _ (srvc_id s0) Hid), E. apply IH, H.
Qed.

Lemma ServiceModel_replace_others s' ss s0 :
  In s0 ss -> sameObjectId (srvc_id s0) (srvc_id s') = false ->
  In s0 (ServiceModel.replace s' ss).
Proof.
  induction ss as [|s1 ss IH]; simpl; [tauto|].
  intros [->|Hin] Hne.
  - rewrite Hne. left; reflexivity.
  - destruct (sameObjectId (srvc_id s1) (srvc_id s')); right; auto.
Qed.

(** The [try] block of the service update, once the service is found. *)
Lemma services_put_try_run serviceId srvcData w srvc :
  ServiceModel.lookup serviceId (services w) = Some srvc ->
  services_put_try serviceId srvcData w =
    let srvc' :=
      mkService (srvc_id srvc) (dto_srvc_name srvcData)
        (updateOperations (srvc_operations srvc) (dto_srvc_operations srvcData)) in
    let w1 := log (ServiceFindById serviceId) w in
    if ServiceModel.validateSync srvc' then
      match sendAudit Put ("Updated service ID: " +:+ serviceId)
              (log (ServiceSave (srvc_id srvc))
                 (setServices (ServiceModel.replace srvc' (services w)) w1)) with
      | (Ok _, w2) => (Ok (mkResponse 201 (JsonService srvc')), w2)
      | (Throw e, w2) => (Throw e, w2)
      end
    else (Throw (StoreValidationError "services validation failed"), w1).
Proof.
  intros H. unfold services_put_try, mbind, M_bind, bind.
  rewrite (Service_findById_found _ _ _ H). unfold ServiceModel.save. cbv zeta.
  destruct (ServiceModel.validateSync _); reflexivity.
Qed.

(** C8, as stated, fails for an empty name: the schema requires [name], the
    save is refused, and the stored service keeps its name. *)
Lemma services_put_empty_name_not_stored :
  services_put_try idA (mkIServiceDto "" []) w0 =
    (Throw (StoreValidationError "services validation failed"),
     log (ServiceFindById idA) w0)
  /\ ServiceModel.lookup idA (services (snd (services_put_try idA (mkIServiceDto "" []) w0)))
     = Some (mkService idA "Service A" [mkOperation idX "op1"]).
Proof. split; reflexivity. Qed.

(** C8, amended. An update of a stored service with a non-empty name and
    non-empty incoming operation names stores the given name; the list of
    operations keeps its identifiers, in place, and so neither gains nor
    loses an operation; a stored operation keeps its name or takes the name
    of an incoming operation whose identifier matches its own; an incoming
    operation that matches no stored identifier changes nothing, and one
    that matches renames the first operation that it matches, where it
    stands.  A stored identifier is matched, as [ObjectId.equals] compares,
    by the string that spells it in lower or upper case.  The services with
    another ObjectId and the roles are untouched. *)
Theorem services_put_renames_in_place :
  forall fmt (serviceId : Identifier) (srvcData : IServiceDto) (w : World) (srvc : Service),
    ServiceModel.lookup serviceId (services w) = Some srvc ->
    ServiceModel.validateSync srvc = true ->
    dto_srvc_name srvcData <> "" ->
    Forall (fun inc => dto_op_name inc <> "") (dto_srvc_operations srvcData) ->
    exists srvc',
      ServiceModel.lookup serviceId (services (snd (services_put fmt serviceId srvcData w)))
        = Some srvc'
      /\ srvc_id srvc' = srvc_id srvc
      /\ srvc_name srvc' = dto_srvc_name srvcData
      /\ srvc_operations srvc' =
           fold_left renameLoop (dto_srvc_operations srvcData) (srvc_operations srvc)
      /\ map op_id (srvc_operations srvc') = map op_id (srvc_operations srvc)
      /\ (forall (j : nat) op',
            srvc_operations srvc' !! j = Some op' ->
            exists op,
              srvc_operations srvc !! j = Some op /\ op_id op' = op_id op
              /\ (op_name op' = op_name op
                  \/ exists inc, In inc (dto_srvc_operations srvcData)
                                 /\ idEquals (op_id op) (dto_op_id inc) = true
                                 /\ op_name op' = dto_op_name inc))
      /\ (forall ops inc,
            (forall op, In op ops -> idEquals (op_id op) (dto_op_id inc) = false) ->
            renameLoop ops inc = ops)
      /\ (forall ops inc (j : nat) op,
            ops !! j = Some op ->
            idEquals (op_id op) (dto_op_id inc) = true ->
            (forall (i : nat) o, (i < j)%nat -> ops !! i = Some o ->
                                 idEquals (op_id o) (dto_op_id inc) = false) ->
            renameLoop ops inc = <[j := mkOperation (op_id op) (dto_op_name inc)]> ops)
      /\ (forall id i,
            idEquals id (Some i) = true <-> toLowerCase i = toLowerCase id)
      /\ (forall id, idEquals id None = false)
      /\ (forall s0, In s0 (services w) -> sameObjectId (srvc_id s0) serviceId = false ->
                     In s0 (services (snd (services_put fmt serviceId srvcData w))))
      /\ roles (snd (services_put fmt serviceId srvcData w)) = roles w.
Proof.
  intros fmt serviceId srvcData w srvc Hl Hv Hname Hinc.
  pose proof (ServiceModel_lookup_id _ _ _ Hl) as Hid.
  set (srvc' := mkService (srvc_id srvc) (dto_srvc_name srvcData)
                  (updateOperations (srvc_operations srvc) (dto_srvc_operations srvcData))).
  assert (Hv' : ServiceModel.validateSync srvc' = true).
  { unfold ServiceModel.validateSync in *. simpl.
    apply andb_prop in Hv as [_ Hops].
    destruct (String.eqb_spec (dto_srvc_name srvcData) ""); [contradiction|]. simpl.
    apply (updateOperations_named _ _ Hinc Hops). }
  assert (Hw : services (snd (services_put fmt serviceId srvcData w))
               = ServiceModel.replace srvc' (services w)
               /\ roles (snd (services_put fmt serviceId srvcData w)) = roles w).
  { unfold services_put. rewrite route_world, (services_put_try_run _ _ _ _ Hl).
    cbv zeta. fold srvc'. rewrite Hv'.
    match goal with |- context [sendAudit ?m ?d ?w1] =>
      pose proof (sendAudit_same m d w1) as [Hs Hr];
      destruct (sendAudit m d w1) as [[[]|e] w2] end;
      simpl in *; rewrite Hs, Hr; split; reflexivity. }
  destruct Hw as [Hs Hr]. exists srvc'. rewrite Hs, Hr.
  split; [apply (ServiceModel_replace_found _ _ srvc); [exact Hl | exact Hid]|].
  split; [reflexivity|]. split; [reflexivity|]. split; [reflexivity|].
  split; [apply updateOperations_ids|].
  split; [apply updateOperations_lookup|].
  split; [apply renameLoop_no_match|].
  split; [apply renameLoop_match|].
  split.
  { intros id i. simpl. rewrite sameObjectId_spec. split; congruence. }
  split; [reflexivity|].
  split; [|reflexivity].
  intros s0 Hin Hne. apply ServiceModel_replace_others; [exact Hin|]. simpl.
  rewrite (sameObjectId_congr_r _ _ (srvc_id s0) Hid). exact Hne.
Qed.

Lemma services_put_renames_in_place_witness :
  ServiceModel.lookup idA (services w0) = Some srvA
  /\ ServiceModel.lookup idA
       (services (snd (services_put exampleFormatter idA
                         (mkIServiceDto "Service B"
                            [mkIServiceOperation (Some "64A1F0C2E4B0A1B2C3D4E5A0") "op2";
                             mkIServiceOperation (Some idY) "op3";
                             mkIServiceOperation None "op4"]) w0)))
     = Some (mkService idA "Service B" [mkOperation idX "op2"]).
Proof.
  assert (Hl : ServiceModel.lookup idA (services w0) = Some srvA) by reflexivity.
  split; [exact Hl|].
  destruct (services_put_renames_in_place exampleFormatter idA
              (mkIServiceDto "Service B"
                 [mkIServiceOperation (Some "64A1F0C2E4B0A1B2C3D4E5A0") "op2";
                  mkIServiceOperation (Some idY) "op3";
                  mkIServiceOperation None "op4"]) w0 srvA Hl eq_refl)
    as (srvc' & Hs & Hid & Hn & Hops & _).
  - discriminate.
  - repeat constructor; discriminate.
  - rewrite Hs. destruct srvc' as [i n o]. simpl in *. subst. reflexivity.
Defined.

(** ** Creating a service *)

Lemma validateServiceSchema_in_bounds srvc :
  validateServiceSchema srvc = None <->
  (4 <= String.length (dto_srvc_name srvc) <= 30)%nat.
Proof.
  unfold validateServiceSchema, ServiceLimits.SERVICENAME_MIN_LENGTH,
    ServiceLimits.SERVICENAME_MAX_LENGTH.
  destruct (Nat.eqb_spec (String.length (dto_srvc_name srvc)) 0);
    [split; [discriminate | lia]|].
  destruct (Nat.ltb_spec (String.length (dto_srvc_name srvc)) 4);
    [split; [discriminate | lia]|].
  destruct (Nat.ltb_spec 30 (String.length (dto_srvc_name srvc)));
    [split; [discriminate | lia]|].
  split; [lia | reflexivity].
Qed.

Lemma length_nonempty (s : string) : (1 <= String.length s)%nat -> s <> "".
Proof. destruct s; simpl; [lia | discriminate]. Qed.

Lemma castOperations_names freshOp ops :
  map op_name (castOperations freshOp ops) = map dto_op_name ops.
Proof.
  unfold castOperations. revert freshOp.
  induction ops as [|o ops IH]; intros freshOp; simpl; [reflexivity|].
  f_equal. apply IH.
Qed.

Lemma namedOps_names ops :
  namedOps ops = true <-> Forall (fun n => n <> "") (map op_name ops).
Proof.
  unfold namedOps. induction ops as [|o ops IH]; simpl.
  - split; [constructor | reflexivity].
  - rewrite andb_true_iff, IH. destruct (String.eqb_spec (op_name o) ""); simpl.
    + split; [intros [? _]; discriminate | inversion 1; contradiction].
    + split; [intros [_ H]; constructor; assumption | inversion 1; auto].
Qed.

Lemma castOperations_named freshOp ops :
  namedOps (castOperations freshOp ops) = true <->
  Forall (fun o => dto_op_name o <> "") ops.
Proof.
  rewrite namedOps_names, castOperations_names, Forall_map. reflexivity.
Qed.

Lemma validateSync_split s :
  ServiceModel.validateSync s = true <->
  srvc_name s <> "" /\ namedOps (srvc_operations s) = true.
Proof.
  unfold ServiceModel.validateSync, namedOps. rewrite andb_true_iff.
  destruct (String.eqb_spec (srvc_name s) ""); simpl; split; intros [H1 H2];
    try split; try assumption; try discriminate; try reflexivity; contradiction.
Qed.


(** The [try] block of the creation, once [validateService] accepted. *)
Lemma services_post_try_run newId freshOp newService w :
  validateServiceSchema newService = None ->
  services_post_try newId freshOp newService w =
    match ServiceModel_insert
            (mkService newId (dto_srvc_name newService)
               (castOperations freshOp (dto_srvc_operations newService))) w with
    | (Ok s, w1) =>
        match sendAudit Post ("Service " +:+ srvc_id s +:+ " created.") w1 with
        | (Ok _, w2) => (Ok (mkResponse 201 (JsonService s)), w2)
        | (Throw e, w2) => (Throw e, w2)
        end
    | (Throw e, w1) => (Throw e, w1)
    end.
Proof.
  intros H. unfold services_post_try, validateService, mbind, M_bind, bind.
  rewrite H. simpl. destruct (ServiceModel_insert _ w) as [[s|e] w1]; reflexivity.
Qed.

(** X1. A creation request whose name is shorter than 4 or longer than 30
    characters throws the 400 error that carries the message of the schema,
    before the store is touched: the world, trace included, is unchanged. *)
Theorem services_post_rejects_name_out_of_bounds :
  forall fmt (newId : Identifier) (freshOp : nat -> Identifier)
         (newService : IServiceDto) (w : World),
    (String.length (dto_srvc_name newService) < 4
     \/ 30 < String.length (dto_srvc_name newService))%nat ->
    exists message,
      validateServiceSchema newService = Some message
      /\ services_post_try newId freshOp newService w =
           (Throw (RouteHandlingError 400 message), w)
      /\ services_post fmt newId freshOp newService w =
           (reply fmt (RouteHandlingError 400 message)
              "serviceApi.ts" "Fatal error Service POST", w).
Proof.
  intros fmt newId freshOp newService w H.
  destruct (validateServiceSchema newService) as [message|] eqn:E.
  - exists message. split; [reflexivity|].
    assert (R : services_post_try newId freshOp newService w =
                (Throw (RouteHandlingError 400 message), w)).
    { unfold services_post_try, validateService, mbind, M_bind, bind.
      rewrite E. reflexivity. }
    split; [exact R|]. unfold services_post. rewrite route_run, R. reflexivity.
  - apply validateServiceSchema_in_bounds in E. lia.
Qed.

Lemma services_post_rejects_name_out_of_bounds_witness :
  exists message,
    validateServiceSchema (mkIServiceDto "abc" []) = Some message
    /\ services_post_try idB (fun _ => idY) (mkIServiceDto "abc" []) w0 =
         (Throw (RouteHandlingError 400 message), w0)
    /\ services_post exampleFormatter idB (fun _ => idY) (mkIServiceDto "abc" []) w0 =
         (reply exampleFormatter (RouteHandlingError 400 message)
            "serviceApi.ts" "Fatal error Service POST", w0).
Proof.
  apply (services_post_rejects_name_out_of_bounds exampleFormatter idB (fun _ => idY)
           (mkIServiceDto "abc" []) w0).
  left. simpl. lia.
Defined.



(** X3. [validateService] does not look at the names of the operations: a
    creation request with a name in bounds and an operation without a name
    is refused by the schema validator of the store when the document is
    saved, so the error is not the 400 of [validateService], and nothing is
    stored. *)
Theorem services_post_unnamed_operation :
  forall (newId : Identifier) (freshOp : nat -> Identifier)
         (newService : IServiceDto) (w : World),
    (4 <= String.length (dto_srvc_name newService) <= 30)%nat ->
    Exists (fun o => dto_op_name o = "") (dto_srvc_operations newService) ->
    services_post_try newId freshOp newService w =
      (Throw (StoreValidationError "services validation failed"), w).
Proof.
  intros newId freshOp newService w Hlen Hex.
  rewrite (services_post_try_run newId freshOp newService w
             (proj2 (validateServiceSchema_in_bounds newService) Hlen)).
  unfold ServiceModel_insert.
  set (s := mkService newId _ _).
  destruct (ServiceModel.validateSync s) eqn:Hv; [|reflexivity].
  apply validateSync_split in Hv as [_ Hv]. simpl in Hv.
  apply castOperations_named in Hv. exfalso.
  apply Exists_exists in Hex as (o & Hin & Ho).
  rewrite Forall_forall in Hv. exact (Hv o Hin Ho).
Qed.

Lemma services_post_unnamed_operation_witness :
  services_post_try idB (fun _ => idY)
    (mkIServiceDto "Billing" [mkIServiceOperation None "pay"; mkIServiceOperation None ""]) w0
  = (Throw (StoreValidationError "services validation failed"), w0).
Proof.
  apply services_post_unnamed_operation.
  - simpl. lia.
  - apply Exists_cons_tl, Exists_cons_hd. reflexivity.
Defined.

(** ** Adding operations to a service *)


Lemma services_operation_try_run freshOp srvcOpAdd w srvc :
  ServiceModel.lookup (add_id srvcOpAdd) (services w) = Some srvc ->
  services_operation_try freshOp srvcOpAdd w =
    let srvc' :=
      mkService (srvc_id srvc) (srvc_name srvc)
        (srvc_operations srvc ++ castOperations freshOp (add_operations srvcOpAdd)) in
    let w1 := log (ServiceFindById (add_id srvcOpAdd)) w in
    if ServiceModel.validateSync srvc' then
      match sendAudit Post ("Service " +:+ srvc_id srvc +:+ " updated.")
              (log (ServiceSave (srvc_id srvc))
                 (setServices (ServiceModel.replace srvc' (services w)) w1)) with
      | (Ok _, w2) => (Ok (mkResponse 201 (JsonService srvc')), w2)
      | (Throw e, w2) => (Throw e, w2)
      end
    else (Throw (StoreValidationError "services validation failed"), w1).
Proof.
  intros H. unfold services_operation_try, mbind, M_bind, bind.
  rewrite (Service_findById_found _ _ _ H). unfold ServiceModel.save. cbv zeta.
  destruct (ServiceModel.validateSync _); reflexivity.
Qed.






Lemma ServiceModel_lookup_own id ss s :
  ServiceModel.lookup id ss = Some s -> ServiceModel.byId (srvc_id s) ss = Some s.
Proof.
  intros H. pose proof (ServiceModel_lookup_id _ _ _ H) as Hid.
  unfold ServiceModel.lookup in H. destruct (isObjectId id); [|discriminate].
  unfold ServiceModel.byId in *.
  rewrite (find_sameObjectId_congr srvc_id _ _ ss Hid). exact H.
Qed.



(** ** Creating a role, and what a role may refer to *)

Lemma Role_lookup_app_fresh id rs r :
  isObjectId id = true ->
  Role.lookup id rs = None -> role_id r = id ->
  Role.lookup id (rs ++ [r]) = Some r.
Proof.
  unfold Role.lookup, Role.byId. intros -> H <-.
  induction rs as [|r0 rs IH]; simpl in *.
  - rewrite sameObjectId_refl. reflexivity.
  - destruct (sameObjectId (role_id r0) (role_id r)); [discriminate | auto].
Qed.

Lemma Role_validateSync_split r :
  Role.validateSync r = true <->
  role_name r <> "" /\ Forall (fun id => id <> "") (role_serviceOpIds r).
Proof.
  unfold Role.validateSync. rewrite andb_true_iff.
  assert (Hids : forallb (fun i => negb (String.eqb i "")) (role_serviceOpIds r) = true
                 <-> Forall (fun id => id <> "") (role_serviceOpIds r)).
  { induction (role_serviceOpIds r) as [|i ids IH]; simpl.
    - split; [constructor | reflexivity].
    - rewrite andb_true_iff, IH. destruct (String.eqb_spec i ""); simpl.
      + split; [intros [? _]; discriminate | inversion 1; contradiction].
      + split; [intros [_ H]; constructor; assumption | inversion 1; auto]. }
  rewrite Hids. destruct (String.eqb_spec (role_name r) ""); simpl; split; intros [H1 H2];
    try split; try assumption; try discriminate; try reflexivity; contradiction.
Qed.

(** The [try] block of the creation, once [validateRole] accepted. *)
Lemma roles_post_try_run newId newRole w :
  validateRole newRole = None ->
  roles_post_try newId newRole w =
    if idsLoop (dto_role_serviceOpIds newRole) (services w) true then
      match Role.save (mkRole newId (dto_role_name newRole) (dto_role_serviceOpIds newRole))
              (log ServiceFind w) with
      | (Ok role, w1) =>
          match sendAudit Post
                  ("Role " +:+ role_id role +:+ ", " +:+ role_name role +:+ " created.") w1 with
          | (Ok _, w2) => (Ok (mkResponse 201 (JsonRole (Some role))), w2)
          | (Throw e, w2) => (Throw e, w2)
          end
      | (Throw e, w1) => (Throw e, w1)
      end
    else (Throw (JsError "Service Operation ID validation failed"), log ServiceFind w).
Proof.
  intros H. unfold roles_post_try. rewrite H.
  unfold mbind, M_bind, bind. rewrite validateServiceOps_run.
  destruct (idsLoop _ _ _); [|reflexivity].
  destruct (Role.save _ _) as [[role|e] w1]; reflexivity.
Qed.

(** The step of [Role.save] for a valid document with a new identifier. *)
Lemma Role_save_fresh r w :
  Role.validateSync r = true -> Role.byId (role_id r) (roles w) = None ->
  Role.save r w = (Ok r, log (RoleSave (role_id r)) (setRoles (roles w ++ [r]) w)).
Proof. intros Hv Hl. unfold Role.save. rewrite Hv, Hl. reflexivity. Qed.

Lemma roles_post_created fmt newId newRole w :
  (4 <= String.length (dto_role_name newRole) <= 40)%nat ->
  Forall (registered (services w)) (dto_role_serviceOpIds newRole) ->
  Forall (fun id => id <> "") (dto_role_serviceOpIds newRole) ->
  Role.byId newId (roles w) = None ->
  roles (snd (roles_post fmt newId newRole w)) =
    roles w ++ [mkRole newId (dto_role_name newRole) (dto_role_serviceOpIds newRole)]
  /\ services (snd (roles_post fmt newId newRole w)) = services w
  /\ fst (roles_post_try newId newRole w) =
       fst (let (r, _) :=
              sendAudit Post ("Role " +:+ newId +:+ ", " +:+ dto_role_name newRole +:+ " created.") w
            in match r with
               | Ok _ => (Ok (mkResponse 201
                                (JsonRole (Some (mkRole newId (dto_role_name newRole)
                                                   (dto_role_serviceOpIds newRole))))), w)
               | Throw e => (Throw e, w)
               end).
Proof.
  intros Hlen Hreg Hne Hfresh.
  set (role := mkRole newId (dto_role_name newRole) (dto_role_serviceOpIds newRole)).
  assert (Hv : Role.validateSync role = true).
  { apply Role_validateSync_split. split; [apply length_nonempty; simpl; lia | exact Hne]. }
  assert (Hrun := roles_post_try_run newId newRole w (validateRole_in_bounds newRole Hlen)).
  apply idsLoop_true in Hreg. rewrite Hreg in Hrun. fold role in Hrun.
  rewrite (Role_save_fresh role (log ServiceFind w) Hv Hfresh) in Hrun.
  simpl role_id in Hrun. simpl role_name in Hrun.
  unfold roles_post. rewrite route_world, Hrun.
  rewrite !sendAudit_run. simpl auditEnabled. simpl auditReachable.
  destruct (auditEnabled w), (auditReachable w); simpl; auto.
Qed.

(** X6. A creation request with a name of 4 to 40 characters, registered
    and non-empty operation identifiers and an identifier, an ObjectId that
    the store draws and that no stored role carries, appends the role to the
    collection and leaves the services
    alone; the reply is 201 with the role whenever the audit post does not
    fail.  Afterwards the role reads back by its identifier with 200, and
    expanding it answers 201 with the identifiers of the request, in their
    order. *)
Theorem roles_post_then_expand :
  forall fmt (newId : Identifier) (newRole : IRoleDto) (w : World),
    (4 <= String.length (dto_role_name newRole) <= 40)%nat ->
    Forall (registered (services w)) (dto_role_serviceOpIds newRole) ->
    Forall (fun id => id <> "") (dto_role_serviceOpIds newRole) ->
    isObjectId newId = true ->
    Role.lookup newId (roles w) = None ->
    roles (snd (roles_post fmt newId newRole w)) =
      roles w ++ [mkRole newId (dto_role_name newRole) (dto_role_serviceOpIds newRole)]
    /\ services (snd (roles_post fmt newId newRole w)) = services w
    /\ (auditWorks w ->
        fst (roles_post fmt newId newRole w) =
          mkResponse 201
            (JsonRole (Some (mkRole newId (dto_role_name newRole)
                               (dto_role_serviceOpIds newRole)))))
    /\ fst (roles_get fmt newId (snd (roles_post fmt newId newRole w))) =
         mkResponse 200
           (JsonRole (Some (mkRole newId (dto_role_name newRole)
                              (dto_role_serviceOpIds newRole))))
    /\ fst (rolexpand_post fmt [newId] (snd (roles_post fmt newId newRole w))) =
         mkResponse 201 (JsonIds (dto_role_serviceOpIds newRole)).
Proof.
  intros fmt newId newRole w Hlen Hreg Hne Hc Hfresh.
  assert (Hfresh' : Role.byId newId (roles w) = None)
    by (rewrite <- (Role_lookup_byId _ _ Hc); exact Hfresh).
  destruct (roles_post_created fmt newId newRole w Hlen Hreg Hne Hfresh') as (Hr & Hs & Hres).
  set (role := mkRole newId (dto_role_name newRole) (dto_role_serviceOpIds newRole)) in *.
  assert (Hl : Role.lookup newId (roles (snd (roles_post fmt newId newRole w))) = Some role)
    by (rewrite Hr; apply Role_lookup_app_fresh; [exact Hc | exact Hfresh | reflexivity]).
  split; [exact Hr|]. split; [exact Hs|]. split; [|split].
  - intros Ha. unfold roles_post. apply route_ok. rewrite Hres.
    pose proof (sendAudit_works Post
                  ("Role " +:+ newId +:+ ", " +:+ dto_role_name newRole +:+ " created.") w Ha) as Hw.
    destruct (sendAudit _ _ w) as [[[]|e] w2]; simpl in *; [reflexivity | discriminate].
  - unfold roles_get. apply route_ok.
    unfold roles_get_try, mbind, M_bind, bind.
    rewrite (Role_findById_found _ _ _ Hl). reflexivity.
  - rewrite (rolexpand_post_resolved fmt _ [newId] [role]).
    + simpl. rewrite app_nil_r. reflexivity.
    + repeat constructor. exact Hl.
Qed.

Lemma roles_post_then_expand_witness :
  roles (snd (roles_post exampleFormatter idR2 (mkIRoleDto "Reviewers" [idX; idX]) w0)) =
    [editors; mkRole idR2 "Reviewers" [idX; idX]]
  /\ fst (rolexpand_post exampleFormatter [idR2]
            (snd (roles_post exampleFormatter idR2 (mkIRoleDto "Reviewers" [idX; idX]) w0))) =
       mkResponse 201 (JsonIds [idX; idX]).
Proof.
  destruct (roles_post_then_expand exampleFormatter idR2
              (mkIRoleDto "Reviewers" [idX; idX]) w0) as (Hr & _ & _ & _ & Hx).
  - simpl. lia.
  - repeat constructor; exists srvA, opX; simpl; auto.
  - repeat constructor; discriminate.
  - reflexivity.
  - reflexivity.
  - split; [exact Hr | exact Hx].
Defined.

Lemma idsLoop_unregistered ids srvs id :
  In id ids -> ~ registered srvs id -> idsLoop ids srvs true = false.
Proof.
  intros Hin Hun. destruct (idsLoop ids srvs true) eqn:E; [|reflexivity].
  apply idsLoop_true in E. rewrite Forall_forall in E.
  exfalso. apply Hun, E. apply list_elem_of_In, Hin.
Qed.

(** X7. No role is written with a reference that the Reference Validator
    refuses: when some operation identifier of the request is not
    registered, that is, spells the ObjectId of no operation of a stored
    service, the update handler throws the 400 error and the creation
    handler throws, both before any write, so that the services and the
    roles are as they were; a creation request whose name is in bounds ends
    in the error 'Service Operation ID validation failed'. *)
Theorem roles_write_needs_registered_references :
  forall (newId roleId id : Identifier) (newRole : IRoleDto) (w : World),
    In id (dto_role_serviceOpIds newRole) ->
    ~ registered (services w) id ->
    roles_put_try roleId newRole w =
      (Throw (RouteHandlingError 400 "Service Operation ID validation failed"),
       log ServiceFind w)
    /\ (exists e, fst (roles_post_try newId newRole w) = Throw e)
    /\ sameCollections w (snd (roles_post_try newId newRole w))
    /\ ((4 <= String.length (dto_role_name newRole) <= 40)%nat ->
        roles_post_try newId newRole w =
          (Throw (JsError "Service Operation ID validation failed"), log ServiceFind w)).
Proof.
  intros newId roleId id newRole w Hin Hun.
  pose proof (idsLoop_unregistered _ _ _ Hin Hun) as Hf.
  split; [rewrite roles_put_try_run, Hf; reflexivity|].
  destruct (validateRole newRole) as [message|] eqn:E.
  - assert (R : roles_post_try newId newRole w = (Throw (JsError message), w))
      by (unfold roles_post_try; rewrite E; reflexivity).
    rewrite R. split; [eauto|]. split; [split; reflexivity|].
    intros Hlen. rewrite (validateRole_in_bounds newRole Hlen) in E. discriminate.
  - rewrite (roles_post_try_run newId newRole w E), Hf.
    split; [eauto|]. split; [split; reflexivity|]. reflexivity.
Qed.

Lemma roles_write_needs_registered_references_witness :
  roles_put_try idR1 (mkIRoleDto "Editors" [idX; idY]) w0 =
    (Throw (RouteHandlingError 400 "Service Operation ID validation failed"),
     log ServiceFind w0)
  /\ roles_post_try idR2 (mkIRoleDto "Reviewers" ["64A1F0C2E4B0A1B2C3D4E5A0"; idY]) w0 =
    (Throw (JsError "Service Operation ID validation failed"), log ServiceFind w0).
Proof.
  assert (Hun : ~ registered (services w0) idY).
  { intros (s & op & Hs & Hop & Hid). simpl in Hs.
    destruct Hs as [<-|[]]. simpl in Hop. destruct Hop as [<-|[]]. discriminate. }
  split.
  - apply (roles_write_needs_registered_references idR2 idR1 idY
             (mkIRoleDto "Editors" [idX; idY]) w0); [simpl; auto | exact Hun].
  - apply (roles_write_needs_registered_references idR2 idR1 idY
             (mkIRoleDto "Reviewers" ["64A1F0C2E4B0A1B2C3D4E5A0"; idY]) w0);
      [simpl; auto | exact Hun |].
    simpl. lia.
Defined.

(** X8. A failed audit post does not undo the write that came before it.
    With auditing on and the audit service unreachable, a valid creation
    request stores the role; a delete request for a stored role takes that
    role out of the collection, where it stood, and the same holds for the
    delete request of a stored service; each of them still ends in the 424
    error.  When no two documents share an ObjectId, the identifier of the
    deleted document then resolves to nothing. *)
Theorem audit_failure_keeps_the_write :
  forall (newId roleId serviceId : Identifier) (newRole : IRoleDto) (w : World),
    auditEnabled w = true ->
    auditReachable w = false ->
    ((4 <= String.length (dto_role_name newRole) <= 40)%nat ->
     Forall (registered (services w)) (dto_role_serviceOpIds newRole) ->
     Forall (fun id => id <> "") (dto_role_serviceOpIds newRole) ->
     isObjectId newId = true ->
     Role.lookup newId (roles w) = None ->
     fst (roles_post_try newId newRole w) = Throw (RouteHandlingError 424 auditRefused)
     /\ roles (snd (roles_post_try newId newRole w)) =
          roles w ++ [mkRole newId (dto_role_name newRole) (dto_role_serviceOpIds newRole)])
    /\ (forall r,
          Role.lookup roleId (roles w) = Some r ->
          fst (roles_delete_try roleId w) = Throw (RouteHandlingError 424 auditRefused)
          /\ (exists pre post,
                roles w = pre ++ r :: post
                /\ roles (snd (roles_delete_try roleId w)) = pre ++ post)
          /\ (uniqueIds w ->
              Role.lookup roleId (roles (snd (roles_delete_try roleId w))) = None))
    /\ (forall s,
          ServiceModel.lookup serviceId (services w) = Some s ->
          fst (services_delete_try serviceId w) = Throw (RouteHandlingError 424 auditRefused)
          /\ (exists pre post,
                services w = pre ++ s :: post
                /\ services (snd (services_delete_try serviceId w)) = pre ++ post)
          /\ (uniqueIds w ->
              ServiceModel.lookup serviceId
                (services (snd (services_delete_try serviceId w))) = None)).
Proof.
  intros newId roleId serviceId newRole w He Hr. split; [|split].
  - intros Hlen Hreg Hne Hc Hfresh.
    rewrite (Role_lookup_byId _ _ Hc) in Hfresh.
    destruct (roles_post_created exampleFormatter newId newRole w Hlen Hreg Hne Hfresh)
      as (Hroles & _ & Hres).
    unfold roles_post in Hroles. rewrite route_world in Hroles.
    split; [|exact Hroles]. rewrite Hres, sendAudit_run, He, Hr. reflexivity.
  - intros r Hl.
    assert (Hrun : roles_delete_try roleId w =
                   (Throw (RouteHandlingError 424 auditRefused),
                    log (RoleDeleteOne roleId) (setRoles (Role.remove roleId (roles w)) w))).
    { rewrite roles_delete_try_run, (Role_lookup_cast _ _ _ Hl), sendAudit_run.
      simpl. rewrite He, Hr. reflexivity. }
    rewrite Hrun. simpl. split; [reflexivity|]. split.
    + apply Role_remove_found, Hl.
    + intros [_ Hnd]. apply (Role_remove_gone _ _ _ Hl Hnd).
  - intros s Hl.
    assert (Hrun : services_delete_try serviceId w =
                   (Throw (RouteHandlingError 424 auditRefused),
                    log (ServiceDeleteOne serviceId)
                      (setServices (ServiceModel.remove serviceId (services w)) w))).
    { unfold services_delete_try, mbind, M_bind, bind, ServiceModel.deleteOne.
      rewrite (Service_lookup_cast _ _ _ Hl), sendAudit_run.
      simpl. rewrite He, Hr. reflexivity. }
    rewrite Hrun. simpl. split; [reflexivity|]. split.
    + apply Service_remove_found, Hl.
    + intros [Hnd _]. apply (Service_remove_gone _ _ _ Hl Hnd).
Qed.

Lemma audit_failure_keeps_the_write_witness :
  auditEnabled w1 = true
  /\ auditReachable w1 = false
  /\ fst (roles_post_try idR2 (mkIRoleDto "Reviewers" [idX]) w1)
     = Throw (RouteHandlingError 424 auditRefused)
  /\ roles (snd (roles_post_try idR2 (mkIRoleDto "Reviewers" [idX]) w1))
     = [editors; mkRole idR2 "Reviewers" [idX]]
  /\ Role.lookup idR1 (roles w1) = Some editors
  /\ fst (roles_delete_try idR1 w1) = Throw (RouteHandlingError 424 auditRefused)
  /\ Role.lookup idR1 (roles (snd (roles_delete_try idR1 w1))) = None
  /\ ServiceModel.lookup idA (services w1) = Some srvA
  /\ fst (services_delete_try idA w1) = Throw (RouteHandlingError 424 auditRefused)
  /\ ServiceModel.lookup idA (services (snd (services_delete_try idA w1))) = None.
Proof.
  assert (Hu : uniqueIds w1).
  { split; simpl; (constructor; [intros H; inversion H | constructor]). }
  destruct (audit_failure_keeps_the_write idR2 idR1 idA (mkIRoleDto "Reviewers" [idX]) w1
              eq_refl eq_refl) as (Hpost & Hrole & Hsrv).
  destruct Hpost as [Hp1 Hp2].
  - simpl. lia.
  - repeat constructor; exists srvA, opX; simpl; auto.
  - repeat constructor; discriminate.
  - reflexivity.
  - reflexivity.
  - destruct (Hrole editors eq_refl) as (Hr1 & _ & Hr2).
    destruct (Hsrv srvA eq_refl) as (Hs1 & _ & Hs2).
    split; [reflexivity|]. split; [reflexivity|].
    split; [exact Hp1|]. split; [exact Hp2|].
    split; [reflexivity|]. split; [exact Hr1|]. split; [exact (Hr2 Hu)|].
    split; [reflexivity|]. split; [exact Hs1 | exact (Hs2 Hu)].
Defined.

(** ** The API key *)

(** X9. A request that carries headers passes the middleware exactly when
    its x-api-key header is there, is not empty and equals the configured
    key; any other request gets the 401 reply and the handler is not run, so
    the world, trace included, is unchanged.  When no key is configured, or
    the empty one, no request passes. *)
Theorem isValidApiKey_passes_iff :
  forall (key : option string) (h : string -> option string)
         (handler : World -> Response * World) (w : World),
    (isValidApiKey key (Some h) = None
     <-> exists t, h "x-api-key" = Some t /\ t <> "" /\ key = Some t)
    /\ (isValidApiKey key (Some h) = None -> behindApiKey key (Some h) handler w = handler w)
    /\ (isValidApiKey key (Some h) <> None ->
        behindApiKey key (Some h) handler w = (accessDenied, w))
    /\ (key = None \/ key = Some "" -> isValidApiKey key (Some h) = Some accessDenied).
Proof.
  intros key h handler w.
  assert (Hiff : isValidApiKey key (Some h) = None
                 <-> exists t, h "x-api-key" = Some t /\ t <> "" /\ key = Some t).
  { unfold isValidApiKey, falsy, strictNotEqual.
    destruct (h "x-api-key") as [t|]; simpl.
    - destruct (String.eqb_spec t ""); simpl.
      + split; [discriminate | intros (t' & [= <-] & Hne & _); contradiction].
      + destruct key as [k|]; simpl.
        * destruct (String.eqb_spec t k); simpl.
          -- split; [intros _; exists t; subst; auto | reflexivity].
          -- split; [discriminate | intros (t' & [= <-] & _ & [= <-]); contradiction].
        * split; [discriminate | intros (t' & _ & _ & ?); discriminate].
    - split; [discriminate | intros (t' & ? & _); discriminate]. }
  assert (Hcases : isValidApiKey key (Some h) = None
                   \/ isValidApiKey key (Some h) = Some accessDenied).
  { unfold isValidApiKey. destruct (falsy _ || strictNotEqual _ _); auto. }
  split; [exact Hiff|]. split; [|split].
  - intros H. unfold behindApiKey. rewrite H. reflexivity.
  - intros H. unfold behindApiKey. destruct Hcases as [Hc|Hc]; [contradiction|].
    rewrite Hc. reflexivity.
  - intros Hk. destruct Hcases as [Hc|Hc]; [|exact Hc].
    apply Hiff in Hc as (t & _ & Hne & Ht). destruct Hk as [->| ->]; [discriminate|].
    injection Ht as <-. contradiction.
Qed.

(** ** Paged listing, page by page *)

Lemma take_add_drop {A} (a b : nat) (l : list A) :
  take (a + b) l = take a l ++ take b (drop a l).
Proof.
  revert l. induction a as [|a IH]; intros l; simpl; [reflexivity|].
  destruct l as [|x l]; simpl; [destruct b; reflexivity|].
  rewrite IH. reflexivity.
Qed.

Lemma skipLimit_page {A} (docs : list A) pageNumber pageSize :
  1 <= pageNumber -> 1 <= pageSize ->
  skipLimit docs ((pageNumber - 1) * pageSize) pageSize = Ok (pageOf docs pageNumber pageSize).
Proof.
  intros Hn Hs. unfold skipLimit, pageOf.
  destruct (Z.ltb_spec ((pageNumber - 1) * pageSize) 0); [nia|].
  destruct (Z.eqb_spec pageSize 0); [lia|].
  replace (Z.abs_nat pageSize) with (Z.to_nat pageSize) by lia. reflexivity.
Qed.

Lemma getRoles_page req w :
  1 <= default 1 (query_pageNumber req) ->
  1 <= default 10 (query_pageSize req) <= 100 ->
  getRoles req w =
    (Ok (buildResponse (protocol req +:+ "://" +:+ host req +:+ originalUrl req)
           (default 1 (query_pageNumber req)) (default 10 (query_pageSize req))
           (pageOf (roles w) (default 1 (query_pageNumber req))
              (default 10 (query_pageSize req)))),
     log (RoleFindPage ((default 1 (query_pageNumber req) - 1) * default 10 (query_pageSize req))
            (default 10 (query_pageSize req))) w).
Proof.
  intros Hn Hs. unfold getRoles.
  change (match query_pageSize req with Some n => n | None => 10 end)
    with (default 10 (query_pageSize req)).
  change (match query_pageNumber req with Some n => n | None => 1 end)
    with (default 1 (query_pageNumber req)).
  destruct (Z.gtb_spec (default 10 (query_pageSize req)) maxPageSize);
    [unfold maxPageSize in *; lia|].
  unfold mbind, M_bind, bind, Role.findPage.
  rewrite skipLimit_page by lia. reflexivity.
Qed.

Lemma getServices_page req w :
  1 <= default 1 (query_pageNumber req) ->
  1 <= default 10 (query_pageSize req) <= 100 ->
  getServices req w =
    (Ok (buildResponse (protocol req +:+ "://" +:+ host req +:+ originalUrl req)
           (default 1 (query_pageNumber req)) (default 10 (query_pageSize req))
           (pageOf (services w) (default 1 (query_pageNumber req))
              (default 10 (query_pageSize req)))),
     log (ServiceFindPage
            ((default 1 (query_pageNumber req) - 1) * default 10 (query_pageSize req))
            (default 10 (query_pageSize req))) w).
Proof.
  intros Hn Hs. unfold getServices.
  change (match query_pageSize req with Some n => n | None => 10 end)
    with (default 10 (query_pageSize req)).
  change (match query_pageNumber req with Some n => n | None => 1 end)
    with (default 1 (query_pageNumber req)).
  destruct (Z.gtb_spec (default 10 (query_pageSize req)) maxPageSize);
    [unfold maxPageSize in *; lia|].
  unfold mbind, M_bind, bind, ServiceModel.findPage.
  rewrite skipLimit_page by lia. reflexivity.
Qed.

Lemma pageOf_nth {A} (docs : list A) (i : nat) pageSize :
  1 <= pageSize ->
  pageOf docs (Z.of_nat (S i)) pageSize =
    take (Z.to_nat pageSize) (drop (i * Z.to_nat pageSize) docs).
Proof.
  intros Hs. unfold pageOf. f_equal. f_equal. nia.
Qed.

Lemma pages_tile {A} (docs : list A) (n k : nat) :
  concat (map (fun i => take n (drop (i * n) docs)) (seq 0 k)) = take (k * n) docs.
Proof.
  induction k as [|k IH]; [reflexivity|].
  rewrite seq_S, map_app, concat_app, IH. simpl.
  rewrite app_nil_r, (Nat.add_comm n (k * n)). symmetry. apply take_add_drop.
Qed.

(** X10. Following the pages of a listing from the first one gives the
    documents of the collection in their order, none skipped and none twice:
    for a page size from 1 to 100, every one of the first [k] page requests
    succeeds and their results, put end to end, are the first
    [k * pageSize] documents.  This holds for roles and for services. *)
Theorem listing_pages_tile :
  forall (w : World) (pageSize : Z) (k : nat) (url : string),
    1 <= pageSize <= 100 ->
    (forall i, exists r,
        fst (getRoles (listing (Some pageSize) (Some (Z.of_nat (S i))) url) w) = Ok r)
    /\ concat (map (fun i => listedRoles (listing (Some pageSize) (Some (Z.of_nat (S i))) url) w)
                 (seq 0 k))
       = take (k * Z.to_nat pageSize) (roles w)
    /\ (forall i, exists r,
        fst (getServices (listing (Some pageSize) (Some (Z.of_nat (S i))) url) w) = Ok r)
    /\ concat (map (fun i => listedServices (listing (Some pageSize) (Some (Z.of_nat (S i))) url) w)
                 (seq 0 k))
       = take (k * Z.to_nat pageSize) (services w).
Proof.
  intros w pageSize k url Hs.
  assert (HR : forall i,
             getRoles (listing (Some pageSize) (Some (Z.of_nat (S i))) url) w =
               (Ok (buildResponse ("http" +:+ "://" +:+ "localhost:3000" +:+ url)
                      (Z.of_nat (S i)) pageSize
                      (take (Z.to_nat pageSize) (drop (i * Z.to_nat pageSize) (roles w)))),
                log (RoleFindPage ((Z.of_nat (S i) - 1) * pageSize) pageSize) w)).
  { intros i. rewrite getRoles_page by (simpl; lia). simpl default.
    rewrite pageOf_nth by lia. reflexivity. }
  assert (HS : forall i,
             getServices (listing (Some pageSize) (Some (Z.of_nat (S i))) url) w =
               (Ok (buildResponse ("http" +:+ "://" +:+ "localhost:3000" +:+ url)
                      (Z.of_nat (S i)) pageSize
                      (take (Z.to_nat pageSize) (drop (i * Z.to_nat pageSize) (services w)))),
                log (ServiceFindPage ((Z.of_nat (S i) - 1) * pageSize) pageSize) w)).
  { intros i. rewrite getServices_page by (simpl; lia). simpl default.
    rewrite pageOf_nth by lia. reflexivity. }
  split; [intros i; rewrite HR; eexists; reflexivity|]. split; [|split].
  - rewrite <- pages_tile. f_equal. apply map_ext. intros i.
    unfold listedRoles. rewrite HR. reflexivity.
  - intros i. rewrite HS. eexists. reflexivity.
  - rewrite <- pages_tile. f_equal. apply map_ext. intros i.
    unfold listedServices. rewrite HS. reflexivity.
Qed.

Lemma listing_pages_tile_witness :
  concat (map (fun i => listedRoles (listing (Some 2) (Some (Z.of_nat (S i))) "/api/v1/roles")
                          (mkWorld [] [mkRole idR1 "Editors" []; mkRole idR2 "Readers" [];
                                       mkRole idR3 "Writers" []] false false []))
            (seq 0 2))
  = [mkRole idR1 "Editors" []; mkRole idR2 "Readers" []; mkRole idR3 "Writers" []].
Proof.
  destruct (listing_pages_tile
              (mkWorld [] [mkRole idR1 "Editors" []; mkRole idR2 "Readers" [];
                           mkRole idR3 "Writers" []] false false [])
              2 2 "/api/v1/roles") as (_ & H & _); [lia|].
  rewrite H. reflexivity.
Defined.

Lemma pageOf_last_full {A} (docs : list A) (k : nat) pageSize :
  1 <= pageSize -> (1 <= k)%nat ->
  length docs = (k * Z.to_nat pageSize)%nat ->
  length (pageOf docs (Z.of_nat k) pageSize) = Z.to_nat pageSize
  /\ pageOf docs (Z.of_nat k + 1) pageSize = [].
Proof.
  intros Hs Hk Hlen. destruct k as [|k]; [lia|]. split.
  - rewrite pageOf_nth by lia. rewrite length_take, length_drop. nia.
  - replace (Z.of_nat (S k) + 1) with (Z.of_nat (S (S k))) by lia.
    rewrite pageOf_nth by lia. rewrite drop_ge by lia. apply take_nil.
Qed.

(** X11. The next link is a guess.  When a collection holds a whole number
    of pages, fewer than 2^53 of them, the last page is full and so carries
    a next link, and the page that link asks for comes back empty, with a
    previous link and no next link. *)
Theorem listing_full_last_page_has_next :
  forall (w : World) (pageSize : Z) (k : nat) (url : string),
    1 <= pageSize <= 100 ->
    (1 <= k)%nat ->
    Z.of_nat k < 2 ^ 53 ->
    length (roles w) = (k * Z.to_nat pageSize)%nat ->
    exists lastPage afterLast,
      fst (getRoles (listing (Some pageSize) (Some (Z.of_nat k)) url) w) = Ok lastPage
      /\ links_next lastPage =
           Some (links_base lastPage +:+ pageQuery pageSize (Z.of_nat k + 1))
      /\ fst (getRoles (listing (Some pageSize) (Some (Z.of_nat k + 1)) url) w) = Ok afterLast
      /\ results afterLast = []
      /\ links_next afterLast = None
      /\ links_prev afterLast =
           Some (links_base afterLast +:+ pageQuery pageSize (Z.of_nat k)).
Proof.
  intros w pageSize k url Hs Hk Hsafe Hlen.
  destruct (pageOf_last_full (roles w) k pageSize) as [Hfull Hempty]; [lia | lia | exact Hlen |].
  eexists. eexists.
  rewrite !getRoles_page by (simpl; lia). simpl default. simpl fst.
  split; [reflexivity|]. split; [|split; [reflexivity|split; [exact Hempty|split]]].
  - rewrite buildResponse_next, Hfull. unfold jsAdd. rewrite toDouble_safe by lia.
    destruct (Z.eqb_spec (Z.of_nat (Z.to_nat pageSize)) pageSize); [reflexivity | lia].
  - rewrite buildResponse_next, Hempty. simpl length.
    destruct (Z.eqb_spec (Z.of_nat 0) pageSize); [lia | reflexivity].
  - rewrite buildResponse_prev. unfold jsSub. rewrite toDouble_safe by lia.
    destruct (Z.gtb_spec (Z.of_nat k + 1) 1); [|lia].
    replace (Z.of_nat k + 1 - 1) with (Z.of_nat k) by lia. reflexivity.
Qed.

Lemma listing_full_last_page_has_next_witness :
  exists lastPage afterLast,
    fst (getRoles (listing (Some 1) (Some 1) "/api/v1/roles") w0) = Ok lastPage
    /\ links_next lastPage = Some "http://localhost:3000/api/v1/roles?pageSize=1&pageNumber=2"
    /\ fst (getRoles (listing (Some 1) (Some 2) "/api/v1/roles") w0) = Ok afterLast
    /\ results afterLast = []
    /\ links_next afterLast = None.
Proof.
  destruct (listing_full_last_page_has_next w0 1 1 "/api/v1/roles")
    as (lastPage & afterLast & H1 & H2 & H3 & H4 & H5 & _);
    [lia | lia | change (2 ^ 53) with 9007199254740992; lia | reflexivity |].
  exists lastPage, afterLast. split; [exact H1|]. split; [|auto].
  rewrite H2. simpl in H1. injection H1 as <-. reflexivity.
Defined.

(** X12. The cap on the page size does not cap a page size of 0: the
    check lets 0 through, the store reads a limit of 0 as no limit, and the
    listing answers with every document of the collection, however many
    there are. *)
Theorem listing_page_size_zero_is_unbounded :
  forall (req : Request) (w : World),
    query_pageSize req = Some 0 ->
    (exists r, fst (getRoles req w) = Ok r /\ results r = roles w)
    /\ (exists r, fst (getServices req w) = Ok r /\ results r = services w).
Proof.
  intros req w Hq. unfold getRoles, getServices. rewrite Hq.
  change (0 >? maxPageSize) with false. cbv iota.
  unfold mbind, M_bind, bind, Role.findPage, ServiceModel.findPage, skipLimit.
  rewrite Z.mul_0_r. simpl.
  split; eexists; (split; [reflexivity|]); reflexivity.
Qed.

Lemma listing_page_size_zero_is_unbounded_witness :
  length (listedRoles (listing (Some 0) None "/api/v1/roles?pageSize=0")
            (mkWorld [] (repeat editors 150) false false [])) = 150%nat.
Proof.
  destruct (listing_page_size_zero_is_unbounded
              (listing (Some 0) None "/api/v1/roles?pageSize=0")
              (mkWorld [] (repeat editors 150) false false []) eq_refl)
    as [(r & Hr & Hres) _].
  unfold listedRoles. rewrite Hr, Hres. reflexivity.
Defined.

(** ** How the handlers compose *)

Lemma ServiceModel_remove_missing id ss :
  ServiceModel.lookup id ss = None -> ServiceModel.remove id ss = ss.
Proof.
  unfold ServiceModel.lookup, ServiceModel.remove, ServiceModel.byId.
  destruct (isObjectId id); [|reflexivity].
  induction ss as [|s ss IH]; simpl; [reflexivity|].
  destruct (sameObjectId (srvc_id s) id); [discriminate|].
  intros H. rewrite (IH H). reflexivity.
Qed.

Lemma ServiceModel_remove_unique sid ss s :
  isObjectId sid = true ->
  NoDup (map toLowerCase (map srvc_id ss)) -> In s (ServiceModel.remove sid ss) ->
  In s ss /\ sameObjectId (srvc_id s) sid = false.
Proof.
  intros Hc Hnd. unfold ServiceModel.remove. rewrite Hc.
  destruct (ServiceModel.byId sid ss) as [s0|] eqn:E.
  - pose proof (find_some _ _ E) as [_ Hid].
    destruct (Service_removeFirst_split _ _ _ E) as (pre & post & -> & -> & _).
    pose proof (unique_rest_None srvc_id sid pre post s0 Hnd Hid) as Hnone.
    intros Hin. split.
    + apply in_app_or in Hin as [Hin|Hin]; apply in_or_app; simpl; auto.
    + apply (find_none _ _ Hnone s Hin).
  - pose proof (ServiceModel_remove_missing sid ss) as Hrm.
    unfold ServiceModel.lookup, ServiceModel.remove in Hrm. rewrite Hc in Hrm.
    rewrite (Hrm E). intros Hin. split; [exact Hin|].
    apply (find_none _ _ E s Hin).
Qed.

Lemma ServiceModel_lookup_remove sid ss :
  NoDup (map toLowerCase (map srvc_id ss)) ->
  ServiceModel.lookup sid (ServiceModel.remove sid ss) = None.
Proof.
  intros Hnd. destruct (ServiceModel.lookup sid ss) as [s|] eqn:E.
  - apply (Service_remove_gone _ _ _ E Hnd).
  - rewrite (ServiceModel_remove_missing _ _ E). exact E.
Qed.

Lemma Role_lookup_remove rid rs :
  NoDup (map toLowerCase (map role_id rs)) -> Role.lookup rid (Role.remove rid rs) = None.
Proof.
  intros Hnd. destruct (Role.lookup rid rs) as [r|] eqn:E.
  - apply (Role_remove_gone _ _ _ E Hnd).
  - rewrite (Role_remove_missing _ _ E). exact E.
Qed.

Lemma services_delete_world fmt serviceId w :
  services (snd (services_delete fmt serviceId w)) = ServiceModel.remove serviceId (services w)
  /\ roles (snd (services_delete fmt serviceId w)) = roles w.
Proof.
  unfold services_delete. rewrite route_world.
  destruct (services_delete_try_world serviceId w) as [Hs Hr]. simpl in Hs, Hr. auto.
Qed.

Lemma roles_delete_world fmt roleId w :
  roles (snd (roles_delete fmt roleId w)) = Role.remove roleId (roles w)
  /\ services (snd (roles_delete fmt roleId w)) = services w.
Proof.
  unfold roles_delete. rewrite route_world, roles_delete_try_run.
  destruct (isObjectId roleId) eqn:Hc.
  - match goal with |- context [sendAudit ?m ?d ?w1] =>
      pose proof (sendAudit_same m d w1) as [Hs Hr];
      destruct (sendAudit m d w1) as [[[]|e] w2] end; simpl in *; auto.
  - unfold Role.remove. rewrite Hc. auto.
Qed.

(** X13. Deleting a service strands the roles that refer to it.  When no
    two services share an ObjectId and an operation identifier is offered by
    the deleted service only, then after the delete every update request
    that lists this identifier, in any spelling, is refused with the 400
    error, whatever role it names, and the roles stay as they were before
    the delete: a role that kept the stale reference cannot be saved again
    with it. *)
Theorem services_delete_strands_references :
  forall fmt (serviceId roleId x : Identifier) (newRole : IRoleDto) (w : World),
    isObjectId serviceId = true ->
    NoDup (map toLowerCase (map srvc_id (services w))) ->
    (forall s op, In s (services w) -> In op (srvc_operations s) ->
                  sameObjectId (op_id op) x = true ->
                  sameObjectId (srvc_id s) serviceId = true) ->
    In x (dto_role_serviceOpIds newRole) ->
    ~ registered (services (snd (services_delete fmt serviceId w))) x
    /\ fst (roles_put_try roleId newRole (snd (services_delete fmt serviceId w))) =
      Throw (RouteHandlingError 400 "Service Operation ID validation failed")
    /\ roles (snd (roles_put fmt roleId newRole (snd (services_delete fmt serviceId w))))
       = roles w.
Proof.
  intros fmt serviceId roleId x newRole w Hc Hnd Honly Hin.
  destruct (services_delete_world fmt serviceId w) as [Hs Hr].
  assert (Hun : ~ registered (services (snd (services_delete fmt serviceId w))) x).
  { rewrite Hs. intros (s & op & Hs1 & Hop & Hid).
    destruct (ServiceModel_remove_unique _ _ _ Hc Hnd Hs1) as [Hs2 Hne].
    rewrite (Honly s op Hs2 Hop Hid) in Hne. discriminate. }
  pose proof (idsLoop_unregistered _ _ _ Hin Hun) as Hf.
  split; [exact Hun|].
  unfold roles_put. rewrite route_world, roles_put_try_run, Hf. simpl.
  split; [reflexivity | exact Hr].
Qed.

Lemma services_delete_strands_references_witness :
  fst (roles_put_try idR1 (mkIRoleDto "Editors" [idX]) w0)
    = Ok (mkResponse 200 (JsonRole (Some editors)))
  /\ fst (roles_put_try idR1 (mkIRoleDto "Editors" [idX])
            (snd (services_delete exampleFormatter idA w0)))
     = Throw (RouteHandlingError 400 "Service Operation ID validation failed")
  /\ roles (snd (roles_put exampleFormatter idR1 (mkIRoleDto "Editors" [idX])
                   (snd (services_delete exampleFormatter idA w0)))) = [editors].
Proof.
  split; [reflexivity|].
  apply (services_delete_strands_references exampleFormatter idA idR1 idX
           (mkIRoleDto "Editors" [idX]) w0).
  - reflexivity.
  - simpl. repeat constructor. intros H. inversion H.
  - intros s op [<-|[]] _ _. reflexivity.
  - simpl. auto.
Defined.

Lemma renameLoop_own ops op :
  NoDup (map toLowerCase (map op_id ops)) -> In op ops ->
  renameLoop ops (dtoOfOperation op) = ops.
Proof.
  induction ops as [|op0 ops IH]; simpl; intros Hnd Hin; [reflexivity|].
  apply NoDup_cons in Hnd as [Hnotin Hnd].
  destruct (sameObjectId (op_id op0) (op_id op)) eqn:E.
  - destruct Hin as [->|Hin].
    + destruct op. reflexivity.
    + exfalso. apply Hnotin. apply sameObjectId_spec in E. rewrite E.
      apply list_elem_of_In, in_map, in_map, Hin.
  - destruct Hin as [->|Hin]; [rewrite sameObjectId_refl in E; discriminate|].
    rewrite (IH Hnd Hin). reflexivity.
Qed.

Lemma updateOperations_own ops : forall l,
  NoDup (map toLowerCase (map op_id ops)) -> (forall op, In op l -> In op ops) ->
  updateOperations ops (map dtoOfOperation l) = ops.
Proof.
  unfold updateOperations. induction l as [|op l IH]; simpl; intros Hnd Hsub; [reflexivity|].
  rewrite renameLoop_own by auto. apply IH; auto.
Qed.

Lemma ServiceModel_replace_same ss s :
  ServiceModel.byId (srvc_id s) ss = Some s -> ServiceModel.replace s ss = ss.
Proof.
  unfold ServiceModel.byId. induction ss as [|s0 ss IH]; simpl; [reflexivity|].
  destruct (sameObjectId (srvc_id s0) (srvc_id s)); [intros [= ->]; reflexivity|].
  intros H. rewrite (IH H). reflexivity.
Qed.

(** X14. Sending back what was read changes nothing: an update of a stored
    service with its own name and its own operations, identifiers and names
    as stored, leaves the services and the roles as they were, and answers
    201 with the same document whenever the audit post does not fail.  The
    operations of the service carry distinct identifiers: no two of them
    spell one ObjectId. *)
Theorem services_put_of_stored_is_identity :
  forall fmt (serviceId : Identifier) (w : World) (srvc : Service),
    ServiceModel.lookup serviceId (services w) = Some srvc ->
    ServiceModel.validateSync srvc = true ->
    NoDup (map toLowerCase (map op_id (srvc_operations srvc))) ->
    sameCollections w (snd (services_put fmt serviceId (dtoOfService srvc) w))
    /\ (auditWorks w ->
        fst (services_put fmt serviceId (dtoOfService srvc) w) =
          mkResponse 201 (JsonService srvc)).
Proof.
  intros fmt serviceId w srvc Hl Hv Hnd.
  pose proof (ServiceModel_lookup_id _ _ _ Hl) as Hid.
  assert (Hrun := services_put_try_run serviceId (dtoOfService srvc) w srvc Hl).
  cbv zeta in Hrun. simpl dto_srvc_name in Hrun. simpl dto_srvc_operations in Hrun.
  rewrite (updateOperations_own (srvc_operations srvc) (srvc_operations srvc) Hnd) in Hrun
    by auto.
  replace (mkService (srvc_id srvc) (srvc_name srvc) (srvc_operations srvc)) with srvc in Hrun
    by (destruct srvc; reflexivity).
  rewrite Hv, ServiceModel_replace_same in Hrun
    by exact (ServiceModel_lookup_own _ _ _ Hl).
  unfold services_put. rewrite route_world.
  match type of Hrun with context [sendAudit ?m ?d ?w1] =>
    pose proof (sendAudit_same m d w1) as Hs;
    pose proof (sendAudit_works m d w1) as Hw;
    destruct (sendAudit m d w1) as [[[]|e] w2] end;
    rewrite Hrun; simpl in *; (split; [exact Hs|]).
  - intros _. apply route_ok. rewrite Hrun. reflexivity.
  - intros Ha. specialize (Hw Ha). discriminate.
Qed.

Lemma services_put_of_stored_is_identity_witness :
  sameCollections w0 (snd (services_put exampleFormatter idA (dtoOfService srvA) w0))
  /\ fst (services_put exampleFormatter idA (dtoOfService srvA) w0) =
       mkResponse 201 (JsonService srvA).
Proof.
  destruct (services_put_of_stored_is_identity exampleFormatter idA w0 srvA eq_refl eq_refl)
    as [Hs Hr].
  - simpl. repeat constructor. intros H. inversion H.
  - split; [exact Hs|]. apply Hr. left. reflexivity.
Defined.

(** X15. What was deleted is gone.  For a well-formed ObjectId and a
    collection without two documents of one ObjectId: after a service delete
    the read of that service throws the 404 error, and after a role delete
    the read of that role throws the 400 error and an expansion that names
    the role ends in the [TypeError] of a property read on [null].  For an
    identifier that is no ObjectId the delete and the read both end in the
    error of the failed cast, and the delete changes nothing. *)
Theorem delete_then_read :
  forall fmt (id : Identifier) (w : World),
    (isObjectId id = true ->
     NoDup (map toLowerCase (map srvc_id (services w))) ->
     fst (services_get_try id (snd (services_delete fmt id w))) =
       Throw (RouteHandlingError 404 ("Service with id " +:+ id +:+ " not found")))
    /\ (isObjectId id = true ->
        NoDup (map toLowerCase (map role_id (roles w))) ->
        fst (roles_get_try id (snd (roles_delete fmt id w))) =
          Throw (RouteHandlingError 400 ("Role with ID " +:+ id +:+ " could not be found."))
        /\ forall pre rs post,
             resolve (snd (roles_delete fmt id w)) pre rs ->
             fst (rolexpand_post_try (pre ++ id :: post) (snd (roles_delete fmt id w))) =
               Throw (nullRead "serviceOpIds"))
    /\ (isObjectId id = false ->
        services_delete_try id w = (Throw (castFailed id "services"), w)
        /\ roles_delete_try id w = (Throw (castFailed id "roles"), w)
        /\ fst (services_get_try id (snd (services_delete fmt id w))) =
             Throw (castFailed id "services")
        /\ fst (roles_get_try id (snd (roles_delete fmt id w))) =
             Throw (castFailed id "roles")).
Proof.
  intros fmt id w. split; [|split].
  - intros Hc Hnd. destruct (services_delete_world fmt id w) as [Hs _].
    unfold services_get_try, mbind, M_bind, bind.
    rewrite (Service_findById_run _ _ Hc), Hs, ServiceModel_lookup_remove by exact Hnd.
    reflexivity.
  - intros Hc Hnd. destruct (roles_delete_world fmt id w) as [Hr _].
    assert (Hl : Role.lookup id (roles (snd (roles_delete fmt id w))) = None)
      by (rewrite Hr; apply Role_lookup_remove, Hnd).
    split.
    + unfold roles_get_try, mbind, M_bind, bind.
      rewrite (Role_findById_run _ _ Hc), Hl. reflexivity.
    + intros pre rs post Hres.
      rewrite rolexpand_post_try_run,
        (rolexpand_loop_unresolved pre rs id post [] _ Hres Hc Hl).
      reflexivity.
  - intros Hc. split; [|split; [|split]].
    + unfold services_delete_try, mbind, M_bind, bind, ServiceModel.deleteOne.
      rewrite Hc. reflexivity.
    + rewrite roles_delete_try_run, Hc. reflexivity.
    + unfold services_get_try, mbind, M_bind, bind.
      rewrite (Service_findById_cast _ _ Hc). reflexivity.
    + unfold roles_get_try, mbind, M_bind, bind.
      rewrite (Role_findById_cast _ _ Hc). reflexivity.
Qed.

Lemma delete_then_read_witness :
  fst (services_get_try idA (snd (services_delete exampleFormatter idA w0))) =
    Throw (RouteHandlingError 404 "Service with id 64a1f0c2e4b0a1b2c3d4e5f0 not found")
  /\ fst (rolexpand_post_try [idR1] (snd (roles_delete exampleFormatter idR1 w0))) =
       Throw (TypeError "Cannot read properties of null (reading 'serviceOpIds')")
  /\ roles_delete_try "R1" w0 = (Throw (castFailed "R1" "roles"), w0)
  /\ fst (roles_get_try "R1" (snd (roles_delete exampleFormatter "R1" w0))) =
       Throw (castFailed "R1" "roles").
Proof.
  destruct (delete_then_read exampleFormatter idA w0) as [Hs _].
  destruct (delete_then_read exampleFormatter idR1 w0) as (_ & Hr & _).
  destruct (delete_then_read exampleFormatter "R1" w0) as (_ & _ & Hc).
  split; [|split].
  - apply Hs; [reflexivity|]. simpl. repeat constructor. intros H. inversion H.
  - destruct Hr as [_ Hx].
    + reflexivity.
    + simpl. repeat constructor. intros H. inversion H.
    + apply (Hx [] [] []). constructor.
  - destruct (Hc eq_refl) as (_ & Hd & _ & Hg). split; [exact Hd | exact Hg].
Defined.

(** ** More on updates *)

Lemma Role_update_ids id newRole rs :
  map role_id (Role.update id newRole rs) = map role_id rs.
Proof.
  unfold Role.update. destruct (isObjectId id); [|reflexivity].
  induction rs as [|r rs IH]; simpl; [reflexivity|].
  destruct (sameObjectId (role_id r) id); simpl; congruence.
Qed.

Lemma Role_update_others id newRole rs r0 :
  In r0 rs -> sameObjectId (role_id r0) id = false -> In r0 (Role.update id newRole rs).
Proof.
  unfold Role.update. destruct (isObjectId id); [|tauto].
  induction rs as [|r rs IH]; simpl; [tauto|].
  intros [->|Hin] Hne.
  - rewrite Hne. left; reflexivity.
  - destruct (sameObjectId (role_id r) id); right; auto.
Qed.

(** X16. An update never adds or removes a role.  Whatever the request,
    valid or not, for a stored role or for an unknown identifier, the roles
    collection after the update handler holds the same identifiers in the
    same order, every role with another identifier, one that is another
    ObjectId, is as it was, and the services are untouched: the update is no
    upsert. *)
Theorem roles_put_is_no_upsert :
  forall fmt (roleId : Identifier) (newRole : IRoleDto) (w : World),
    map role_id (roles (snd (roles_put fmt roleId newRole w))) = map role_id (roles w)
    /\ (forall r0, In r0 (roles w) -> sameObjectId (role_id r0) roleId = false ->
                   In r0 (roles (snd (roles_put fmt roleId newRole w))))
    /\ services (snd (roles_put fmt roleId newRole w)) = services w.
Proof.
  intros fmt roleId newRole w. unfold roles_put. rewrite route_world.
  destruct (roles_put_try_collections roleId newRole w) as [[Hs Hr]|(_ & _ & Hs & Hr)];
    rewrite Hs, Hr.
  - auto.
  - split; [apply Role_update_ids|]. split; [|reflexivity].
    intros r0 Hin Hne. apply Role_update_others; assumption.
Qed.

(** X17. The bounds on the name of a service are checked when the service
    is created and not when it is updated: for a non-empty name shorter
    than 4 or longer than 30 characters a creation request is refused with
    the 400 error, while an update request of a stored service stores that
    name. *)
Theorem services_put_ignores_name_bounds :
  forall fmt (serviceId newId : Identifier) (freshOp : nat -> Identifier)
         (name : string) (w : World) (srvc : Service),
    ServiceModel.lookup serviceId (services w) = Some srvc ->
    ServiceModel.validateSync srvc = true ->
    name <> "" ->
    (String.length name < 4 \/ 30 < String.length name)%nat ->
    (exists message,
        fst (services_post_try newId freshOp (mkIServiceDto name []) w) =
          Throw (RouteHandlingError 400 message))
    /\ ServiceModel.lookup serviceId
         (services (snd (services_put fmt serviceId (mkIServiceDto name []) w)))
       = Some (mkService (srvc_id srvc) name (srvc_operations srvc)).
Proof.
  intros fmt serviceId newId freshOp name w srvc Hl Hv Hname Hlen. split.
  - destruct (validateServiceSchema (mkIServiceDto name [])) as [message|] eqn:E.
    + exists message. unfold services_post_try, validateService, mbind, M_bind, bind.
      rewrite E. reflexivity.
    + apply validateServiceSchema_in_bounds in E. simpl in E. lia.
  - pose proof (ServiceModel_lookup_id _ _ _ Hl) as Hid.
    assert (Hrun := services_put_try_run serviceId (mkIServiceDto name []) w srvc Hl).
    cbv zeta in Hrun. simpl dto_srvc_name in Hrun. simpl dto_srvc_operations in Hrun.
    unfold updateOperations in Hrun. simpl fold_left in Hrun.
    set (srvc' := mkService (srvc_id srvc) name (srvc_operations srvc)) in *.
    assert (Hv' : ServiceModel.validateSync srvc' = true).
    { apply validateSync_split in Hv as [_ Ho]. apply validateSync_split. auto. }
    rewrite Hv' in Hrun. unfold services_put. rewrite route_world.
    match type of Hrun with context [sendAudit ?m ?d ?w1] =>
      pose proof (sendAudit_same m d w1) as [Hs _];
      destruct (sendAudit m d w1) as [[[]|e] w2] end;
      rewrite Hrun; simpl in *; rewrite Hs;
      apply (ServiceModel_replace_found _ _ srvc); auto.
Qed.

Lemma services_put_ignores_name_bounds_witness :
  (exists message,
      fst (services_post_try idB (fun _ => idY) (mkIServiceDto "S" []) w0) =
        Throw (RouteHandlingError 400 message))
  /\ ServiceModel.lookup idA
       (services (snd (services_put exampleFormatter idA (mkIServiceDto "S" []) w0)))
     = Some (mkService idA "S" [opX]).
Proof.
  apply (services_put_ignores_name_bounds exampleFormatter idA idB (fun _ => idY) "S" w0 srvA);
    [reflexivity | reflexivity | discriminate | left; simpl; lia].
Defined.

(** ** Reads *)

Lemma rolexpand_loop_same roleIds : forall acc w,
  sameCollections w (snd (rolexpand_loop roleIds acc w)).
Proof.
  induction roleIds as [|id roleIds IH]; intros acc w; simpl; [split; reflexivity|].
  unfold mbind, M_bind, bind, Role.findById.
  destruct (isObjectId id); [|split; reflexivity].
  destruct (Role.lookup id (roles w)) as [r|]; [|split; reflexivity].
  destruct (IH (acc ++ role_serviceOpIds r) (log (RoleFindById id) w)) as [Hs Hr].
  split; [rewrite Hs | rewrite Hr]; reflexivity.
Qed.

Lemma roles_get_try_same id w : sameCollections w (snd (roles_get_try id w)).
Proof.
  unfold roles_get_try, mbind, M_bind, bind, Role.findById.
  destruct (isObjectId id); [|split; reflexivity].
  destruct (Role.lookup id (roles w)); split; reflexivity.
Qed.

Lemma services_get_try_same id w : sameCollections w (snd (services_get_try id w)).
Proof.
  unfold services_get_try, mbind, M_bind, bind, ServiceModel.findById.
  destruct (isObjectId id); [|split; reflexivity].
  destruct (ServiceModel.lookup id (services w)); split; reflexivity.
Qed.

(** X18. Reading changes nothing.  The handlers that read a role, a
    service, a page of either, or expand roles leave the services and the
    roles as they were, whether they answer or fail. *)
Theorem reads_change_nothing :
  forall fmt (id : Identifier) (roleIds : list Identifier) (req : Request) (w : World),
    sameCollections w (snd (roles_get fmt id w))
    /\ sameCollections w (snd (services_get fmt id w))
    /\ sameCollections w (snd (roles_list fmt req w))
    /\ sameCollections w (snd (services_list fmt req w))
    /\ sameCollections w (snd (rolexpand_post fmt roleIds w)).
Proof.
  intros fmt id roleIds req w.
  unfold roles_get, services_get, roles_list, services_list, rolexpand_post.
  rewrite !route_world. repeat split.
  - apply roles_get_try_same.
  - apply roles_get_try_same.
  - apply services_get_try_same.
  - apply services_get_try_same.
  - unfold roles_list_try, getRoles, mbind, M_bind, bind, Role.findPage.
    destruct (_ >? maxPageSize); [reflexivity|]. destruct (skipLimit _ _ _); reflexivity.
  - unfold roles_list_try, getRoles, mbind, M_bind, bind, Role.findPage.
    destruct (_ >? maxPageSize); [reflexivity|]. destruct (skipLimit _ _ _); reflexivity.
  - unfold services_list_try, getServices, mbind, M_bind, bind, ServiceModel.findPage.
    destruct (_ >? maxPageSize); [reflexivity|]. destruct (skipLimit _ _ _); reflexivity.
  - unfold services_list_try, getServices, mbind, M_bind, bind, ServiceModel.findPage.
    destruct (_ >? maxPageSize); [reflexivity|]. destruct (skipLimit _ _ _); reflexivity.
  - rewrite rolexpand_post_try_run.
    destruct (rolexpand_loop_same roleIds [] w) as [Hs _].
    destruct (rolexpand_loop roleIds [] w) as [[ids|e] w']; exact Hs.
  - rewrite rolexpand_post_try_run.
    destruct (rolexpand_loop_same roleIds [] w) as [_ Hr].
    destruct (rolexpand_loop roleIds [] w) as [[ids|e] w']; exact Hr.
Qed.

(** ** What every request keeps *)

Lemma NoDup_snoc_fresh {A} (f : A -> Identifier) (l : list A) (x : A) :
  List.find (fun y => sameObjectId (f y) (f x)) l = None ->
  NoDup (map toLowerCase (map f l)) ->
  NoDup (map toLowerCase (map f (l ++ [x]))).
Proof.
  intros Hfresh Hnd. apply find_sameObjectId_None in Hfresh.
  rewrite !map_app. apply NoDup_app. split; [exact Hnd|]. split.
  - intros y Hy Hin. simpl in Hin. apply list_elem_of_In in Hin as [<-|[]].
    apply Hfresh, list_elem_of_In, Hy.
  - simpl. apply NoDup_singleton.
Qed.

Lemma NoDup_drop_one {A} (f : A -> Identifier) (pre post : list A) (x : A) :
  NoDup (map toLowerCase (map f (pre ++ x :: post))) ->
  NoDup (map toLowerCase (map f (pre ++ post))).
Proof.
  rewrite !map_app. simpl. intros Hnd.
  apply NoDup_app in Hnd as (Hpre & Hdis & Hpost).
  apply NoDup_cons in Hpost as [_ Hpost].
  apply NoDup_app. split; [exact Hpre|]. split; [|exact Hpost].
  intros y Hy Hin. apply (Hdis y Hy). right. exact Hin.
Qed.

Lemma ServiceModel_replace_ids s' ss :
  map toLowerCase (map srvc_id (ServiceModel.replace s' ss)) =
  map toLowerCase (map srvc_id ss).
Proof.
  induction ss as [|s0 ss IH]; simpl; [reflexivity|].
  destruct (sameObjectId (srvc_id s0) (srvc_id s')) eqn:E; simpl.
  - apply sameObjectId_spec in E. rewrite E. reflexivity.
  - rewrite IH. reflexivity.
Qed.

Lemma ServiceModel_replace_valid s' ss :
  ServiceModel.validateSync s' = true ->
  Forall (fun s => ServiceModel.validateSync s = true) ss ->
  Forall (fun s => ServiceModel.validateSync s = true) (ServiceModel.replace s' ss).
Proof.
  intros Hv. induction 1 as [|s0 ss H0 H IH]; simpl; [constructor|].
  destruct (sameObjectId (srvc_id s0) (srvc_id s')); constructor; assumption.
Qed.

Lemma ServiceModel_remove_cases id ss :
  ServiceModel.remove id ss = ss
  \/ exists s pre post, ss = pre ++ s :: post /\ ServiceModel.remove id ss = pre ++ post.
Proof.
  destruct (ServiceModel.lookup id ss) as [s|] eqn:E.
  - right. destruct (Service_remove_found _ _ _ E) as (pre & post & H1 & H2). eauto.
  - left. apply ServiceModel_remove_missing, E.
Qed.

Lemma Role_remove_cases id rs :
  Role.remove id rs = rs
  \/ exists r pre post, rs = pre ++ r :: post /\ Role.remove id rs = pre ++ post.
Proof.
  destruct (Role.lookup id rs) as [r|] eqn:E.
  - right. destruct (Role_remove_found _ _ _ E) as (pre & post & H1 & H2). eauto.
  - left. apply Role_remove_missing, E.
Qed.

Lemma ServiceModel_remove_sub id ss s : In s (ServiceModel.remove id ss) -> In s ss.
Proof.
  destruct (ServiceModel_remove_cases id ss) as [->|(s0 & pre & post & -> & ->)]; [auto|].
  intros Hin. apply in_app_or in Hin as [Hin|Hin]; apply in_or_app; simpl; auto.
Qed.

Lemma ServiceModel_remove_nodup id ss :
  NoDup (map toLowerCase (map srvc_id ss)) ->
  NoDup (map toLowerCase (map srvc_id (ServiceModel.remove id ss))).
Proof.
  destruct (ServiceModel_remove_cases id ss) as [->|(s0 & pre & post & -> & ->)]; [auto|].
  apply NoDup_drop_one.
Qed.

Lemma Role_remove_nodup id rs :
  NoDup (map toLowerCase (map role_id rs)) ->
  NoDup (map toLowerCase (map role_id (Role.remove id rs))).
Proof.
  destruct (Role_remove_cases id rs) as [->|(r0 & pre & post & -> & ->)]; [auto|].
  apply NoDup_drop_one.
Qed.

(** What a service handler can leave in the services collection. *)
Lemma services_post_cases fmt newId freshOp newService w :
  roles (snd (services_post fmt newId freshOp newService w)) = roles w
  /\ (services (snd (services_post fmt newId freshOp newService w)) = services w
      \/ exists s, ServiceModel.validateSync s = true
                   /\ ServiceModel.byId (srvc_id s) (services w) = None
                   /\ services (snd (services_post fmt newId freshOp newService w))
                      = services w ++ [s]).
Proof.
  unfold services_post. rewrite route_world.
  destruct (validateServiceSchema newService) as [message|] eqn:E.
  - unfold services_post_try, validateService, mbind, M_bind, bind. rewrite E. simpl. auto.
  - rewrite (services_post_try_run _ _ _ _ E). unfold ServiceModel_insert.
    set (s := mkService newId _ _).
    destruct (ServiceModel.validateSync s) eqn:Hv; [|simpl; auto].
    destruct (ServiceModel.byId (srvc_id s) (services w)) eqn:Hl; [simpl; auto|].
    match goal with |- context [sendAudit ?m ?d ?w1] =>
      pose proof (sendAudit_same m d w1) as [Hs Hr];
      destruct (sendAudit m d w1) as [[[]|e] w2] end;
      simpl in *; rewrite Hs, Hr; (split; [reflexivity|]); right; exists s; auto.
Qed.

Lemma services_put_cases fmt serviceId srvcData w :
  roles (snd (services_put fmt serviceId srvcData w)) = roles w
  /\ (services (snd (services_put fmt serviceId srvcData w)) = services w
      \/ exists s', ServiceModel.validateSync s' = true
                    /\ services (snd (services_put fmt serviceId srvcData w))
                       = ServiceModel.replace s' (services w)).
Proof.
  unfold services_put. rewrite route_world.
  destruct (ServiceModel.lookup serviceId (services w)) as [srvc|] eqn:Hl.
  - rewrite (services_put_try_run _ _ _ _ Hl). cbv zeta.
    set (s' := mkService (srvc_id srvc) _ _).
    destruct (ServiceModel.validateSync s') eqn:Hv; [|simpl; auto].
    match goal with |- context [sendAudit ?m ?d ?w1] =>
      pose proof (sendAudit_same m d w1) as [Hs Hr];
      destruct (sendAudit m d w1) as [[[]|e] w2] end;
      simpl in *; rewrite Hs, Hr; (split; [reflexivity|]); right; exists s'; auto.
  - unfold services_put_try, mbind, M_bind, bind, ServiceModel.findById.
    rewrite Hl. destruct (isObjectId serviceId); simpl; auto.
Qed.

Lemma services_operation_cases fmt freshOp srvcOpAdd w :
  roles (snd (services_operation fmt freshOp srvcOpAdd w)) = roles w
  /\ (services (snd (services_operation fmt freshOp srvcOpAdd w)) = services w
      \/ exists s', ServiceModel.validateSync s' = true
                    /\ services (snd (services_operation fmt freshOp srvcOpAdd w))
                       = ServiceModel.replace s' (services w)).
Proof.
  unfold services_operation. rewrite route_world.
  destruct (ServiceModel.lookup (add_id srvcOpAdd) (services w)) as [srvc|] eqn:Hl.
  - rewrite (services_operation_try_run _ _ _ _ Hl). cbv zeta.
    set (s' := mkService (srvc_id srvc) _ _).
    destruct (ServiceModel.validateSync s') eqn:Hv; [|simpl; auto].
    match goal with |- context [sendAudit ?m ?d ?w1] =>
      pose proof (sendAudit_same m d w1) as [Hs Hr];
      destruct (sendAudit m d w1) as [[[]|e] w2] end;
      simpl in *; rewrite Hs, Hr; (split; [reflexivity|]); right; exists s'; auto.
  - unfold services_operation_try, mbind, M_bind, bind, ServiceModel.findById.
    rewrite Hl. destruct (isObjectId (add_id srvcOpAdd)); simpl; auto.
Qed.

Lemma roles_post_cases fmt newId newRole w :
  services (snd (roles_post fmt newId newRole w)) = services w
  /\ (roles (snd (roles_post fmt newId newRole w)) = roles w
      \/ exists r, Role.byId (role_id r) (roles w) = None
                   /\ roles (snd (roles_post fmt newId newRole w)) = roles w ++ [r]).
Proof.
  unfold roles_post. rewrite route_world.
  destruct (validateRole newRole) as [message|] eqn:E.
  - unfold roles_post_try. rewrite E. simpl. auto.
  - rewrite (roles_post_try_run _ _ _ E).
    destruct (idsLoop _ _ _); [|simpl; auto].
    unfold Role.save. set (r := mkRole newId _ _).
    destruct (Role.validateSync r); [|simpl; auto].
    change (roles (log ServiceFind w)) with (roles w).
    destruct (Role.byId (role_id r) (roles w)) eqn:Hl; [simpl; auto|].
    match goal with |- context [sendAudit ?m ?d ?w1] =>
      pose proof (sendAudit_same m d w1) as [Hs Hr];
      destruct (sendAudit m d w1) as [[[]|e] w2] end;
      simpl in *; rewrite Hs, Hr; (split; [reflexivity|]); right; exists r; auto.
Qed.

Lemma dispatch_keeps fmt c w :
  validServices w -> uniqueIds w ->
  validServices (snd (dispatch fmt c w)) /\ uniqueIds (snd (dispatch fmt c w)).
Proof.
  unfold validServices, uniqueIds. intros Hv [Hns Hnr].
  assert (Hsame : forall w', sameCollections w w' ->
            Forall (fun s => ServiceModel.validateSync s = true) (services w')
            /\ NoDup (map toLowerCase (map srvc_id (services w')))
            /\ NoDup (map toLowerCase (map role_id (roles w')))).
  { intros w' [Hs Hr]. rewrite Hs, Hr. auto. }
  destruct c as [newId freshOp newService|freshOp srvcOpAdd|serviceId srvcData|serviceId
                 |serviceId|req|newId newRole|roleId newRole|roleId|roleId|req|roleIds]; simpl.
  - destruct (services_post_cases fmt newId freshOp newService w)
      as [Hr [Hs|(s & Hvs & Hl & Hs)]]; rewrite Hs, Hr; [auto|].
    split; [apply Forall_app; auto|]. split; [|exact Hnr].
    apply NoDup_snoc_fresh; [exact Hl | exact Hns].
  - destruct (services_operation_cases fmt freshOp srvcOpAdd w)
      as [Hr [Hs|(s' & Hvs & Hs)]]; rewrite Hs, Hr; [auto|].
    split; [apply ServiceModel_replace_valid; assumption|].
    rewrite ServiceModel_replace_ids. auto.
  - destruct (services_put_cases fmt serviceId srvcData w)
      as [Hr [Hs|(s' & Hvs & Hs)]]; rewrite Hs, Hr; [auto|].
    split; [apply ServiceModel_replace_valid; assumption|].
    rewrite ServiceModel_replace_ids. auto.
  - destruct (services_delete_world fmt serviceId w) as [Hs Hr]. rewrite Hs, Hr.
    split; [|split; [apply ServiceModel_remove_nodup, Hns | exact Hnr]].
    rewrite Forall_forall in *. intros s Hin. apply Hv.
    apply list_elem_of_In, (ServiceModel_remove_sub serviceId), list_elem_of_In, Hin.
  - apply Hsame. unfold services_get. rewrite route_world. apply services_get_try_same.
  - apply Hsame. unfold services_list. rewrite route_world.
    unfold services_list_try, getServices, mbind, M_bind, bind, ServiceModel.findPage.
    destruct (_ >? maxPageSize); [split; reflexivity|].
    destruct (skipLimit _ _ _); split; reflexivity.
  - destruct (roles_post_cases fmt newId newRole w) as [Hs [Hr|(r & Hl & Hr)]];
      rewrite Hs, Hr; [auto|].
    split; [exact Hv|]. split; [exact Hns|].
    apply NoDup_snoc_fresh; [exact Hl | exact Hnr].
  - unfold roles_put. rewrite route_world.
    destruct (roles_put_try_collections roleId newRole w) as [Hc|(_ & _ & Hs & Hr)];
      [apply Hsame, Hc|].
    rewrite Hs, Hr, Role_update_ids. auto.
  - destruct (roles_delete_world fmt roleId w) as [Hr Hs]. rewrite Hs, Hr.
    split; [exact Hv|]. split; [exact Hns | apply Role_remove_nodup, Hnr].
  - apply Hsame. unfold roles_get. rewrite route_world. apply roles_get_try_same.
  - apply Hsame. unfold roles_list. rewrite route_world.
    unfold roles_list_try, getRoles, mbind, M_bind, bind, Role.findPage.
    destruct (_ >? maxPageSize); [split; reflexivity|].
    destruct (skipLimit _ _ _); split; reflexivity.
  - apply Hsame. unfold rolexpand_post. rewrite route_world, rolexpand_post_try_run.
    pose proof (rolexpand_loop_same roleIds [] w) as Hc.
    destruct (rolexpand_loop roleIds [] w) as [[ids|e] w']; exact Hc.
Qed.

(** X19. Whatever requests are served, in whatever order and whether they
    succeed or fail, a store whose services all have a name, with named
    operations, and whose services and roles have distinct identifiers, no
    two of them one ObjectId, stays such a store; so does every store that the service reaches from an empty
    one. *)
Theorem serve_keeps_store_invariant :
  forall fmt (cs : list Call) (w : World),
    (validServices w -> uniqueIds w ->
     validServices (serve fmt cs w) /\ uniqueIds (serve fmt cs w))
    /\ (services w = [] -> roles w = [] ->
        validServices (serve fmt cs w) /\ uniqueIds (serve fmt cs w)).
Proof.
  intros fmt cs w.
  assert (H : forall w, validServices w -> uniqueIds w ->
                        validServices (serve fmt cs w) /\ uniqueIds (serve fmt cs w)).
  { unfold serve. induction cs as [|c cs IH]; intros w' Hv Hu; simpl; [auto|].
    destruct (dispatch_keeps fmt c w' Hv Hu) as [Hv' Hu']. apply IH; assumption. }
  split; [apply H|].
  intros Hs Hr. apply H.
  - unfold validServices. rewrite Hs. constructor.
  - unfold uniqueIds. rewrite Hs, Hr. split; constructor.
Qed.

Lemma serve_keeps_store_invariant_witness :
  validServices
    (serve exampleFormatter
       [CallServicesPost idB (fun _ => idY) (mkIServiceDto "Billing" [mkIServiceOperation None "pay"]);
        CallServicesPost idB (fun _ => idZ) (mkIServiceDto "Again" []);
        CallServicesPut idA (mkIServiceDto "" []);
        CallRolesPost idR1 (mkIRoleDto "Duplicate" [idX]);
        CallServicesDelete idA] w0)
  /\ uniqueIds
       (serve exampleFormatter
          [CallServicesPost idB (fun _ => idY) (mkIServiceDto "Billing" [mkIServiceOperation None "pay"]);
           CallServicesPost idB (fun _ => idZ) (mkIServiceDto "Again" []);
           CallServicesPut idA (mkIServiceDto "" []);
           CallRolesPost idR1 (mkIRoleDto "Duplicate" [idX]);
           CallServicesDelete idA] w0).
Proof.
  apply (proj1 (serve_keeps_store_invariant exampleFormatter _ w0)).
  - repeat constructor.
  - split; simpl; repeat constructor; intros H; inversion H.
Defined.

(** ** The Reference Validator, algebraically *)

Lemma idsLoop_app a b srvs :
  idsLoop (a ++ b) srvs true = idsLoop a srvs true && idsLoop b srvs true.
Proof.
  apply Bool.eq_true_iff_eq.
  rewrite andb_true_iff, !idsLoop_true, Forall_app. reflexivity.
Qed.

Lemma registered_perm srvs srvs' id :
  Permutation srvs srvs' -> registered srvs id -> registered srvs' id.
Proof.
  intros Hp (s & op & Hs & Hop & Hid). exists s, op.
  split; [|auto]. apply (Permutation_in _ Hp), Hs.
Qed.

(** X20. The verdict of the Reference Validator on a list put together
    from two lists is the conjunction of its verdicts on the two, and it
    depends neither on the order of the identifiers nor on the order in
    which the store hands out the services. *)
Theorem validateServiceOps_append_and_order :
  forall (a b : list Identifier) (w w' : World),
    (exists va vb,
        fst (validateServiceOps a w) = Ok va
        /\ fst (validateServiceOps b w) = Ok vb
        /\ fst (validateServiceOps (a ++ b) w) = Ok (va && vb))
    /\ (Permutation a b -> fst (validateServiceOps a w) = fst (validateServiceOps b w))
    /\ (Permutation (services w) (services w') ->
        fst (validateServiceOps a w) = fst (validateServiceOps a w')).
Proof.
  intros a b w w'. rewrite !validateServiceOps_run. simpl. split; [|split].
  - exists (idsLoop a (services w) true), (idsLoop b (services w) true).
    rewrite idsLoop_app. auto.
  - intros Hp. f_equal. apply Bool.eq_true_iff_eq. rewrite !idsLoop_true.
    split; intros H; [rewrite <- Hp | rewrite Hp]; exact H.
  - intros Hp. f_equal. apply Bool.eq_true_iff_eq. rewrite !idsLoop_true.
    split; intros H; (eapply Forall_impl; [exact H|]); intros id;
      [apply registered_perm, Hp | apply registered_perm; symmetry; exact Hp].
Qed.

Lemma validateServiceOps_append_and_order_witness :
  fst (validateServiceOps [idX; idY] w0)
  = fst (validateServiceOps [idY; idX] w0).
Proof.
  destruct (validateServiceOps_append_and_order [idX; idY] [idY; idX] w0 w0)
    as (_ & H & _).
  apply H. apply perm_swap.
Defined.

(** ** No write without an audit *)

Lemma read_calls_same fmt c w :
  auditMethod c = Get -> sameCollections w (snd (dispatch fmt c w)).
Proof.
  destruct c; simpl; try discriminate; intros _.
  - unfold services_get. rewrite route_world. apply services_get_try_same.
  - unfold services_list. rewrite route_world.
    unfold services_list_try, getServices, mbind, M_bind, bind, ServiceModel.findPage.
    destruct (_ >? maxPageSize); [split; reflexivity|].
    destruct (skipLimit _ _ _); split; reflexivity.
  - unfold roles_get. rewrite route_world. apply roles_get_try_same.
  - unfold roles_list. rewrite route_world.
    unfold roles_list_try, getRoles, mbind, M_bind, bind, Role.findPage.
    destruct (_ >? maxPageSize); [split; reflexivity|].
    destruct (skipLimit _ _ _); split; reflexivity.
  - unfold rolexpand_post. rewrite route_world, rolexpand_post_try_run.
    pose proof (rolexpand_loop_same roleIds [] w) as Hc.
    destruct (rolexpand_loop roleIds [] w) as [[ids|e] w']; exact Hc.
Qed.

Ltac audited He Hr :=
  rewrite sendAudit_run; simpl; rewrite He, Hr; simpl;
  right; eexists; apply last_snoc.

Lemma write_calls_audited fmt c w :
  auditEnabled w = true -> auditReachable w = true ->
  sameCollections w (snd (dispatch fmt c w))
  \/ exists data, last (trace (snd (dispatch fmt c w))) = Some (AuditPost (auditMethod c) data).
Proof.
  intros He Hr.
  destruct c as [newId freshOp newService|freshOp srvcOpAdd|serviceId srvcData|serviceId
                 |serviceId|req|newId newRole|roleId newRole|roleId|roleId|req|roleIds];
    try (left; apply read_calls_same; reflexivity); simpl.
  - unfold services_post. rewrite route_world.
    destruct (validateServiceSchema newService) as [message|] eqn:E.
    + left. unfold services_post_try, validateService, mbind, M_bind, bind.
      rewrite E. split; reflexivity.
    + rewrite (services_post_try_run _ _ _ _ E). unfold ServiceModel_insert.
      destruct (ServiceModel.validateSync _); [|left; split; reflexivity].
      destruct (ServiceModel.byId _ _); [left; split; reflexivity|].
      audited He Hr.
  - unfold services_operation. rewrite route_world.
    destruct (ServiceModel.lookup (add_id srvcOpAdd) (services w)) as [srvc|] eqn:Hl.
    + rewrite (services_operation_try_run _ _ _ _ Hl). cbv zeta.
      destruct (ServiceModel.validateSync _); [|left; split; reflexivity].
      audited He Hr.
    + left. unfold services_operation_try, mbind, M_bind, bind, ServiceModel.findById.
      rewrite Hl. destruct (isObjectId _); split; reflexivity.
  - unfold services_put. rewrite route_world.
    destruct (ServiceModel.lookup serviceId (services w)) as [srvc|] eqn:Hl.
    + rewrite (services_put_try_run _ _ _ _ Hl). cbv zeta.
      destruct (ServiceModel.validateSync _); [|left; split; reflexivity].
      audited He Hr.
    + left. unfold services_put_try, mbind, M_bind, bind, ServiceModel.findById.
      rewrite Hl. destruct (isObjectId _); split; reflexivity.
  - unfold services_delete. rewrite route_world.
    unfold services_delete_try, mbind, M_bind, bind, ServiceModel.deleteOne.
    destruct (isObjectId serviceId); [|left; split; reflexivity].
    audited He Hr.
  - unfold roles_post. rewrite route_world.
    destruct (validateRole newRole) as [message|] eqn:E.
    + left. unfold roles_post_try. rewrite E. split; reflexivity.
    + rewrite (roles_post_try_run _ _ _ E).
      destruct (idsLoop _ _ _); [|left; split; reflexivity].
      unfold Role.save.
      destruct (Role.validateSync _); [|left; split; reflexivity].
      destruct (Role.byId _ _); [left; split; reflexivity|].
      audited He Hr.
  - unfold roles_put. rewrite route_world, roles_put_try_run.
    destruct (idsLoop _ _ _); [|left; split; reflexivity].
    destruct (isObjectId roleId); [|left; split; reflexivity]. cbv zeta.
    audited He Hr.
  - unfold roles_delete. rewrite route_world, roles_delete_try_run.
    destruct (isObjectId roleId); [|left; split; reflexivity].
    audited He Hr.
Qed.

(** X21. No write goes without an audit.  With auditing on and the audit
    service reachable, every request that changes the services or the roles
    ends with an audit post under the method of the request, POST for a
    creation or added operations, PUT for an update, DELETE for a delete,
    as the last entry of the trace; a request that reads changes neither
    collection. *)
Theorem writes_are_audited :
  forall fmt (c : Call) (w : World),
    auditEnabled w = true ->
    auditReachable w = true ->
    ~ sameCollections w (snd (dispatch fmt c w)) ->
    auditMethod c <> Get
    /\ exists data,
         last (trace (snd (dispatch fmt c w))) = Some (AuditPost (auditMethod c) data).
Proof.
  intros fmt c w He Hr Hchanged. split.
  - intros Hget. apply Hchanged, read_calls_same, Hget.
  - destruct (write_calls_audited fmt c w He Hr) as [Hs|Ha]; [contradiction | exact Ha].
Qed.

Lemma writes_are_audited_witness :
  exists data,
    last (trace (snd (dispatch exampleFormatter (CallServicesDelete idA)
                        (mkWorld [srvA] [editors] true true []))))
    = Some (AuditPost Delete data).
Proof.
  apply (writes_are_audited exampleFormatter (CallServicesDelete idA)
           (mkWorld [srvA] [editors] true true []) eq_refl eq_refl).
  intros [Hs _]. discriminate Hs.
Defined.
